(** * The STAR-CCM+ log parser of [monitor.py]

    A shallow embedding of [parse_starccm_logfile] and of the Python
    built-ins it calls, followed by the properties of the parser.

    Text is a [string] whose characters are read as the code points
    0..255 of a Python [str].  Floats are IEEE binary64 values, given by
    [spec_float] at precision 53 and maximal exponent 1024. *)

From Stdlib Require Import Bool Arith ZArith NArith PArith Lia List.
From Stdlib Require Import Ascii String.
From Stdlib Require Import SpecFloat.
Import ListNotations.

Local Open Scope string_scope.
Local Open Scope list_scope.

(** ** Characters and the [str] methods used by the parser *)

Module Py.

Definition code (c : ascii) : N := N_of_ascii c.

(** [str.isspace] on one character, which is also the class [\s] of a
    [str] pattern: TAB..CR, FS..US, space, NEL and NBSP. *)
Definition isspace (c : ascii) : bool :=
  let n := code c in
  ((9 <=? n) && (n <=? 13) || (28 <=? n) && (n <=? 32)
   || (n =? 133) || (n =? 160))%N.

(** The class [\d] of a [str] pattern: the decimal digits, which below
    code point 256 are '0'..'9'. *)
Definition isdecimal (c : ascii) : bool :=
  let n := code c in ((48 <=? n) && (n <=? 57))%N.

(** [str.isdigit] on one character: the decimal digits and the
    superscript digits two, three and one. *)
Definition isdigit_char (c : ascii) : bool :=
  let n := code c in
  (isdecimal c || (n =? 178) || (n =? 179) || (n =? 185))%N.

Definition digit_val (c : ascii) : N := (code c - 48)%N.

Definition is_empty (s : string) : bool :=
  match s with EmptyString => true | String _ _ => false end.

Fixpoint lstrip (s : string) : string :=
  match s with
  | EmptyString => EmptyString
  | String c r => if isspace c then lstrip r else s
  end.

Fixpoint rstrip (s : string) : string :=
  match s with
  | EmptyString => EmptyString
  | String c r =>
      let r' := rstrip r in
      if isspace c && is_empty r' then EmptyString else String c r'
  end.

(** [s.strip()] *)
Definition strip (s : string) : string := rstrip (lstrip s).

(** [s.startswith(p)] *)
Definition startswith (s p : string) : bool := String.prefix p s.

(** [sub in s] *)
Fixpoint contains (sub s : string) : bool :=
  String.prefix sub s ||
  match s with
  | EmptyString => false
  | String _ r => contains sub r
  end.

Fixpoint all_chars (p : ascii -> bool) (s : string) : bool :=
  match s with
  | EmptyString => true
  | String c r => p c && all_chars p r
  end.

(** [s.isdigit()]: at least one character, all of them digits. *)
Definition isdigit (s : string) : bool :=
  negb (is_empty s) && all_chars isdigit_char s.

Fixpoint decimal_value (acc : N) (s : string) : N :=
  match s with
  | EmptyString => acc
  | String c r => decimal_value (10 * acc + digit_val c)%N r
  end.

(** [int(s)], on the strings the parser passes to it (those for which
    [isdigit] holds): the value of a run of decimal digits; a
    superscript digit is refused with [ValueError] ([None]).  The
    interpreter's limit on the length of the digit string is taken as
    not reached. *)
Definition int_ (s : string) : option Z :=
  if negb (is_empty s) && all_chars isdecimal s
  then Some (Z.of_N (decimal_value 0 s))
  else None.

(** *** [re.split] on runs of white space

    [split_runs k s tok ws] scans [s] with [tok] the piece read so far
    and [ws] the pending run of white space.  A maximal run of at least
    [k] white-space characters is a separator; a shorter run stays in
    the piece. *)
Fixpoint split_runs (k : nat) (s tok ws : string) : list string :=
  match s with
  | EmptyString =>
      if negb (is_empty ws) && (k <=? String.length ws)%nat
      then [tok; EmptyString] else [(tok ++ ws)%string]
  | String c r =>
      if isspace c then split_runs k r tok (ws ++ String c EmptyString)%string
      else if negb (is_empty ws) && (k <=? String.length ws)%nat
           then tok :: split_runs k r (String c EmptyString) EmptyString
           else split_runs k r (tok ++ ws ++ String c EmptyString)%string
                           EmptyString
  end.

(** [re.split(r'\s+', s)] *)
Definition re_split_ws (s : string) : list string :=
  split_runs 1 s EmptyString EmptyString.

(** [re.split(r'\s{2,}', s)] *)
Definition re_split_ws2 (s : string) : list string :=
  split_runs 2 s EmptyString EmptyString.

(** *** The pattern [TimeStep\s+\d+:\s+Time\s+([\d.eE+-]+)]

    Each repetition is followed by an item of a disjoint class, so the
    greedy scan below finds the match whenever the backtracking matcher
    does. *)
Fixpoint eat_lit (p s : string) : option string :=
  match p, s with
  | EmptyString, _ => Some s
  | String a p', String b s' => if Ascii.eqb a b then eat_lit p' s' else None
  | String _ _, EmptyString => None
  end.

Fixpoint span (p : ascii -> bool) (s : string) : string * string :=
  match s with
  | EmptyString => (EmptyString, EmptyString)
  | String c r =>
      if p c then let '(a, b) := span p r in (String c a, b)
      else (EmptyString, s)
  end.

(** One or more characters of class [p], as many as there are. *)
Definition many1 (p : ascii -> bool) (s : string) : option (string * string) :=
  match span p s with
  | (EmptyString, _) => None
  | (a, b) => Some (a, b)
  end.

Definition time_class (c : ascii) : bool :=
  isdecimal c ||
  match c with
  | "."%char | "e"%char | "E"%char | "+"%char | "-"%char => true
  | _ => false
  end.

Definition opt_bind {A B} (o : option A) (f : A -> option B) : option B :=
  match o with Some a => f a | None => None end.

(** [timestep_regex.match(line)], giving [group(1)]. *)
Definition timestep_match (line : string) : option string :=
  opt_bind (eat_lit "TimeStep" line) (fun s1 =>
  opt_bind (many1 isspace s1) (fun '(_, s2) =>
  opt_bind (many1 isdecimal s2) (fun '(_, s3) =>
  opt_bind (eat_lit ":" s3) (fun s4 =>
  opt_bind (many1 isspace s4) (fun '(_, s5) =>
  opt_bind (eat_lit "Time" s5) (fun s6 =>
  opt_bind (many1 isspace s6) (fun '(_, s7) =>
  opt_bind (many1 time_class s7) (fun '(g, _) => Some g)))))))).

(** *** [float(s)]

    The grammar of the built-in: optional sign, then [inf], [infinity]
    or [nan] in any letter case, or a decimal number with optional
    fraction and exponent, where single underscores may stand between
    digits; white space around it is ignored.  [None] is [ValueError]. *)

(** The binary64 value nearest to [(-1)^neg * m * 10^e], ties to even. *)
Definition float_of_decimal (neg : bool) (m : N) (e : Z) : spec_float :=
  match m with
  | N0 => S754_zero neg
  | Npos p =>
      match e with
      | Zneg k =>
          SFdiv 53 1024 (S754_finite neg p 0)
                        (S754_finite false (Pos.pow 10 k) 0)
      | Z0 => binary_round 53 1024 neg p 0
      | Zpos k => binary_round 53 1024 neg (p * Pos.pow 10 k) 0
      end
  end.

Definition eat_sign (s : string) : bool * string :=
  match s with
  | String "-"%char r => (true, r)
  | String "+"%char r => (false, r)
  | _ => (false, s)
  end.

(** The digits that follow the first one of a digit part, without the
    underscores. *)
Fixpoint digitpart_rest (s : string) : string * string :=
  match s with
  | EmptyString => (EmptyString, EmptyString)
  | String c r =>
      if isdecimal c then
        let '(d, t) := digitpart_rest r in (String c d, t)
      else if Ascii.eqb c "_"%char then
        match r with
        | String c' r' =>
            if isdecimal c' then
              let '(d, t) := digitpart_rest r' in (String c' d, t)
            else (EmptyString, s)
        | EmptyString => (EmptyString, s)
        end
      else (EmptyString, s)
  end.

Definition digitpart (s : string) : option (string * string) :=
  match s with
  | EmptyString => None
  | String c r =>
      if isdecimal c then
        let '(d, t) := digitpart_rest r in Some (String c d, t)
      else None
  end.

(** Integer digits, fraction digits and what follows the number. *)
Definition number (s : string) : option (string * string * string) :=
  match digitpart s with
  | Some (i, r) =>
      match r with
      | String "."%char r' =>
          match digitpart r' with
          | Some (f, t) => Some (i, f, t)
          | None => Some (i, EmptyString, r')
          end
      | _ => Some (i, EmptyString, r)
      end
  | None =>
      match s with
      | String "."%char r' =>
          match digitpart r' with
          | Some (f, t) => Some (EmptyString, f, t)
          | None => None
          end
      | _ => None
      end
  end.

(** The exponent part, if a complete one is there. *)
Definition exponent (s : string) : Z * string :=
  match s with
  | String c r =>
      if Ascii.eqb c "e"%char || Ascii.eqb c "E"%char then
        let '(neg, r1) := eat_sign r in
        match digitpart r1 with
        | Some (d, t) =>
            let v := Z.of_N (decimal_value 0 d) in
            ((if neg then - v else v)%Z, t)
        | None => (0%Z, s)
        end
      else (0%Z, s)
  | EmptyString => (0%Z, EmptyString)
  end.

Definition float_finite (neg : bool) (s : string) : option spec_float :=
  match number s with
  | Some (i, f, t) =>
      let '(x, u) := exponent t in
      if is_empty u then
        Some (float_of_decimal neg (decimal_value 0 (i ++ f)%string)
                               (x - Z.of_nat (String.length f))%Z)
      else None
  | None => None
  end.

Definition lower_char (c : ascii) : ascii :=
  let n := code c in
  if ((65 <=? n) && (n <=? 90))%N then ascii_of_N (n + 32) else c.

Fixpoint lower (s : string) : string :=
  match s with
  | EmptyString => EmptyString
  | String c r => String (lower_char c) (lower r)
  end.

Definition inf_or_nan (neg : bool) (s : string) : option spec_float :=
  let l := lower s in
  if String.eqb l "inf" || String.eqb l "infinity" then Some (S754_infinity neg)
  else if String.eqb l "nan" then Some S754_nan
  else None.

Definition float_ (s : string) : option spec_float :=
  let '(neg, r) := eat_sign (strip s) in
  match float_finite neg r with
  | Some v => Some v
  | None => inf_or_nan neg r
  end.

(** [float('nan')] *)
Definition nan : spec_float := S754_nan.

End Py.

(** ** Dictionaries

    A Python [dict] keeps its keys in insertion order, and the parser
    iterates over [items()]: an association list with unique keys. *)

Module Dict.

Definition dict (V : Type) : Type := list (string * V).

Fixpoint get {V} (d : dict V) (k : string) : option V :=
  match d with
  | [] => None
  | (k', v) :: r => if String.eqb k' k then Some v else get r k
  end.

(** [d[k] = v]: an existing key keeps its place. *)
Fixpoint set {V} (d : dict V) (k : string) (v : V) : dict V :=
  match d with
  | [] => [(k, v)]
  | (k', v') :: r =>
      if String.eqb k' k then (k', v) :: r else (k', v') :: set r k v
  end.

Definition keys {V} (d : dict V) : list string := map fst d.

Definition is_empty {V} (d : dict V) : bool :=
  match d with [] => true | _ :: _ => false end.

End Dict.

(** ** The parser state and its exceptions *)

Inductive exn : Type := ValueError | IndexError | KeyError.

Inductive result (A : Type) : Type :=
| Raised (e : exn)
| Done (a : A).
Arguments Raised {A} e.
Arguments Done {A} a.

(** The local variables of [parse_starccm_logfile]. *)
Record pstate : Type := mkState {
  iterations : list Z;
  report_times : list spec_float;
  report_iterations : list Z;
  residuals_data : Dict.dict (list spec_float);
  reports_data : Dict.dict (list spec_float);
  residual_headers_map : Dict.dict nat;
  report_headers_map : Dict.dict nat;
  current_time : spec_float;
  header_line_found : bool;
  iteration_data_started : bool
}.

Definition set_iterations (s : pstate) (x : list Z) : pstate :=
  mkState x (report_times s) (report_iterations s) (residuals_data s)
          (reports_data s) (residual_headers_map s) (report_headers_map s)
          (current_time s) (header_line_found s) (iteration_data_started s).

Definition set_report_times (s : pstate) (x : list spec_float) : pstate :=
  mkState (iterations s) x (report_iterations s) (residuals_data s)
          (reports_data s) (residual_headers_map s) (report_headers_map s)
          (current_time s) (header_line_found s) (iteration_data_started s).

Definition set_report_iterations (s : pstate) (x : list Z) : pstate :=
  mkState (iterations s) (report_times s) x (residuals_data s)
          (reports_data s) (residual_headers_map s) (report_headers_map s)
          (current_time s) (header_line_found s) (iteration_data_started s).

Definition set_residuals_data (s : pstate)
    (x : Dict.dict (list spec_float)) : pstate :=
  mkState (iterations s) (report_times s) (report_iterations s) x
          (reports_data s) (residual_headers_map s) (report_headers_map s)
          (current_time s) (header_line_found s) (iteration_data_started s).

Definition set_reports_data (s : pstate)
    (x : Dict.dict (list spec_float)) : pstate :=
  mkState (iterations s) (report_times s) (report_iterations s)
          (residuals_data s) x (residual_headers_map s) (report_headers_map s)
          (current_time s) (header_line_found s) (iteration_data_started s).

(** The state after a marker line: the time is taken and data may start. *)
Definition set_time (s : pstate) (t : spec_float) : pstate :=
  mkState (iterations s) (report_times s) (report_iterations s)
          (residuals_data s) (reports_data s) (residual_headers_map s)
          (report_headers_map s) t (header_line_found s) true.

(** The state after a header line with the layouts [rm] and [pm]. *)
Definition set_layouts (s : pstate) (rm pm : Dict.dict nat) : pstate :=
  mkState (iterations s) (report_times s) (report_iterations s)
          (residuals_data s) (reports_data s) rm pm
          (current_time s) true (iteration_data_started s).

(** Computations on the state that may raise; what was written before
    the exception stays written. *)
Definition M (A : Type) : Type := pstate -> pstate * result A.

Definition ret {A} (a : A) : M A := fun s => (s, Done a).

Definition raise {A} (e : exn) : M A := fun s => (s, Raised e).

Definition bind {A B} (c : M A) (k : A -> M B) : M B :=
  fun s =>
    match c s with
    | (s', Done a) => k a s'
    | (s', Raised e) => (s', Raised e)
    end.

Definition gets {A} (f : pstate -> A) : M A := fun s => (s, Done (f s)).

Definition modify (f : pstate -> pstate) : M unit := fun s => (f s, Done tt).

Definition lift {A} (r : result A) : M A := fun s => (s, r).

Notation "x <- c ;; k" := (bind c (fun x => k))
  (at level 61, c at next level, right associativity).
Notation "c ;; k" := (bind c (fun _ => k))
  (at level 61, right associativity).

(** [for x in xs: body(x)] *)
Fixpoint for_each {X} (xs : list X) (body : X -> M unit) : M unit :=
  match xs with
  | [] => ret tt
  | x :: r => body x ;; for_each r body
  end.

(** [try: body  except (ValueError, IndexError): handler] *)
Definition try_except (body handler : M unit) : M unit :=
  fun s =>
    match body s with
    | (s', Raised ValueError) => handler s'
    | (s', Raised IndexError) => handler s'
    | r => r
    end.

(** ** [parse_starccm_logfile] *)

Definition expected_residual_cols : list string :=
  ["Continuity"; "X-momentum"; "Y-momentum"; "Z-momentum";
   "Tke"; "Sdr"; "Intermittency"].

(** [x in xs] for a list of strings *)
Definition mem (x : string) (xs : list string) : bool :=
  existsb (String.eqb x) xs.

Definition is_nil {A} (l : list A) : bool :=
  match l with [] => true | _ :: _ => false end.

(** [{key: [] for key in colunas_relatorios_especificadas}] *)
Definition empty_columns (names : list string)
  : Dict.dict (list spec_float) :=
  fold_left (fun d key => Dict.set d key []) names [].

(** The locals as they are before the first line is read. *)
Definition init (colunas_relatorios_especificadas : list string) : pstate :=
  mkState [] [] []
          (map (fun k => (k, [])) expected_residual_cols)
          (empty_columns colunas_relatorios_especificadas)
          [] []
          (S754_zero false) false false.

(** [d[name].append(v)]: the list is looked up before [v] is
    evaluated. *)
Definition append_column (d : Dict.dict (list spec_float)) (name : string)
    (v : result spec_float) : result (Dict.dict (list spec_float)) :=
  match Dict.get d name with
  | None => Raised KeyError
  | Some l =>
      match v with
      | Raised e => Raised e
      | Done x => Done (Dict.set d name (l ++ [x]))
      end
  end.

(** [float(values_str[col_idx]) if col_idx < len(values_str)
     else float('nan')] *)
Definition cell (values_str : list string) (col_idx : nat)
  : result spec_float :=
  if (col_idx <? List.length values_str)%nat then
    match nth_error values_str col_idx with
    | None => Raised IndexError
    | Some tok =>
        match Py.float_ tok with
        | Some x => Done x
        | None => Raised ValueError
        end
    end
  else Done Py.nan.

Definition residual_append (values_str : list string)
    (item : string * nat) : M unit :=
  fun s =>
    match append_column (residuals_data s) (fst item)
                        (cell values_str (snd item)) with
    | Raised e => (s, Raised e)
    | Done d => (set_residuals_data s d, Done tt)
    end.

Definition report_append (values_str : list string)
    (item : string * nat) : M unit :=
  fun s =>
    match append_column (reports_data s) (fst item)
                        (cell values_str (snd item)) with
    | Raised e => (s, Raised e)
    | Done d => (set_reports_data s d, Done tt)
    end.

(** [values_str[idx] not in ['---', '']] *)
Definition not_placeholder (values_str : list string) (idx : nat)
  : result bool :=
  match nth_error values_str idx with
  | None => Raised IndexError
  | Some tok => Done (negb (String.eqb tok "---" || String.eqb tok ""))
  end.

(** The column of the gating field: [report_headers_map.get] of the
    first requested name, when there is one and it is not empty. *)
Definition first_report_col_idx (cols : list string)
    (report_map : Dict.dict nat) : option nat :=
  match cols with
  | [] => None
  | first_report_col_name :: _ =>
      if Py.is_empty first_report_col_name then None
      else Dict.get report_map first_report_col_name
  end.

(** The report part of a row, lines 81 to 88. *)
Definition report_block (cols : list string) (values_str : list string)
    (iter_num : Z) : M unit :=
  report_map <- gets report_headers_map ;;
  match first_report_col_idx cols report_map with
  | None => ret tt
  | Some idx =>
      if (idx <? List.length values_str)%nat then
        present <- lift (not_placeholder values_str idx) ;;
        if (present : bool) then
          modify (fun s => set_report_times s
                             (report_times s ++ [current_time s])) ;;
          modify (fun s => set_report_iterations s
                             (report_iterations s ++ [iter_num])) ;;
          for_each report_map (report_append values_str)
        else ret tt
      else ret tt
  end.

(** The body of the inner [try], lines 74 to 88. *)
Definition row_body (cols : list string) (values_str : list string)
  : M unit :=
  match values_str with
  | [] => ret tt
  | first :: _ =>
      if negb (Py.isdigit first) then ret tt
      else
        iter_num <- lift (match Py.int_ first with
                          | Some n => Done n
                          | None => Raised ValueError
                          end) ;;
        modify (fun s => set_iterations s (iterations s ++ [iter_num])) ;;
        residual_map <- gets residual_headers_map ;;
        for_each residual_map (residual_append values_str) ;;
        report_block cols values_str iter_num
  end.

(** One turn of the loop in the handler, line 92. *)
Definition pad_short (res_name : string) : M unit :=
  fun s =>
    match Dict.get (residuals_data s) res_name with
    | None => (s, Raised KeyError)
    | Some l =>
        if (List.length l <? List.length (iterations s))%nat
        then (set_residuals_data s
                (Dict.set (residuals_data s) res_name (l ++ [Py.nan])),
              Done tt)
        else (s, Done tt)
    end.

(** The handler of the inner [try], lines 90 to 93. *)
Definition row_handler : M unit :=
  fun s =>
    if is_nil (iterations s) then (s, Done tt)
    else
      match Dict.get (residuals_data s) (hd "" expected_residual_cols) with
      | None => (s, Raised KeyError)
      | Some l =>
          if is_nil l || (List.length l <? List.length (iterations s))%nat
          then for_each expected_residual_cols pad_short s
          else (s, Done tt)
      end.

(** The test of line 60. *)
Definition is_header (cols : list string) (line : string) : bool :=
  Py.startswith line "Iteration" && Py.contains "Continuity" line
  && (is_nil cols
      || existsb (fun report_col => Py.contains report_col line) cols).

(** [full_headers_list_parsed], line 62. *)
Definition full_headers_list_parsed (line : string) : list string :=
  map Py.strip
      (filter (fun h => negb (Py.is_empty (Py.strip h)))
              (Py.re_split_ws2 line)).

(** The loop of lines 64 to 66, from position [i] on. *)
Fixpoint header_maps (cols : list string) (i : nat) (headers : list string)
    (temp_residual_map temp_report_map : Dict.dict nat)
  : Dict.dict nat * Dict.dict nat :=
  match headers with
  | [] => (temp_residual_map, temp_report_map)
  | header :: rest =>
      if mem header expected_residual_cols then
        header_maps cols (S i) rest
                    (Dict.set temp_residual_map header i) temp_report_map
      else if mem header cols then
        header_maps cols (S i) rest
                    temp_residual_map (Dict.set temp_report_map header i)
      else header_maps cols (S i) rest temp_residual_map temp_report_map
  end.

(** Lines 61 to 69. *)
Definition read_header (cols : list string) (line : string) (s : pstate)
  : pstate :=
  let '(temp_residual_map, temp_report_map) :=
    header_maps cols 0 (full_headers_list_parsed line) [] [] in
  set_layouts s
    (if Dict.is_empty temp_residual_map then residual_headers_map s
     else temp_residual_map)
    (if Dict.is_empty temp_report_map then report_headers_map s
     else temp_report_map).

(** The test of line 71. *)
Definition is_data_row (s : pstate) (line : string) : bool :=
  header_line_found s && iteration_data_started s
  && (Py.startswith line " "
      || match line with
         | EmptyString => false
         | String c _ => Py.isdigit_char c
         end).

(** The inner [try] with its handler, lines 73 to 93. *)
Definition process_row (cols : list string) (values_str : list string)
  : M unit :=
  try_except (row_body cols values_str) row_handler.

(** What the tests of lines 53, 54, 60 and 71 make of a line. *)
Inductive line_kind : Type :=
| Blank
| Marker (group1 : string)
| Header (line : string)
| DataRow (values_str : list string)
| Noise.

Definition classify (cols : list string) (s : pstate) (raw : string)
  : line_kind :=
  let line := Py.strip raw in
  if Py.is_empty line then Blank
  else
    match Py.timestep_match line with
    | Some group1 => Marker group1
    | None =>
        if is_header cols line then Header line
        else if is_data_row s line
             then DataRow (Py.re_split_ws (Py.strip line))
             else Noise
    end.

(** The body of [for line in f], lines 52 to 93. *)
Definition process_line (cols : list string) (raw : string) : M unit :=
  fun s =>
    match classify cols s raw with
    | Blank => (s, Done tt)
    | Marker group1 =>
        match Py.float_ group1 with
        | None => (s, Raised ValueError)
        | Some t => (set_time s t, Done tt)
        end
    | Header line => (read_header cols line s, Done tt)
    | DataRow values_str => process_row cols values_str s
    | Noise => (s, Done tt)
    end.

(** The lines a text file yields with universal newlines: each of
    LF, CR LF and CR ends a line and is read as LF. *)
Fixpoint file_lines_from (text cur : string) : list string :=
  match text with
  | EmptyString => if Py.is_empty cur then [] else [cur]
  | String c r =>
      if Ascii.eqb c "010"%char then
        (cur ++ String "010"%char EmptyString)%string
          :: file_lines_from r EmptyString
      else if Ascii.eqb c "013"%char then
        match r with
        | String c' r' =>
            if Ascii.eqb c' "010"%char then
              (cur ++ String "010"%char EmptyString)%string
                :: file_lines_from r' EmptyString
            else
              (cur ++ String "010"%char EmptyString)%string
                :: file_lines_from r EmptyString
        | EmptyString => [(cur ++ String "010"%char EmptyString)%string]
        end
      else file_lines_from r (cur ++ String c EmptyString)%string
  end.

Definition file_lines (text : string) : list string :=
  file_lines_from text EmptyString.

(** What [open] and the reading give. *)
Inductive source : Type :=
| Missing
| Unreadable
| Readable (text : string).

(** The five values returned. *)
Record outputs : Type := mkOutputs {
  out_iterations : list Z;
  out_residuals : Dict.dict (list spec_float);
  out_report_iterations : list Z;
  out_report_times : list spec_float;
  out_reports : Dict.dict (list spec_float)
}.

(** [return [], {}, [], [], {}] *)
Definition empty_outputs : outputs := mkOutputs [] [] [] [] [].

(** The [while] and the slice of lines 104 and 105. *)
Definition pad_to (max_len : nat) (l : list spec_float) : list spec_float :=
  firstn max_len (l ++ repeat Py.nan (max_len - List.length l)).

(** Lines 101 to 107. *)
Definition finish (s : pstate) : outputs :=
  mkOutputs
    (iterations s)
    (if is_nil (iterations s) then residuals_data s
     else map (fun kv => (fst kv,
                          pad_to (List.length (iterations s)) (snd kv)))
              (residuals_data s))
    (report_iterations s) (report_times s) (reports_data s).

(** The loop over the lines, from the state [s]. *)
Definition scan (cols : list string) (lines : list string) : M unit :=
  for_each lines (process_line cols).

Definition parse_starccm_logfile (f : source)
    (colunas_relatorios_especificadas : list string) : outputs :=
  match f with
  | Missing => empty_outputs
  | Unreadable => empty_outputs
  | Readable text =>
      match scan colunas_relatorios_especificadas (file_lines text)
                 (init colunas_relatorios_especificadas) with
      | (s, Done _) => finish s
      | (_, Raised _) => empty_outputs
      end
  end.



(** * The other functions of [monitor.py]

    [find_latest_image_in_remote_folder], the parts of [plot_data] that
    decide what is drawn, and the remote paths that the entry point and
    [monitor_simulation] build. *)

(** ** The [str] methods and slices they use *)

Module Str.

(** [c.lower()] on the code points 0..255. *)
Definition lower_char (c : ascii) : ascii :=
  let n := Py.code c in
  if ((65 <=? n) && (n <=? 90)
      || (192 <=? n) && (n <=? 222) && negb (n =? 215))%N
  then ascii_of_N (n + 32)
  else c.

(** [s.lower()] *)
Fixpoint lower (s : string) : string :=
  match s with
  | EmptyString => EmptyString
  | String c r => String (lower_char c) (lower r)
  end.

(** [s.endswith(suffix)] *)
Fixpoint endswith (s suffix : string) : bool :=
  String.eqb s suffix ||
  match s with
  | EmptyString => false
  | String _ r => endswith r suffix
  end.

(** [s.endswith(suffixes)] for a tuple of suffixes. *)
Definition endswith_any (s : string) (suffixes : list string) : bool :=
  existsb (endswith s) suffixes.

(** [s.rfind(c)] for a character [c], counting from [i]; [found] when
    [c] is not in [s]. *)
Fixpoint rfind_from (i : Z) (s : string) (c : ascii) (found : Z) : Z :=
  match s with
  | EmptyString => found
  | String a r => rfind_from (i + 1) r c (if Ascii.eqb a c then i else found)
  end.

(** [s.rfind(c)]: the index of the last [c], or -1. *)
Definition rfind (s : string) (c : ascii) : Z := rfind_from 0 s c (-1).

(** [s[i:]] for [0 <= i]. *)
Fixpoint slice_from (i : nat) (s : string) : string :=
  match i, s with
  | O, _ => s
  | S _, EmptyString => EmptyString
  | S j, String _ r => slice_from j r
  end.

(** [s[:i]] for [0 <= i]. *)
Fixpoint slice_to (i : nat) (s : string) : string :=
  match i, s with
  | S j, String a r => String a (slice_to j r)
  | _, _ => EmptyString
  end.

(** [s.rstrip(c)] for a character [c]. *)
Fixpoint rstrip_char (c : ascii) (s : string) : string :=
  match s with
  | EmptyString => EmptyString
  | String a r =>
      let r' := rstrip_char c r in
      if Ascii.eqb a c && Py.is_empty r' then EmptyString else String a r'
  end.

(** [c * n] *)
Fixpoint times (c : ascii) (n : nat) : string :=
  match n with
  | O => EmptyString
  | S m => String c (times c m)
  end.

End Str.

(** ** [posixpath] *)

Module Posixpath.

Definition sep : ascii := "/"%char.

(** The body of the loop of [join]: one more component [b]. *)
Definition join_step (path b : string) : string :=
  if Py.startswith b (String sep EmptyString) then b
  else if Py.is_empty path || Str.endswith path (String sep EmptyString)
       then (path ++ b)%string
       else (path ++ String sep b)%string.

(** [posixpath.join(a, *p)] *)
Definition join (a : string) (p : list string) : string :=
  fold_left join_step p a.

(** [posixpath.basename(p)] *)
Definition basename (p : string) : string :=
  let i := Z.to_nat (Str.rfind p sep + 1) in
  Str.slice_from i p.

(** [posixpath.dirname(p)] *)
Definition dirname (p : string) : string :=
  let i := Z.to_nat (Str.rfind p sep + 1) in
  let head := Str.slice_to i p in
  if negb (Py.is_empty head)
     && negb (String.eqb head (Str.times sep (String.length head)))
  then Str.rstrip_char sep head
  else head.

End Posixpath.

(** ** [find_latest_image_in_remote_folder] *)

(** What the function reads of an entry of [listdir_attr]: its name and
    its modification time, which is an integer or [None]. *)
Record SFTPAttributes : Type := mkAttr {
  filename : string;
  st_mtime : option Z
}.

(** What the function uses of the SFTP client: the listing of a folder,
    [None] when the call raises. *)
Record sftp_client : Type := mkClient {
  listdir_attr : string -> option (list SFTPAttributes)
}.

(** The dictionary [{'path': ..., 'mtime': ...}]. *)
Record image_file : Type := mkImage {
  path : string;
  mtime : option Z
}.

Definition image_extensions : list string :=
  [".png"; ".jpg"; ".jpeg"; ".gif"; ".bmp"; ".tiff"].

(** The condition of the comprehension. *)
Definition is_image (attr : SFTPAttributes) : bool :=
  Str.endswith_any (Str.lower (filename attr)) image_extensions.

(** The list [image_files_attrs]. *)
Definition image_files_attrs (remote_folder_path : string)
    (folder_contents : list SFTPAttributes) : list image_file :=
  map (fun attr =>
         mkImage (Posixpath.join remote_folder_path [filename attr])
                 (st_mtime attr))
      (filter is_image folder_contents).

(** The loop of [max(items, key=lambda x: x['mtime'])] after its first
    item: the item kept is replaced when the key of the next one is
    greater; a comparison with [None] raises, which gives [None] here. *)
Fixpoint max_loop (maxitem : image_file) (items : list image_file)
  : option image_file :=
  match items with
  | [] => Some maxitem
  | item :: rest =>
      match mtime item, mtime maxitem with
      | Some val, Some maxval =>
          max_loop (if (val >? maxval)%Z then item else maxitem) rest
      | _, _ => None
      end
  end.

(** The function: the path of the newest image, or [None]. *)
Definition find_latest_image_in_remote_folder
    (sftp : sftp_client) (remote_folder_path : string) : option string :=
  match listdir_attr sftp remote_folder_path with
  | None => None
  | Some folder_contents =>
      match image_files_attrs remote_folder_path folder_contents with
      | [] => None
      | first :: rest =>
          match max_loop first rest with
          | Some item => Some (path item)
          | None => None
          end
      end
  end.

(** ** [plot_data]: what is drawn *)

(** [any(v == v for v in values)] *)
Definition any_number (values : list spec_float) : bool :=
  existsb (fun v => SFeqb v v) values.

(** The curves of the residual plot, lines 147 to 149: the fields whose
    column holds a value that is not NaN, each drawn against
    [iterations]. *)
Definition residual_curves (residuals_data : Dict.dict (list spec_float))
  : Dict.dict (list spec_float) :=
  filter (fun kv => any_number (snd kv)) residuals_data.

(** [l[i]] for an integer [i], [None] when it raises IndexError. *)
Definition index {A} (l : list A) (i : Z) : option A :=
  let n := Z.of_nat (List.length l) in
  if (0 <=? i)%Z then nth_error l (Z.to_nat i)
  else if (0 <=? n + i)%Z then nth_error l (Z.to_nat (n + i))
  else None.

(** The limits of the x axis of the residual plot, lines 153 to 156:
    [Some None] when the limits are left alone, [None] when an index
    raises. *)
Definition residual_xlim (iterations : list Z) : option (option (Z * Z)) :=
  if is_nil iterations then Some None
  else
    match index iterations
                (Z.max 0 (Z.of_nat (List.length iterations) - 50)) with
    | None => None
    | Some start_iter =>
        match index iterations (-1) with
        | None => None
        | Some end_iter => Some (Some (start_iter, end_iter))
        end
    end.

(** The test of line 138, on which the function returns at once. *)
Definition nothing_to_plot (iterations : list Z)
    (report_times : list spec_float) : bool :=
  is_nil iterations && is_nil report_times.

(** ** The remote paths *)

(** Line 343 of the entry point. *)
Definition remote_log_full_path (base_dir simulation_folder logfile : string)
  : string :=
  Posixpath.join base_dir [simulation_folder; logfile].

(** Line 240 of [monitor_simulation]. *)
Definition base_remote_dir_log (remote_log_path : string) : string :=
  Posixpath.dirname remote_log_path.

(** Line 241: [case_subfolder] is a string or [None]. *)
Definition base_remote_dir_images (remote_log_path : string)
    (case_subfolder : option string) : string :=
  match case_subfolder with
  | None => base_remote_dir_log remote_log_path
  | Some sub =>
      if Py.is_empty sub then base_remote_dir_log remote_log_path
      else Posixpath.join (base_remote_dir_log remote_log_path) [sub]
  end.

(** Line 201 of [plot_data]. *)
Definition remote_image_folder (base_remote_dir name : string) : string :=
  Posixpath.join base_remote_dir [name].

(** * Vocabulary of the statements

    Functions and predicates the properties are stated with: the loops
    of a row as functions on one dictionary, a row in closed form, the
    states the scan can reach, the positions of header tokens, the
    marker lines, and the sample logs. *)

Import Dict.

(** The value columns of the two output maps. *)
Definition columns : Type := dict (list spec_float).

(** What [for name, col_idx in items: d[name].append(cell)] does to
    [d], and whether it raises. *)
Fixpoint fill (values_str : list string) (items : dict nat) (d : columns)
  : columns * result unit :=
  match items with
  | [] => (d, Done tt)
  | item :: rest =>
      match append_column d (fst item) (cell values_str (snd item)) with
      | Raised e => (d, Raised e)
      | Done d' => fill values_str rest d'
      end
  end.

(** What the loop of the handler does to the residual columns when the
    iterations are [n]. *)
Fixpoint pad_all (n : nat) (names : list string) (d : columns)
  : columns * result unit :=
  match names with
  | [] => (d, Done tt)
  | name :: rest =>
      match get d name with
      | None => (d, Raised KeyError)
      | Some l =>
          if (List.length l <? n)%nat
          then pad_all n rest (set d name (l ++ [Py.nan]))
          else pad_all n rest d
      end
  end.

(** The residual columns after the handler has run in [s]. *)
Definition handler_columns (s : pstate) : columns :=
  if is_nil (iterations s) then residuals_data s
  else
    match get (residuals_data s) "Continuity" with
    | None => residuals_data s
    | Some l =>
        if is_nil l || (List.length l <? List.length (iterations s))%nat
        then fst (pad_all (List.length (iterations s))
                          expected_residual_cols (residuals_data s))
        else residuals_data s
    end.

(** The state after the handler has run in [s]. *)
Definition after_handler (s : pstate) : pstate :=
  set_residuals_data s (handler_columns s).

(** The test of line 84. *)
Definition gate_open (cols : list string) (s : pstate)
    (values_str : list string) : bool :=
  match first_report_col_idx cols (report_headers_map s) with
  | None => false
  | Some idx =>
      match nth_error values_str idx with
      | None => false
      | Some tok => negb (String.eqb tok "---" || String.eqb tok "")
      end
  end.

(** The state after a report sample for iteration [n] was started. *)
Definition with_sample (s : pstate) (n : Z) (p : columns) : pstate :=
  set_reports_data
    (set_report_iterations
       (set_report_times s (report_times s ++ [current_time s]))
       (report_iterations s ++ [n]))
    p.

(** The state in which [process_row] leaves [s]. *)
Definition row_closed_form (cols : list string) (vs : list string)
    (s : pstate) : pstate :=
  match vs with
  | [] => s
  | first :: _ =>
      if negb (Py.isdigit first) then s
      else
        match Py.int_ first with
        | None => after_handler s
        | Some n =>
            let '(d, r) :=
              fill vs (residual_headers_map s) (residuals_data s) in
            let s2 :=
              set_residuals_data (set_iterations s (iterations s ++ [n])) d in
            match r with
            | Raised _ => after_handler s2
            | Done _ =>
                if gate_open cols s vs then
                  let '(p, r2) :=
                    fill vs (report_headers_map s) (reports_data s) in
                  match r2 with
                  | Raised _ => after_handler (with_sample s2 n p)
                  | Done _ => with_sample s2 n p
                  end
                else s2
            end
        end
  end.

(** What holds of every state of the scan: the keys of the two maps,
    the keys of the two layouts, and the lengths of the columns. *)
Record wf (cols : list string) (s : pstate) : Prop := {
  wf_residual_keys : keys (residuals_data s) = expected_residual_cols;
  wf_report_keys : keys (reports_data s) = keys (empty_columns cols);
  wf_residual_map :
    forall k, In k (keys (residual_headers_map s)) ->
              In k expected_residual_cols;
  wf_report_map :
    forall k, In k (keys (report_headers_map s)) ->
              In k cols /\ ~ In k expected_residual_cols;
  wf_residual_map_nodup : NoDup (keys (residual_headers_map s));
  wf_report_map_nodup : NoDup (keys (report_headers_map s));
  wf_residual_len :
    forall k l, get (residuals_data s) k = Some l ->
                (List.length l <= List.length (iterations s))%nat;
  wf_times_len :
    List.length (report_times s) = List.length (report_iterations s);
  wf_report_len :
    forall k l, get (reports_data s) k = Some l ->
                (List.length l <= List.length (report_iterations s))%nat
}.

(** The position of the last token equal to [name], counted from [i]. *)
Fixpoint last_index_from (i : nat) (name : string) (tokens : list string)
  : option nat :=
  match tokens with
  | [] => None
  | t :: rest =>
      match last_index_from (S i) name rest with
      | Some j => Some j
      | None => if String.eqb t name then Some i else None
      end
  end.

(** [o], or [default] when there is none. *)
Definition or_else {A} (o : option A) (default : option A) : option A :=
  match o with Some a => Some a | None => default end.

(** The text captured by the marker pattern on a line, if it matches. *)
Definition marker_of (raw : string) : option string :=
  let line := Py.strip raw in
  if Py.is_empty line then None else Py.timestep_match line.

(** A marker line whose captured text is not a float: line 56 raises. *)
Definition marker_fails (raw : string) : bool :=
  match marker_of raw with
  | Some group1 =>
      match Py.float_ group1 with None => true | Some _ => false end
  | None => false
  end.

(** The newline character. *)
Definition LF : string := String "010"%char EmptyString.

(** The text of a file with the given lines, each ended by a newline. *)
Definition text_of_lines (ls : list string) : string :=
  fold_right (fun l acc => (l ++ LF ++ acc)%string) EmptyString ls.

(** The value of a float literal. *)
Definition float_lit (s : string) : spec_float :=
  match Py.float_ s with Some x => x | None => Py.nan end.

(** Scenario A of the specification, its header single-spaced. *)
Definition scenario_A : string :=
  text_of_lines ["TimeStep 1: Time 0.5";
                 "Iteration Continuity X-momentum";
                 "1  1.0e-3  2.0e-3"].

(** The same log with the header fields two spaces apart. *)
Definition scenario_A_spaced : string :=
  text_of_lines ["TimeStep 1: Time 0.5";
                 "Iteration  Continuity  X-momentum";
                 "1  1.0e-3  2.0e-3"].

(** A log read while the solver was writing its last marker line. *)
Definition truncated_log : string :=
  (text_of_lines ["TimeStep 1: Time 0.5";
                  "Iteration  Continuity  X-momentum";
                  "1  1.0e-3  2.0e-3"]
   ++ "TimeStep 2: Time 1.5e-")%string.

(** Two rows, the first with a token that is not a number. *)
Definition malformed_log : string :=
  text_of_lines ["TimeStep 1: Time 0.5";
                 "Iteration  Continuity  X-momentum  Y-momentum";
                 "1 1.0 abc 3.0";
                 "2 4.0 5.0 6.0"].

(** A log with one report column and a gated row. *)
Definition report_log : string :=
  text_of_lines ["TimeStep 1: Time 0.5";
                 "Iteration  Continuity  Lift";
                 "1 1.0 ---";
                 "2 4.0 5.0";
                 "TimeStep 2: Time 1.5";
                 "3 4.0 6.0"].

(** The rows of [malformed_log] up to the one that fails. *)
Definition failed_row_lines : list string :=
  ["TimeStep 1: Time 0.5";
   "Iteration  Continuity  X-momentum  Y-momentum";
   "1 1.0 abc 3.0"].

(** The state in which the first row of [malformed_log] is read. *)
Definition malformed_header_state : pstate :=
  fst (scan [] ["TimeStep 1: Time 0.5";
                "Iteration  Continuity  X-momentum  Y-momentum"]
            (init [])).

(** The state after a header that gave the report layout a Lift column. *)
Definition lift_header_state : pstate :=
  fst (scan ["Tke"; "Lift"] ["Iteration  Continuity  Lift"]
            (init ["Tke"; "Lift"])).

(** The gating token of a row is ["---"], empty, or beyond its tokens. *)
Definition gating_token_absent (values_str : list string) (idx : nat) : bool :=
  match nth_error values_str idx with
  | None => true
  | Some tok => String.eqb tok "---" || String.eqb tok ""
  end.

(** The state in which the rows of [report_log] are read. *)
Definition report_header_state : pstate :=
  fst (scan ["Lift"] ["TimeStep 1: Time 0.5"; "Iteration  Continuity  Lift"]
            (init ["Lift"])).

(** The physical time of the most recent marker line among [lines],
    starting from [t]: every line on which the marker pattern matches
    gives the float of the text it captures. *)
Fixpoint latest_marker_time (lines : list string) (t : option spec_float)
  : option spec_float :=
  match lines with
  | [] => t
  | raw :: rest =>
      latest_marker_time rest
        (match marker_of raw with
         | Some group1 => Py.float_ group1
         | None => t
         end)
  end.

(** The state agrees with the markers read so far. *)
Definition time_ok (t : option spec_float) (s : pstate) : Prop :=
  match t with
  | Some x => iteration_data_started s = true /\ current_time s = x
  | None => iteration_data_started s = false
  end.

(** A log whose header names Tke, requested as the only report field. *)
Definition tke_log : string :=
  text_of_lines ["TimeStep 1: Time 0.5";
                 "Iteration  Continuity  Tke";
                 "1 1.0 2.0"].

(** A log with a gated row, then a row whose Continuity token is not a
    number while its Lift token is a value. *)
Definition residual_fail_log : string :=
  text_of_lines ["TimeStep 1: Time 0.5";
                 "Iteration  Continuity  Lift";
                 "1 1.0 ---";
                 "2 abc 5.0"].


(** ** Vocabulary of the further properties *)

(** The second alternative of the test of line 71: the first character
    of the line is a digit. *)
Definition starts_with_digit (line : string) : bool :=
  match line with
  | EmptyString => false
  | String c _ => Py.isdigit_char c
  end.

(** The iteration number a row of tokens gives, if it gives one: lines
    74 and 75. *)
Definition row_iteration (values_str : list string) : option Z :=
  match values_str with
  | [] => None
  | first :: _ => if Py.isdigit first then Py.int_ first else None
  end.

(** The iteration numbers of a log, read off its lines with the two
    flags alone: a marker line sets [data_started], a header line sets
    [header_seen], and once both are set every line that starts with a
    digit and whose first token is an integer gives its number. *)
Fixpoint iterations_of (cols : list string) (lines : list string)
    (header_seen data_started : bool) : list Z :=
  match lines with
  | [] => []
  | raw :: rest =>
      let line := Py.strip raw in
      if Py.is_empty line
      then iterations_of cols rest header_seen data_started
      else
        match Py.timestep_match line with
        | Some _ => iterations_of cols rest header_seen true
        | None =>
            if is_header cols line
            then iterations_of cols rest true data_started
            else if header_seen && data_started && starts_with_digit line
                 then
                   match row_iteration (Py.re_split_ws line) with
                   | Some n =>
                       n :: iterations_of cols rest header_seen data_started
                   | None => iterations_of cols rest header_seen data_started
                   end
                 else iterations_of cols rest header_seen data_started
        end
  end.

(** [a] is [b] with some of its elements left out. *)
Inductive subseq {A : Type} : list A -> list A -> Prop :=
| subseq_nil : subseq [] []
| subseq_skip a b x : subseq a b -> subseq a (x :: b)
| subseq_take a b x : subseq a b -> subseq (x :: a) (x :: b).

(** A line that is blank, or is no marker, no header and does not start
    with a digit. *)
Definition ignorable (cols : list string) (raw : string) : bool :=
  let line := Py.strip raw in
  Py.is_empty line
  || (match Py.timestep_match line with Some _ => false | None => true end
      && negb (is_header cols line)
      && negb (starts_with_digit line)).


(** The outputs of a readable log that holds no data. *)
Definition no_data (cols : list string) : outputs :=
  mkOutputs [] (map (fun k => (k, [])) expected_residual_cols) [] []
            (empty_columns cols).

(** The five outputs as they stand in a state. *)
Definition data_of (s : pstate)
  : list Z * list spec_float * list Z * columns * columns :=
  (iterations s, report_times s, report_iterations s,
   residuals_data s, reports_data s).

(** The float a marker line of [lines] captures. *)
Definition marker_time_in (lines : list string) (t : spec_float) : Prop :=
  exists raw group1,
    In raw lines /\ marker_of raw = Some group1 /\
    Py.float_ group1 = Some t.

(** A row number written with a superscript two. *)
Definition superscript_row : string :=
  String "1"%char (String (ascii_of_nat 178) " 1.0").

(** ** Vocabulary for the paths and the images *)

(** No character of [s] is the separator. *)
Definition no_sep (s : string) : bool :=
  Py.all_chars (fun c => negb (Ascii.eqb c Posixpath.sep)) s.

(** A client whose listing of every folder is [contents]. *)
Definition client_listing (contents : list SFTPAttributes) : sftp_client :=
  mkClient (fun _ => Some contents).

(** A folder with a text file and three images, the two newest of the
    same time. *)
Definition pressure_folder : list SFTPAttributes :=
  [mkAttr "notes.txt" (Some 900%Z);
   mkAttr "scene_0001.png" (Some 100%Z);
   mkAttr "scene_0002.PNG" (Some 300%Z);
   mkAttr "scene_0003.jpeg" (Some 300%Z)].

(** Some header line of [lines] has the token [f]. *)
Definition named_in_header (cols : list string) (f : string)
    (lines : list string) : bool :=
  existsb (fun raw => is_header cols (Py.strip raw)
                      && mem f (full_headers_list_parsed (Py.strip raw)))
          lines.

(** * Properties *)

Module DictFacts.
Import Dict.

Section Facts.
Context {V : Type}.
Implicit Types (d : dict V) (k : string) (v : V).

Lemma get_set_eq d k v : get (set d k v) k = Some v.
Proof.
  induction d as [|[k' v'] d IH]; simpl.
  - now rewrite String.eqb_refl.
  - destruct (String.eqb k' k) eqn:E; simpl; rewrite E; auto.
Qed.

Lemma get_set_neq d k k' v : k <> k' -> get (set d k v) k' = get d k'.
Proof.
  intros Hne. induction d as [|[k0 v0] d IH]; simpl.
  - apply String.eqb_neq in Hne. now rewrite Hne.
  - destruct (String.eqb k0 k) eqn:E; simpl.
    + apply String.eqb_eq in E. subst k0.
      apply String.eqb_neq in Hne. now rewrite Hne.
    + now rewrite IH.
Qed.

Lemma get_some_in_keys d k v : get d k = Some v -> In k (keys d).
Proof.
  induction d as [|[k' v'] d IH]; simpl; [discriminate|].
  destruct (String.eqb k' k) eqn:E.
  - apply String.eqb_eq in E. auto.
  - auto.
Qed.

Lemma in_keys_get d k : In k (keys d) -> exists v, get d k = Some v.
Proof.
  induction d as [|[k' v'] d IH]; simpl; [tauto|].
  intros [->|Hin].
  - rewrite String.eqb_refl. eauto.
  - destruct (String.eqb k' k); eauto.
Qed.

Lemma get_none_not_in_keys d k : get d k = None -> ~ In k (keys d).
Proof.
  intros Hn Hin. apply in_keys_get in Hin as [v Hv]. congruence.
Qed.

Lemma keys_set_present d k v : In k (keys d) -> keys (set d k v) = keys d.
Proof.
  induction d as [|[k' v'] d IH]; simpl; [tauto|].
  intros Hin. destruct (String.eqb k' k) eqn:E; simpl; [reflexivity|].
  f_equal. apply IH. destruct Hin as [->|]; [|assumption].
  now rewrite String.eqb_refl in E.
Qed.

Lemma keys_set_absent d k v :
  ~ In k (keys d) -> keys (set d k v) = keys d ++ [k].
Proof.
  induction d as [|[k' v'] d IH]; simpl; [reflexivity|].
  intros Hnin. destruct (String.eqb k' k) eqn:E.
  - apply String.eqb_eq in E. tauto.
  - simpl. f_equal. apply IH. tauto.
Qed.

Lemma in_keys_set d k v k' :
  In k' (keys (set d k v)) <-> k' = k \/ In k' (keys d).
Proof.
  destruct (in_dec string_dec k (keys d)) as [Hin|Hnin].
  - rewrite keys_set_present by assumption. intuition congruence.
  - rewrite keys_set_absent by assumption. rewrite in_app_iff. simpl.
    intuition congruence.
Qed.

Lemma NoDup_keys_set d k v : NoDup (keys d) -> NoDup (keys (set d k v)).
Proof.
  intros Hnd. destruct (in_dec string_dec k (keys d)) as [Hin|Hnin].
  - now rewrite keys_set_present.
  - rewrite keys_set_absent by assumption.
    apply NoDup_app; [assumption|repeat constructor; simpl; tauto|].
    intros x Hx [<-|[]]. tauto.
Qed.

Lemma set_not_empty d k v : is_empty (set d k v) = false.
Proof.
  destruct d as [|[k' v'] d]; simpl; [|destruct (String.eqb k' k)]; auto.
Qed.

End Facts.
End DictFacts.

Import DictFacts.

Lemma set_residuals_data_same s : set_residuals_data s (residuals_data s) = s.
Proof. now destruct s. Qed.

Lemma set_reports_data_same s : set_reports_data s (reports_data s) = s.
Proof. now destruct s. Qed.

Lemma residual_loop_fill vs items s :
  for_each items (residual_append vs) s =
  (set_residuals_data s (fst (fill vs items (residuals_data s))),
   snd (fill vs items (residuals_data s))).
Proof.
  revert s. induction items as [|item rest IH]; intros s; simpl.
  - unfold ret. now rewrite set_residuals_data_same.
  - unfold bind, residual_append.
    destruct (append_column (residuals_data s) (fst item)
                            (cell vs (snd item))) as [e|d'].
    + now rewrite set_residuals_data_same.
    + rewrite IH. now destruct s.
Qed.

Lemma report_loop_fill vs items s :
  for_each items (report_append vs) s =
  (set_reports_data s (fst (fill vs items (reports_data s))),
   snd (fill vs items (reports_data s))).
Proof.
  revert s. induction items as [|item rest IH]; intros s; simpl.
  - unfold ret. now rewrite set_reports_data_same.
  - unfold bind, report_append.
    destruct (append_column (reports_data s) (fst item)
                            (cell vs (snd item))) as [e|d'].
    + now rewrite set_reports_data_same.
    + rewrite IH. now destruct s.
Qed.

Lemma pad_loop_pad_all names s :
  for_each names pad_short s =
  (set_residuals_data s
     (fst (pad_all (List.length (iterations s)) names (residuals_data s))),
   snd (pad_all (List.length (iterations s)) names (residuals_data s))).
Proof.
  revert s. induction names as [|name rest IH]; intros s; simpl.
  - unfold ret. now rewrite set_residuals_data_same.
  - unfold bind, pad_short.
    destruct (get (residuals_data s) name) as [l|].
    + destruct (List.length l <? List.length (iterations s))%nat.
      * rewrite IH. now destruct s.
      * rewrite IH. reflexivity.
    + now rewrite set_residuals_data_same.
Qed.

(** A cell is a float or a [ValueError]; the index is guarded. *)
Lemma cell_cases vs c :
  (exists x, cell vs c = Done x) \/ cell vs c = Raised ValueError.
Proof.
  unfold cell. destruct (c <? List.length vs)%nat eqn:E; [|eauto].
  apply Nat.ltb_lt in E.
  destruct (nth_error vs c) as [tok|] eqn:Hn.
  - destruct (Py.float_ tok); eauto.
  - apply nth_error_None in Hn. lia.
Qed.

Lemma append_column_done d name v d' :
  append_column d name v = Done d' ->
  exists l x, get d name = Some l /\ v = Done x /\ d' = set d name (l ++ [x]).
Proof.
  unfold append_column. destruct (get d name) as [l|]; [|discriminate].
  destruct v as [e|x]; [discriminate|]. intros [= <-]. eauto.
Qed.

Lemma append_column_raised d name v e :
  append_column d name v = Raised e ->
  (get d name = None /\ e = KeyError) \/
  (In name (keys d) /\ v = Raised e).
Proof.
  unfold append_column. destruct (get d name) as [l|] eqn:Hg.
  - destruct v as [e'|x]; [|discriminate]. intros [= <-].
    right. eauto using get_some_in_keys.
  - intros [= <-]. auto.
Qed.

Section Fill.
Variable vs : list string.

Lemma fill_keys items d : keys (fst (fill vs items d)) = keys d.
Proof.
  revert d. induction items as [|item rest IH]; intros d; simpl; auto.
  destruct (append_column d (fst item) (cell vs (snd item))) as [e|d'] eqn:E;
    auto.
  apply append_column_done in E as (l & x & Hg & _ & ->).
  rewrite IH. apply keys_set_present. eauto using get_some_in_keys.
Qed.

Lemma fill_result items d :
  (forall k, In k (keys items) -> In k (keys d)) ->
  snd (fill vs items d) = Done tt \/ snd (fill vs items d) = Raised ValueError.
Proof.
  revert d. induction items as [|item rest IH]; intros d Hsub; simpl; auto.
  destruct (append_column d (fst item) (cell vs (snd item))) as [e|d'] eqn:E.
  - apply append_column_raised in E as [[Hg _]|[_ Hc]].
    + exfalso. apply (get_none_not_in_keys _ _ Hg). apply Hsub. simpl. auto.
    + destruct (cell_cases vs (snd item)) as [[x Hx]|Hx];
        rewrite Hx in Hc; [discriminate|]. injection Hc as <-. auto.
  - apply IH. intros k Hk.
    apply append_column_done in E as (l & x & Hg & _ & ->).
    rewrite keys_set_present by eauto using get_some_in_keys.
    apply Hsub. simpl. auto.
Qed.

Lemma fill_unchanged items d k :
  ~ In k (keys items) -> get (fst (fill vs items d)) k = get d k.
Proof.
  revert d. induction items as [|item rest IH]; intros d Hnin; simpl; auto.
  simpl in Hnin.
  destruct (append_column d (fst item) (cell vs (snd item))) as [e|d'] eqn:E;
    auto.
  apply append_column_done in E as (l & x & Hg & _ & ->).
  rewrite IH by tauto. apply get_set_neq. tauto.
Qed.

(** Each column gets at most one value, the cell of its own entry. *)
Lemma fill_get items d k :
  NoDup (keys items) ->
  get (fst (fill vs items d)) k = get d k \/
  exists l c x, In (k, c) items /\ cell vs c = Done x /\
                get d k = Some l /\
                get (fst (fill vs items d)) k = Some (l ++ [x]).
Proof.
  revert d. induction items as [|[name c] rest IH]; intros d Hnd; simpl; auto.
  inversion Hnd as [|? ? Hnin Hnd']; subst.
  destruct (append_column d name (cell vs c)) as [e|d'] eqn:E; auto.
  apply append_column_done in E as (l & x & Hg & Hc & ->).
  destruct (string_dec name k) as [->|Hne].
  - right. exists l, c, x. rewrite fill_unchanged by assumption.
    rewrite get_set_eq. auto.
  - destruct (IH (set d name (l ++ [x])) Hnd') as [H|(l' & c' & x' & H)].
    + left. rewrite H. now apply get_set_neq.
    + right. exists l', c', x'. rewrite get_set_neq in H by assumption.
      intuition.
Qed.

(** When the loop ends without an exception every entry was served. *)
Lemma fill_done_get items d k c :
  NoDup (keys items) -> snd (fill vs items d) = Done tt -> In (k, c) items ->
  exists l x, cell vs c = Done x /\ get d k = Some l /\
              get (fst (fill vs items d)) k = Some (l ++ [x]).
Proof.
  revert d. induction items as [|[name c'] rest IH]; intros d Hnd Hr Hin;
    simpl in *; [tauto|].
  inversion Hnd as [|? ? Hnin Hnd']; subst.
  destruct (append_column d name (cell vs c')) as [e|d'] eqn:E;
    [discriminate|].
  apply append_column_done in E as (l & x & Hg & Hc & ->).
  destruct Hin as [[= -> ->]|Hin].
  - exists l, x. rewrite fill_unchanged by assumption.
    rewrite get_set_eq. auto.
  - destruct (IH _ Hnd' Hr Hin) as (l' & x' & Hc' & Hg' & Hf).
    assert (name <> k).
    { intros ->. apply Hnin. change k with (fst (k, c)).
      now apply in_map. }
    rewrite get_set_neq in Hg' by assumption. eauto.
Qed.

Lemma fill_app a b d :
  fill vs (a ++ b) d =
  match fill vs a d with
  | (d1, Done _) => fill vs b d1
  | r => r
  end.
Proof.
  revert d. induction a as [|item rest IH]; intros d; simpl; auto.
  destruct (append_column d (fst item) (cell vs (snd item))); auto.
Qed.

Lemma fill_all_done items d :
  (forall k, In k (keys items) -> In k (keys d)) ->
  Forall (fun item => exists x, cell vs (snd item) = Done x) items ->
  snd (fill vs items d) = Done tt.
Proof.
  revert d. induction items as [|item rest IH]; intros d Hsub Hok; simpl; auto.
  inversion Hok as [|? ? [x Hx] Hok']; subst.
  destruct (in_keys_get d (fst item)) as [l Hl]; [apply Hsub; simpl; auto|].
  unfold append_column. rewrite Hl, Hx. apply IH; [|assumption].
  intros k Hk. rewrite keys_set_present by eauto using get_some_in_keys.
  apply Hsub. simpl. auto.
Qed.

End Fill.

Section PadAll.
Variable n : nat.

Lemma pad_all_keys names d : keys (fst (pad_all n names d)) = keys d.
Proof.
  revert d. induction names as [|name rest IH]; intros d; simpl; auto.
  destruct (get d name) as [l|] eqn:Hg; auto.
  destruct (List.length l <? n)%nat; auto.
  rewrite IH. apply keys_set_present. eauto using get_some_in_keys.
Qed.

Lemma pad_all_result names d :
  (forall k, In k names -> In k (keys d)) ->
  snd (pad_all n names d) = Done tt.
Proof.
  revert d. induction names as [|name rest IH]; intros d Hsub; simpl; auto.
  destruct (in_keys_get d name) as [l Hl]; [apply Hsub; simpl; auto|].
  rewrite Hl. destruct (List.length l <? n)%nat; apply IH; intros k Hk.
  - rewrite keys_set_present by eauto using get_some_in_keys.
    apply Hsub. simpl. auto.
  - apply Hsub. simpl. auto.
Qed.

Lemma pad_all_unchanged names d k :
  ~ In k names -> get (fst (pad_all n names d)) k = get d k.
Proof.
  revert d. induction names as [|name rest IH]; intros d Hnin; simpl; auto.
  simpl in Hnin. destruct (get d name) as [l|] eqn:Hg; auto.
  destruct (List.length l <? n)%nat; rewrite IH by tauto; auto.
  apply get_set_neq. tauto.
Qed.

(** A column is left as it is or gets one NaN, and only a short one. *)
Lemma pad_all_get names d k :
  NoDup names ->
  get (fst (pad_all n names d)) k = get d k \/
  exists l, get d k = Some l /\ (List.length l < n)%nat /\
            get (fst (pad_all n names d)) k = Some (l ++ [Py.nan]).
Proof.
  revert d. induction names as [|name rest IH]; intros d Hnd; simpl; auto.
  inversion Hnd as [|? ? Hnin Hnd']; subst.
  destruct (get d name) as [l|] eqn:Hg; auto.
  destruct (List.length l <? n)%nat eqn:E; auto.
  apply Nat.ltb_lt in E.
  destruct (string_dec name k) as [->|Hne].
  - right. exists l. rewrite pad_all_unchanged by assumption.
    rewrite get_set_eq. auto.
  - destruct (IH (set d name (l ++ [Py.nan])) Hnd') as [H|(l' & H)].
    + left. rewrite H. now apply get_set_neq.
    + right. exists l'. rewrite get_set_neq in H by assumption. intuition.
Qed.

End PadAll.

Lemma row_handler_spec s :
  keys (residuals_data s) = expected_residual_cols ->
  row_handler s = (after_handler s, Done tt).
Proof.
  intros Hk. unfold row_handler, after_handler, handler_columns.
  destruct (is_nil (iterations s)); [now rewrite set_residuals_data_same|].
  simpl hd.
  destruct (get (residuals_data s) "Continuity") as [l|] eqn:Hg.
  - destruct (is_nil l || (List.length l <? List.length (iterations s))%nat).
    + rewrite pad_loop_pad_all. f_equal. apply pad_all_result.
      intros k Hin. now rewrite Hk.
    + now rewrite set_residuals_data_same.
  - exfalso. apply (get_none_not_in_keys _ _ Hg). rewrite Hk. simpl. auto.
Qed.

Lemma report_block_spec cols vs n s :
  report_block cols vs n s =
  if gate_open cols s vs then
    (with_sample s n (fst (fill vs (report_headers_map s) (reports_data s))),
     snd (fill vs (report_headers_map s) (reports_data s)))
  else (s, Done tt).
Proof.
  unfold report_block, gate_open, bind, gets.
  destruct (first_report_col_idx cols (report_headers_map s)) as [idx|];
    [|reflexivity].
  destruct (idx <? List.length vs)%nat eqn:E.
  - unfold lift, not_placeholder.
    destruct (nth_error vs idx) as [tok|] eqn:Hn.
    + destruct (negb (String.eqb tok "---" || String.eqb tok ""));
        [|reflexivity].
      unfold modify. rewrite report_loop_fill. reflexivity.
    + apply nth_error_None in Hn. apply Nat.ltb_lt in E. lia.
  - apply Nat.ltb_ge in E.
    destruct (nth_error vs idx) as [tok|] eqn:Hn; [|reflexivity].
    assert (nth_error vs idx <> None) as Hs by congruence.
    apply nth_error_Some in Hs. lia.
Qed.

Lemma empty_columns_from names (d : columns) k :
  In k (keys (fold_left (fun d key => set d key []) names d)) <->
  In k names \/ In k (keys d).
Proof.
  revert d. induction names as [|name rest IH]; intros d; simpl.
  - tauto.
  - rewrite IH, in_keys_set. intuition congruence.
Qed.

Lemma in_keys_empty_columns names k :
  In k (keys (empty_columns names)) <-> In k names.
Proof. unfold empty_columns. rewrite empty_columns_from. simpl. tauto. Qed.

Lemma NoDup_keys_empty_columns names : NoDup (keys (empty_columns names)).
Proof.
  unfold empty_columns.
  assert (forall d : columns, NoDup (keys d) ->
            NoDup (keys (fold_left (fun d key => set d key []) names d))) as H.
  { induction names as [|name rest IH]; intros d Hd; simpl; auto.
    apply IH. now apply NoDup_keys_set. }
  apply H. constructor.
Qed.

Lemma get_empty_columns names k l :
  get (empty_columns names) k = Some l -> l = [].
Proof.
  unfold empty_columns.
  assert (forall d : columns,
            (forall l, get d k = Some l -> l = []) ->
            forall l, get (fold_left (fun d key => set d key []) names d) k
                      = Some l -> l = []) as H.
  { induction names as [|name rest IH]; intros d Hd l0; simpl; auto.
    apply IH. intros l1. destruct (string_dec name k) as [->|Hne].
    - rewrite get_set_eq. congruence.
    - rewrite get_set_neq by assumption. auto. }
  apply H. discriminate.
Qed.

Lemma get_init_residuals names k l :
  get (map (fun k => (k, @nil spec_float)) names) k = Some l -> l = [].
Proof.
  induction names as [|name rest IH]; simpl; [discriminate|].
  destruct (String.eqb name k); [congruence|assumption].
Qed.

Lemma wf_init cols : wf cols (init cols).
Proof.
  split; unfold init;
    cbn [residuals_data reports_data residual_headers_map report_headers_map
         iterations report_times report_iterations].
  - unfold keys. rewrite map_map. apply map_id.
  - reflexivity.
  - intros k [].
  - intros k [].
  - constructor.
  - constructor.
  - intros k l H. apply get_init_residuals in H. subst. auto.
  - reflexivity.
  - intros k l H. apply get_empty_columns in H. subst. auto.
Qed.

(** Under [wf] a row raises nothing that leaves the inner [try]. *)
Lemma process_row_closed cols vs s :
  wf cols s ->
  process_row cols vs s = (row_closed_form cols vs s, Done tt).
Proof.
  intros W. unfold process_row, try_except, row_body, row_closed_form.
  destruct vs as [|first rest]; [reflexivity|].
  destruct (negb (Py.isdigit first)); [reflexivity|].
  unfold bind at 1. unfold lift.
  destruct (Py.int_ first) as [n|];
    [|apply row_handler_spec, (wf_residual_keys _ _ W)].
  unfold bind at 1. unfold modify. unfold bind at 1. unfold gets.
  unfold bind at 1. rewrite residual_loop_fill.
  cbn [residual_headers_map residuals_data set_iterations].
  pose proof (fill_keys (first :: rest) (residual_headers_map s)
                        (residuals_data s)) as Hk.
  pose proof (fill_result (first :: rest) (residual_headers_map s)
                          (residuals_data s)) as Hr.
  destruct (fill (first :: rest) (residual_headers_map s) (residuals_data s))
    as [d r]. simpl in Hk, Hr. cbn [fst snd].
  rewrite (wf_residual_keys _ _ W) in Hk.
  destruct Hr as [->| ->].
  - intros k Hin. rewrite (wf_residual_keys _ _ W).
    now apply (wf_residual_map _ _ W).
  - rewrite report_block_spec.
    match goal with
    | |- context [gate_open cols ?t _] =>
        change (gate_open cols t (first :: rest))
          with (gate_open cols s (first :: rest))
    end.
    destruct (gate_open cols s (first :: rest)); [|reflexivity].
    cbn [report_headers_map reports_data set_residuals_data set_iterations].
    pose proof (fill_result (first :: rest) (report_headers_map s)
                            (reports_data s)) as Hr2.
    destruct (fill (first :: rest) (report_headers_map s) (reports_data s))
      as [p r2]. simpl in Hr2. cbn [fst snd].
    destruct Hr2 as [->| ->].
    + intros k Hin. rewrite (wf_report_keys _ _ W).
      apply in_keys_empty_columns. now apply (wf_report_map _ _ W).
    + reflexivity.
    + now apply row_handler_spec.
  - now apply row_handler_spec.
Qed.

Lemma NoDup_expected_residual_cols : NoDup expected_residual_cols.
Proof.
  unfold expected_residual_cols.
  repeat (constructor; [cbn [In]; intuition discriminate|]). constructor.
Qed.

Lemma handler_columns_keys s :
  keys (handler_columns s) = keys (residuals_data s).
Proof.
  unfold handler_columns. destruct (is_nil (iterations s)); auto.
  destruct (get (residuals_data s) "Continuity") as [l|]; auto.
  destruct (is_nil l || (List.length l <? List.length (iterations s))%nat);
    auto using pad_all_keys.
Qed.

(** The handler leaves a column as it is or gives a short one a NaN. *)
Lemma handler_columns_get s k :
  get (handler_columns s) k = get (residuals_data s) k \/
  exists l, get (residuals_data s) k = Some l /\
            (List.length l < List.length (iterations s))%nat /\
            get (handler_columns s) k = Some (l ++ [Py.nan]).
Proof.
  unfold handler_columns. destruct (is_nil (iterations s)); auto.
  destruct (get (residuals_data s) "Continuity") as [l|]; auto.
  destruct (is_nil l || (List.length l <? List.length (iterations s))%nat);
    auto using pad_all_get, NoDup_expected_residual_cols.
Qed.

Lemma wf_after_handler cols s : wf cols s -> wf cols (after_handler s).
Proof.
  intros W. destruct W. unfold after_handler.
  split;
    cbn [residuals_data reports_data residual_headers_map report_headers_map
         iterations report_times report_iterations set_residuals_data];
    auto.
  - now rewrite handler_columns_keys.
  - intros k l H.
    destruct (handler_columns_get s k) as [E|(l' & Hl' & Hlt & E)];
      rewrite E in H.
    + eauto.
    + injection H as <-. rewrite length_app. simpl. lia.
Qed.

Lemma wf_accept cols vs n s :
  wf cols s ->
  wf cols (set_residuals_data
             (set_iterations s (iterations s ++ [n]))
             (fst (fill vs (residual_headers_map s) (residuals_data s)))).
Proof.
  intros W. destruct W.
  split;
    cbn [residuals_data reports_data residual_headers_map report_headers_map
         iterations report_times report_iterations set_residuals_data
         set_iterations];
    auto.
  - now rewrite fill_keys.
  - intros k l H. rewrite length_app. simpl.
    destruct (fill_get vs (residual_headers_map s) (residuals_data s) k)
      as [E|(l' & c & x & _ & _ & Hl' & E)]; auto; rewrite E in H.
    + apply wf_residual_len0 in H. lia.
    + injection H as <-. apply wf_residual_len0 in Hl'.
      rewrite length_app. simpl. lia.
Qed.

Lemma wf_with_sample cols vs n s :
  wf cols s ->
  wf cols (with_sample s n
             (fst (fill vs (report_headers_map s) (reports_data s)))).
Proof.
  intros W. destruct W. unfold with_sample.
  split;
    cbn [residuals_data reports_data residual_headers_map report_headers_map
         iterations report_times report_iterations set_reports_data
         set_report_iterations set_report_times];
    auto.
  - now rewrite fill_keys.
  - rewrite !length_app. simpl. lia.
  - intros k l H. rewrite length_app. simpl.
    destruct (fill_get vs (report_headers_map s) (reports_data s) k)
      as [E|(l' & c & x & _ & _ & Hl' & E)]; auto; rewrite E in H.
    + apply wf_report_len0 in H. lia.
    + injection H as <-. apply wf_report_len0 in Hl'.
      rewrite length_app. simpl. lia.
Qed.

Lemma wf_row cols vs s : wf cols s -> wf cols (row_closed_form cols vs s).
Proof.
  intros W. unfold row_closed_form.
  destruct vs as [|first rest]; auto.
  destruct (negb (Py.isdigit first)); auto.
  destruct (Py.int_ first) as [n|]; [|now apply wf_after_handler].
  pose proof (wf_accept cols (first :: rest) n s W) as W2.
  destruct (fill (first :: rest) (residual_headers_map s) (residuals_data s))
    as [d r]. cbn [fst] in W2.
  destruct r as [e|[]]; [now apply wf_after_handler|].
  destruct (gate_open cols s (first :: rest)); auto.
  pose proof (wf_with_sample cols (first :: rest) n _ W2) as W3.
  cbn [report_headers_map reports_data set_residuals_data set_iterations]
    in W3.
  destruct (fill (first :: rest) (report_headers_map s) (reports_data s))
    as [p r2]. cbn [fst] in W3.
  destruct r2 as [e|[]]; auto using wf_after_handler.
Qed.

Lemma mem_In x xs : mem x xs = true <-> In x xs.
Proof.
  unfold mem. rewrite existsb_exists. split.
  - intros (y & Hin & E). apply String.eqb_eq in E. now subst.
  - intros Hin. exists x. now rewrite String.eqb_refl.
Qed.

Lemma mem_false x xs : mem x xs = false <-> ~ In x xs.
Proof.
  rewrite <- mem_In. destruct (mem x xs); intuition congruence.
Qed.

Section HeaderMaps.
Variable cols : list string.

Lemma header_maps_residual_get i hs tr tp name :
  get (fst (header_maps cols i hs tr tp)) name =
  if mem name expected_residual_cols
  then or_else (last_index_from i name hs) (get tr name)
  else get tr name.
Proof.
  revert i tr tp. induction hs as [|h rest IH]; intros i tr tp;
    cbn [header_maps last_index_from fst or_else].
  - now destruct (mem name expected_residual_cols).
  - destruct (mem h expected_residual_cols) eqn:Hh;
      [|destruct (mem h cols)]; rewrite IH;
      destruct (String.eqb_spec h name) as [->|Hne];
      try rewrite Hh;
      try rewrite get_set_eq; try (rewrite get_set_neq by assumption);
      destruct (last_index_from (S i) name rest);
      destruct (mem name expected_residual_cols); reflexivity.
Qed.

Lemma header_maps_report_get i hs tr tp name :
  get (snd (header_maps cols i hs tr tp)) name =
  if mem name cols && negb (mem name expected_residual_cols)
  then or_else (last_index_from i name hs) (get tp name)
  else get tp name.
Proof.
  revert i tr tp. induction hs as [|h rest IH]; intros i tr tp;
    cbn [header_maps last_index_from snd or_else].
  - now destruct (mem name cols && negb (mem name expected_residual_cols)).
  - destruct (mem h expected_residual_cols) eqn:Hh;
      [|destruct (mem h cols) eqn:Hc]; rewrite IH;
      destruct (String.eqb_spec h name) as [->|Hne];
      try rewrite Hh; try rewrite Hc;
      try rewrite get_set_eq; try (rewrite get_set_neq by assumption);
      destruct (last_index_from (S i) name rest);
      try destruct (mem name cols);
      try destruct (mem name expected_residual_cols); reflexivity.
Qed.

Lemma header_maps_nodup i hs tr tp :
  NoDup (keys tr) -> NoDup (keys tp) ->
  NoDup (keys (fst (header_maps cols i hs tr tp))) /\
  NoDup (keys (snd (header_maps cols i hs tr tp))).
Proof.
  revert i tr tp. induction hs as [|h rest IH]; intros i tr tp Hr Hp;
    cbn [header_maps].
  - auto.
  - destruct (mem h expected_residual_cols); [|destruct (mem h cols)];
      apply IH; auto using NoDup_keys_set.
Qed.

(** The fresh residual layout is empty exactly when no token is a known
    residual name, and the fresh report layout when no token is a
    requested name outside the known residual names. *)
Lemma header_maps_residual_empty i hs tr tp :
  is_empty (fst (header_maps cols i hs tr tp)) =
  is_empty tr && negb (existsb (fun t => mem t expected_residual_cols) hs).
Proof.
  revert i tr tp. induction hs as [|h rest IH]; intros i tr tp;
    cbn [header_maps existsb fst].
  - now rewrite andb_true_r.
  - destruct (mem h expected_residual_cols); [|destruct (mem h cols)];
      rewrite IH; try rewrite set_not_empty; cbn [negb orb andb];
      auto using andb_false_r.
Qed.

Lemma header_maps_report_empty i hs tr tp :
  is_empty (snd (header_maps cols i hs tr tp)) =
  is_empty tp
  && negb (existsb (fun t => mem t cols
                             && negb (mem t expected_residual_cols)) hs).
Proof.
  revert i tr tp. induction hs as [|h rest IH]; intros i tr tp;
    cbn [header_maps existsb snd].
  - now rewrite andb_true_r.
  - destruct (mem h expected_residual_cols); [|destruct (mem h cols)];
      rewrite IH; try rewrite set_not_empty; cbn [negb orb andb];
      rewrite ?andb_false_r; cbn [orb]; auto.
Qed.

End HeaderMaps.

Lemma wf_read_header cols line s :
  wf cols s -> wf cols (read_header cols line s).
Proof.
  intros [Wrk Wpk Wrm Wpm Wrn Wpn Wrl Wtl Wpl]. unfold read_header.
  pose proof (header_maps_residual_get cols 0 (full_headers_list_parsed line)
                                       [] []) as Hr.
  pose proof (header_maps_report_get cols 0 (full_headers_list_parsed line)
                                     [] []) as Hp.
  destruct (header_maps_nodup cols 0 (full_headers_list_parsed line) [] []
                              (NoDup_nil _) (NoDup_nil _)) as [Nr Np].
  destruct (header_maps cols 0 (full_headers_list_parsed line) [] [])
    as [tr tp]. cbn [fst snd] in Hr, Hp, Nr, Np.
  constructor;
    cbn [residuals_data reports_data residual_headers_map report_headers_map
         iterations report_times report_iterations set_layouts];
    auto.
  - destruct (is_empty tr); auto. intros k Hk.
    apply in_keys_get in Hk as [v Hv]. rewrite Hr in Hv.
    destruct (mem k expected_residual_cols) eqn:E; [|discriminate].
    now apply mem_In.
  - destruct (is_empty tp); auto. intros k Hk.
    apply in_keys_get in Hk as [v Hv]. rewrite Hp in Hv.
    destruct (mem k cols) eqn:E1; [|discriminate].
    destruct (mem k expected_residual_cols) eqn:E2; [discriminate|].
    split; [now apply mem_In|now apply mem_false].
  - now destruct (is_empty tr).
  - now destruct (is_empty tp).
Qed.

Lemma classify_marker cols s raw g :
  classify cols s raw = Marker g <-> marker_of raw = Some g.
Proof.
  unfold classify, marker_of.
  destruct (Py.is_empty (Py.strip raw)); [split; discriminate|].
  destruct (Py.timestep_match (Py.strip raw)).
  - split; congruence.
  - destruct (is_header cols (Py.strip raw)); [split; discriminate|].
    destruct (is_data_row s (Py.strip raw)); split; discriminate.
Qed.

Lemma classify_not_marker cols s raw :
  marker_of raw = None ->
  forall g, classify cols s raw <> Marker g.
Proof. intros H g E. apply classify_marker in E. congruence. Qed.

Lemma process_line_wf cols raw s :
  wf cols s -> wf cols (fst (process_line cols raw s)).
Proof.
  intros W. unfold process_line.
  destruct (classify cols s raw) as [|g|line|vs|]; auto.
  - destruct (Py.float_ g); auto. destruct W. split; auto.
  - now apply wf_read_header.
  - rewrite (process_row_closed _ _ _ W). now apply wf_row.
Qed.

Lemma process_line_result cols raw s :
  wf cols s ->
  snd (process_line cols raw s) =
  if marker_fails raw then Raised ValueError else Done tt.
Proof.
  intros W. unfold process_line, marker_fails.
  destruct (marker_of raw) as [g|] eqn:M.
  - apply (classify_marker cols s) in M. rewrite M.
    now destruct (Py.float_ g).
  - pose proof (classify_not_marker cols s raw M) as N.
    destruct (classify cols s raw) as [|g|line|vs|]; auto.
    + now elim (N g).
    + now rewrite (process_row_closed _ _ _ W).
Qed.

Lemma scan_cons cols raw rest s :
  scan cols (raw :: rest) s =
  match process_line cols raw s with
  | (s1, Done _) => scan cols rest s1
  | (s1, Raised e) => (s1, Raised e)
  end.
Proof. reflexivity. Qed.

Lemma scan_app cols a b s :
  scan cols (a ++ b) s =
  match scan cols a s with
  | (s1, Done _) => scan cols b s1
  | (s1, Raised e) => (s1, Raised e)
  end.
Proof.
  revert s. induction a as [|raw rest IH]; intros s.
  - reflexivity.
  - rewrite <- app_comm_cons, !scan_cons.
    destruct (process_line cols raw s) as [s1 [e|u]]; auto.
Qed.

Lemma scan_wf cols lines s : wf cols s -> wf cols (fst (scan cols lines s)).
Proof.
  revert s. induction lines as [|raw rest IH]; intros s W; auto.
  rewrite scan_cons. pose proof (process_line_wf cols raw s W) as W1.
  destruct (process_line cols raw s) as [s1 [e|u]]; auto.
Qed.

Lemma scan_result cols lines s :
  wf cols s ->
  snd (scan cols lines s) =
  if existsb marker_fails lines then Raised ValueError else Done tt.
Proof.
  revert s. induction lines as [|raw rest IH]; intros s W; auto.
  rewrite scan_cons. cbn [existsb].
  pose proof (process_line_wf cols raw s W) as W1.
  pose proof (process_line_result cols raw s W) as R1.
  destruct (process_line cols raw s) as [s1 r]. cbn [fst snd] in *. subst r.
  destruct (marker_fails raw); cbn [orb]; auto.
Qed.

Ltac row_cases cols vs s :=
  unfold row_closed_form;
  let first := fresh "first" in
  let rest := fresh "rest" in
  let n := fresh "n" in
  let d := fresh "d" in
  let p := fresh "p" in
  destruct vs as [|first rest];
  [|destruct (negb (Py.isdigit first)) eqn:?;
    [|destruct (Py.int_ first) as [n|] eqn:?;
      [destruct (fill (first :: rest) (residual_headers_map s)
                      (residuals_data s)) as [d [?|[]]] eqn:?;
       [|destruct (gate_open cols s (first :: rest)) eqn:?;
         [destruct (fill (first :: rest) (report_headers_map s)
                         (reports_data s)) as [p [?|[]]] eqn:?|]]|]]].

Ltac project_state :=
  cbn [residuals_data reports_data residual_headers_map report_headers_map
       iterations report_times report_iterations current_time
       header_line_found iteration_data_started
       after_handler with_sample set_residuals_data set_reports_data
       set_iterations set_report_times set_report_iterations
       set_time set_layouts].

(** A row leaves the layouts, the time and the two flags alone. *)
Lemma row_frame cols vs s :
  let s' := row_closed_form cols vs s in
  residual_headers_map s' = residual_headers_map s /\
  report_headers_map s' = report_headers_map s /\
  current_time s' = current_time s /\
  header_line_found s' = header_line_found s /\
  iteration_data_started s' = iteration_data_started s.
Proof. cbv zeta. row_cases cols vs s; project_state; auto. Qed.

(** A row appends its iteration number or nothing to [iterations]. *)
Lemma row_iterations cols vs s :
  let s' := row_closed_form cols vs s in
  iterations s' = iterations s \/
  exists first rest n,
    vs = first :: rest /\ Py.isdigit first = true /\
    Py.int_ first = Some n /\ iterations s' = iterations s ++ [n].
Proof.
  cbv zeta. row_cases cols vs s; project_state; auto; right;
    exists first, rest, n;
    (repeat split; auto; now apply negb_false_iff).
Qed.

(** A row leaves the report outputs alone, or the gate is open and it
    appends the current time, its iteration number and the cells of the
    report layout, as far as they parse. *)
Lemma row_reports cols vs s :
  let s' := row_closed_form cols vs s in
  (report_times s' = report_times s /\
   report_iterations s' = report_iterations s /\
   reports_data s' = reports_data s) \/
  (gate_open cols s vs = true /\
   exists first rest n,
     vs = first :: rest /\ Py.int_ first = Some n /\
     report_times s' = report_times s ++ [current_time s] /\
     report_iterations s' = report_iterations s ++ [n] /\
     reports_data s' = fst (fill vs (report_headers_map s) (reports_data s))).
Proof.
  cbv zeta. row_cases cols vs s; project_state; auto; right;
    (split; [reflexivity|]); exists first, rest, n; auto.
Qed.

Lemma get_map_values (g : list spec_float -> list spec_float) (d : columns) k :
  get (map (fun kv => (fst kv, g (snd kv))) d) k = option_map g (get d k).
Proof.
  induction d as [|[k' v] d IH]; cbn [map get fst snd option_map]; auto.
  destruct (String.eqb k' k); auto.
Qed.

Lemma keys_map_values (g : list spec_float -> list spec_float) (d : columns) :
  keys (map (fun kv => (fst kv, g (snd kv))) d) = keys d.
Proof. unfold keys. rewrite map_map. reflexivity. Qed.

Lemma in_get_nodup {V} (d : dict V) k v :
  NoDup (keys d) -> In (k, v) d -> get d k = Some v.
Proof.
  induction d as [|[k' v'] d IH]; cbn [keys map fst In get]; [tauto|].
  intros Hnd [[= -> ->]|Hin].
  - now rewrite String.eqb_refl.
  - inversion Hnd as [|? ? Hnin Hnd']; subst.
    destruct (String.eqb_spec k' k) as [->|]; auto.
    elim Hnin. change k with (fst (k, v)). now apply in_map.
Qed.

Lemma pad_to_short n l :
  (List.length l <= n)%nat ->
  pad_to n l = l ++ repeat Py.nan (n - List.length l).
Proof.
  intros Hle. unfold pad_to. apply firstn_all2.
  rewrite length_app, repeat_length. lia.
Qed.

(** The loop ends normally unless a marker line fails. *)
Lemma parse_readable text cols :
  parse_starccm_logfile (Readable text) cols =
  if existsb marker_fails (file_lines text) then empty_outputs
  else finish (fst (scan cols (file_lines text) (init cols))).
Proof.
  unfold parse_starccm_logfile.
  pose proof (scan_result cols (file_lines text) (init cols) (wf_init cols))
    as R.
  destruct (scan cols (file_lines text) (init cols)) as [s r].
  cbn [fst snd] in *. subst r.
  now destruct (existsb marker_fails (file_lines text)).
Qed.

(** The residual columns of [finish s], under the invariant. *)
Lemma finish_residual cols s f :
  wf cols s -> In f expected_residual_cols ->
  exists scanned,
    get (residuals_data s) f = Some scanned /\
    get (out_residuals (finish s)) f =
      Some (scanned
            ++ repeat Py.nan
                 (List.length (iterations s) - List.length scanned)) /\
    List.length (scanned
                 ++ repeat Py.nan
                      (List.length (iterations s) - List.length scanned))
    = List.length (iterations s).
Proof.
  intros W Hin. rewrite <- (wf_residual_keys _ _ W) in Hin.
  apply in_keys_get in Hin as [scanned Hs]. exists scanned.
  pose proof (wf_residual_len _ _ W _ _ Hs) as Hle.
  split; [assumption|]. split.
  - unfold finish. cbn [out_residuals].
    destruct (iterations s) as [|i its] eqn:Hi; cbn [is_nil].
    + destruct scanned; [|simpl in Hle; lia]. now rewrite Hs.
    + rewrite get_map_values, Hs. cbn [option_map].
      now rewrite pad_to_short.
  - rewrite length_app, repeat_length. lia.
Qed.

Lemma report_lengths_finish cols s :
  wf cols s ->
  List.length (out_report_iterations (finish s))
  = List.length (out_report_times (finish s)) /\
  Forall (fun kv => (List.length (snd kv)
                     <= List.length (out_report_iterations (finish s)))%nat)
         (out_reports (finish s)).
Proof.
  intros W. unfold finish.
  cbn [out_report_iterations out_report_times out_reports]. split.
  - symmetry. apply (wf_times_len _ _ W).
  - apply Forall_forall. intros [k l] Hin. cbn [snd].
    apply (wf_report_len _ _ W k). apply in_get_nodup; [|assumption].
    rewrite (wf_report_keys _ _ W). apply NoDup_keys_empty_columns.
Qed.

Lemma cell_unparsable vs c tok :
  nth_error vs c = Some tok -> Py.float_ tok = None ->
  cell vs c = Raised ValueError.
Proof.
  intros Hn Hf. unfold cell.
  assert (c < List.length vs)%nat as Hlt.
  { apply nth_error_Some. congruence. }
  apply Nat.ltb_lt in Hlt. now rewrite Hlt, Hn, Hf.
Qed.

(** The loop stops at the first cell that raises. *)
Lemma fill_stops vs pre f c post d :
  (forall k, In k (keys pre) -> In k (keys d)) -> In f (keys d) ->
  Forall (fun item => exists x, cell vs (snd item) = Done x) pre ->
  cell vs c = Raised ValueError ->
  fill vs (pre ++ (f, c) :: post) d = (fst (fill vs pre d), Raised ValueError).
Proof.
  intros Hsub Hf Hok Hc. rewrite fill_app.
  pose proof (fill_all_done vs pre d Hsub Hok) as Hd.
  pose proof (fill_keys vs pre d) as Hk.
  destruct (fill vs pre d) as [d1 r]. cbn [fst snd] in *. subst r.
  cbn [fill fst snd]. unfold append_column.
  rewrite <- Hk in Hf. apply in_keys_get in Hf as [l Hl].
  now rewrite Hl, Hc.
Qed.

Lemma process_line_data_row cols raw s vs :
  wf cols s -> classify cols s raw = DataRow vs ->
  process_line cols raw s = (row_closed_form cols vs s, Done tt).
Proof.
  intros W Hc. unfold process_line. rewrite Hc.
  now apply process_row_closed.
Qed.

Lemma scan_done_wf cols lines s :
  scan cols lines (init cols) = (s, Done tt) -> wf cols s.
Proof.
  intros H. change s with (fst (s, @Done unit tt)). rewrite <- H.
  apply scan_wf, wf_init.
Qed.

Lemma process_line_header cols raw s line :
  classify cols s raw = Header line ->
  process_line cols raw s = (read_header cols line s, Done tt).
Proof. intros Hc. unfold process_line. now rewrite Hc. Qed.

(** The layouts after lines 61 to 69, read off the tokens. *)
Lemma read_header_layouts cols line s :
  (if existsb (fun t => mem t expected_residual_cols)
              (full_headers_list_parsed line)
   then forall name,
       get (residual_headers_map (read_header cols line s)) name
       = if mem name expected_residual_cols
         then last_index_from 0 name (full_headers_list_parsed line)
         else None
   else residual_headers_map (read_header cols line s)
        = residual_headers_map s) /\
  (if existsb (fun t => mem t cols && negb (mem t expected_residual_cols))
              (full_headers_list_parsed line)
   then forall name,
       get (report_headers_map (read_header cols line s)) name
       = if mem name cols && negb (mem name expected_residual_cols)
         then last_index_from 0 name (full_headers_list_parsed line)
         else None
   else report_headers_map (read_header cols line s)
        = report_headers_map s) /\
  header_line_found (read_header cols line s) = true.
Proof.
  unfold read_header.
  pose proof (header_maps_residual_get cols 0 (full_headers_list_parsed line)
                                       [] []) as Hr.
  pose proof (header_maps_report_get cols 0 (full_headers_list_parsed line)
                                     [] []) as Hp.
  pose proof (header_maps_residual_empty cols 0
                (full_headers_list_parsed line) [] []) as Er.
  pose proof (header_maps_report_empty cols 0
                (full_headers_list_parsed line) [] []) as Ep.
  destruct (header_maps cols 0 (full_headers_list_parsed line) [] [])
    as [tr tp]. cbn [fst snd is_empty andb] in *.
  project_state. rewrite Er, Ep. repeat split.
  - destruct (existsb (fun t => mem t expected_residual_cols)
                      (full_headers_list_parsed line)); cbn [negb]; auto.
    intros name. rewrite Hr.
    destruct (mem name expected_residual_cols); auto.
    now destruct (last_index_from 0 name (full_headers_list_parsed line)).
  - destruct (existsb (fun t => mem t cols
                                && negb (mem t expected_residual_cols))
                      (full_headers_list_parsed line)); cbn [negb]; auto.
    intros name. rewrite Hp.
    destruct (mem name cols && negb (mem name expected_residual_cols)); auto.
    now destruct (last_index_from 0 name (full_headers_list_parsed line)).
Qed.

Lemma gate_open_at cols s vs idx :
  first_report_col_idx cols (report_headers_map s) = Some idx ->
  gate_open cols s vs = negb (gating_token_absent vs idx).
Proof.
  intros H. unfold gate_open, gating_token_absent. rewrite H.
  now destruct (nth_error vs idx).
Qed.

(** The tests on a line look at the two flags of the state only. *)
Lemma classify_flags cols s s' raw :
  header_line_found s' = header_line_found s ->
  iteration_data_started s' = iteration_data_started s ->
  classify cols s' raw = classify cols s raw.
Proof.
  intros H1 H2. unfold classify, is_data_row. now rewrite H1, H2.
Qed.

Lemma row_gate_closed cols vs s :
  gate_open cols s vs = false ->
  report_times (row_closed_form cols vs s) = report_times s /\
  report_iterations (row_closed_form cols vs s) = report_iterations s /\
  reports_data (row_closed_form cols vs s) = reports_data s.
Proof.
  intros Hg. destruct (row_reports cols vs s) as [H|[H _]]; [exact H|].
  congruence.
Qed.

(** A run of gated rows changes no report output and no layout. *)
Lemma scan_gated_rows cols idx gated s :
  wf cols s ->
  first_report_col_idx cols (report_headers_map s) = Some idx ->
  Forall (fun raw => exists vs, classify cols s raw = DataRow vs /\
                                gating_token_absent vs idx = true) gated ->
  snd (scan cols gated s) = Done tt /\
  wf cols (fst (scan cols gated s)) /\
  residual_headers_map (fst (scan cols gated s)) = residual_headers_map s /\
  report_headers_map (fst (scan cols gated s)) = report_headers_map s /\
  current_time (fst (scan cols gated s)) = current_time s /\
  header_line_found (fst (scan cols gated s)) = header_line_found s /\
  iteration_data_started (fst (scan cols gated s))
  = iteration_data_started s /\
  report_times (fst (scan cols gated s)) = report_times s /\
  report_iterations (fst (scan cols gated s)) = report_iterations s /\
  reports_data (fst (scan cols gated s)) = reports_data s.
Proof.
  revert s. induction gated as [|raw rest IH]; intros s W Hidx Hall.
  - change (scan cols [] s) with (s, @Done unit tt). cbn [fst snd].
    split; [reflexivity|]. split; [assumption|]. repeat split.
  - inversion Hall as [|? ? (vs & Hc & Habs) Hrest]; subst.
    rewrite scan_cons, (process_line_data_row _ _ _ _ W Hc).
    destruct (row_frame cols vs s) as (F1 & F2 & F3 & F4 & F5).
    destruct (row_gate_closed cols vs s) as (G1 & G2 & G3).
    { rewrite (gate_open_at _ _ _ _ Hidx), Habs. reflexivity. }
    destruct (IH (row_closed_form cols vs s)) as (R & W' & H).
    + now apply wf_row.
    + now rewrite F2.
    + eapply Forall_impl; [|exact Hrest]. cbv beta.
      intros r (vs' & Hc' & Habs'). exists vs'. split; [|assumption].
      now rewrite (classify_flags cols s _ r F4 F5).
    + rewrite <- F1, <- F2, <- F3, <- F4, <- F5, <- G1, <- G2, <- G3.
      auto.
Qed.

(** A row whose residual cells all parse and whose gate is open starts a
    sample with the current time and its iteration number, and the report
    columns are those the loop over the report layout leaves. *)
Lemma row_sample cols first rest n s :
  wf cols s ->
  Py.isdigit first = true -> Py.int_ first = Some n ->
  Forall (fun item => exists x, cell (first :: rest) (snd item) = Done x)
         (residual_headers_map s) ->
  gate_open cols s (first :: rest) = true ->
  report_iterations (row_closed_form cols (first :: rest) s)
  = report_iterations s ++ [n] /\
  report_times (row_closed_form cols (first :: rest) s)
  = report_times s ++ [current_time s] /\
  reports_data (row_closed_form cols (first :: rest) s)
  = fst (fill (first :: rest) (report_headers_map s) (reports_data s)).
Proof.
  intros W Hdig Hint Hok Hgate. unfold row_closed_form.
  rewrite Hdig, Hint, Hgate. cbn [negb].
  pose proof (fill_all_done (first :: rest) (residual_headers_map s)
                            (residuals_data s)) as Hd.
  destruct (fill (first :: rest) (residual_headers_map s) (residuals_data s))
    as [d r]. cbn [snd] in Hd. rewrite Hd; [|intros k Hk|assumption].
  - destruct (fill (first :: rest) (report_headers_map s) (reports_data s))
      as [p [e|[]]]; project_state; auto.
  - rewrite (wf_residual_keys _ _ W). now apply (wf_residual_map _ _ W).
Qed.

Lemma classify_data_row_flags cols s raw vs :
  classify cols s raw = DataRow vs ->
  header_line_found s = true /\ iteration_data_started s = true.
Proof.
  unfold classify.
  destruct (Py.is_empty (Py.strip raw)); [discriminate|].
  destruct (Py.timestep_match (Py.strip raw)); [discriminate|].
  destruct (is_header cols (Py.strip raw)); [discriminate|].
  destruct (is_data_row s (Py.strip raw)) eqn:E; [|discriminate].
  intros _. unfold is_data_row in E.
  apply andb_true_iff in E as [E _]. now apply andb_true_iff in E.
Qed.

Lemma process_line_time cols raw s s' t :
  wf cols s -> process_line cols raw s = (s', Done tt) -> time_ok t s ->
  time_ok (match marker_of raw with
           | Some group1 => Py.float_ group1
           | None => t
           end) s'.
Proof.
  intros W. unfold process_line.
  destruct (marker_of raw) as [g|] eqn:M.
  - apply (classify_marker cols s) in M. rewrite M.
    destruct (Py.float_ g) as [x|]; [|discriminate].
    intros [= <-] _. cbn. auto.
  - pose proof (classify_not_marker cols s raw M) as N.
    destruct (classify cols s raw) as [|g|line|vs|] eqn:C.
    + now intros [= <-].
    + now elim (N g).
    + intros [= <-]. unfold read_header.
      destruct (header_maps cols 0 (full_headers_list_parsed line) [] []).
      destruct t; cbn; auto.
    + rewrite (process_row_closed _ _ _ W). intros [= <-].
      destruct (row_frame cols vs s) as (_ & _ & F3 & _ & F5).
      unfold time_ok. rewrite F3, F5. auto.
    + now intros [= <-].
Qed.

Lemma scan_time cols lines s s' t :
  wf cols s -> scan cols lines s = (s', Done tt) -> time_ok t s ->
  time_ok (latest_marker_time lines t) s'.
Proof.
  revert s t. induction lines as [|raw rest IH]; intros s t W.
  - now intros [= <-].
  - rewrite scan_cons. cbn [latest_marker_time].
    pose proof (process_line_wf cols raw s W) as W1.
    pose proof (process_line_time cols raw s) as T1.
    destruct (process_line cols raw s) as [s1 [e|[]]]; [discriminate|].
    intros Hs Ht. apply (IH s1); auto.
Qed.

(** What one line can add to the outputs. *)
Lemma process_line_outputs cols raw s :
  wf cols s ->
  ((report_times (fst (process_line cols raw s)) = report_times s /\
    report_iterations (fst (process_line cols raw s)) = report_iterations s)
   \/
   (iteration_data_started s = true /\
    exists n,
      report_times (fst (process_line cols raw s))
      = report_times s ++ [current_time s] /\
      report_iterations (fst (process_line cols raw s))
      = report_iterations s ++ [n])) /\
  (iterations (fst (process_line cols raw s)) = iterations s \/
   iteration_data_started s = true).
Proof.
  intros W. unfold process_line.
  destruct (classify cols s raw) as [|g|line|vs|] eqn:C.
  - cbn. auto.
  - destruct (Py.float_ g); cbn; auto.
  - unfold read_header.
    destruct (header_maps cols 0 (full_headers_list_parsed line) [] []).
    cbn. auto.
  - rewrite (process_row_closed _ _ _ W). cbn [fst].
    destruct (classify_data_row_flags _ _ _ _ C) as [_ Hs].
    split; [|auto].
    destruct (row_reports cols vs s)
      as [(H1 & H2 & _)|(_ & f & r & n & _ & _ & H1 & H2 & _)]; eauto.
  - cbn. auto.
Qed.

Lemma scan_preserves cols (P : pstate -> Prop) :
  (forall raw s, wf cols s -> P s -> P (fst (process_line cols raw s))) ->
  forall lines s, wf cols s -> P s -> P (fst (scan cols lines s)).
Proof.
  intros Hstep. induction lines as [|raw rest IH]; intros s W HP; auto.
  rewrite scan_cons.
  pose proof (process_line_wf cols raw s W) as W1.
  pose proof (Hstep raw s W HP) as P1.
  destruct (process_line cols raw s) as [s1 [e|u]]; auto.
Qed.

Lemma not_in_keys_get_none {V} (d : dict V) k :
  ~ In k (keys d) -> get d k = None.
Proof.
  intros Hnin. destruct (get d k) eqn:E; auto.
  elim Hnin. eauto using get_some_in_keys.
Qed.

(** No reachable report layout has a column for a known residual name. *)
Lemma report_layout_skips_residual_names cols s f :
  wf cols s -> In f expected_residual_cols ->
  get (report_headers_map s) f = None.
Proof.
  intros W Hf. apply not_in_keys_get_none. intros Hin.
  now apply (wf_report_map _ _ W) in Hin.
Qed.

(** What one line does to the report columns. *)
Lemma process_line_reports cols raw s :
  wf cols s ->
  (report_times (fst (process_line cols raw s)) = report_times s /\
   report_iterations (fst (process_line cols raw s)) = report_iterations s /\
   reports_data (fst (process_line cols raw s)) = reports_data s) \/
  exists vs,
    gate_open cols s vs = true /\
    reports_data (fst (process_line cols raw s))
    = fst (fill vs (report_headers_map s) (reports_data s)).
Proof.
  intros W. unfold process_line.
  destruct (classify cols s raw) as [|g|line|vs|] eqn:C.
  - cbn. auto.
  - destruct (Py.float_ g); cbn; auto.
  - unfold read_header.
    destruct (header_maps cols 0 (full_headers_list_parsed line) [] []).
    cbn. auto.
  - rewrite (process_row_closed _ _ _ W). cbn [fst].
    destruct (row_reports cols vs s)
      as [H|(Hg & f & r & n & _ & _ & _ & _ & H)]; eauto.
  - cbn. auto.
Qed.

Lemma column_of_residual_name_stays_empty cols f lines :
  In f cols -> In f expected_residual_cols ->
  get (reports_data (fst (scan cols lines (init cols)))) f = Some [].
Proof.
  intros Hc Hf.
  apply (scan_preserves cols (fun s => get (reports_data s) f = Some []));
    [|apply wf_init|].
  - intros raw s W HP.
    destruct (process_line_reports cols raw s W)
      as [(_ & _ & ->)|(vs & _ & ->)];
      [assumption|].
    rewrite fill_unchanged; [assumption|].
    apply get_none_not_in_keys.
    now apply (report_layout_skips_residual_names cols).
  - unfold init. cbn [reports_data].
    apply in_keys_empty_columns in Hc. apply in_keys_get in Hc as [l Hl].
    rewrite Hl. f_equal. now apply get_empty_columns in Hl.
Qed.

Lemma gate_shut_by_residual_name cols f s vs :
  wf cols s -> hd_error cols = Some f -> In f expected_residual_cols ->
  gate_open cols s vs = false.
Proof.
  intros W Hhd Hf. unfold gate_open, first_report_col_idx.
  destruct cols as [|c rest]; [reflexivity|]. injection Hhd as ->.
  destruct (Py.is_empty f); [reflexivity|].
  now rewrite (report_layout_skips_residual_names _ _ _ W Hf).
Qed.

Lemma no_sample_when_gating_field_is_residual cols f lines :
  hd_error cols = Some f -> In f expected_residual_cols ->
  report_times (fst (scan cols lines (init cols))) = [] /\
  report_iterations (fst (scan cols lines (init cols))) = [] /\
  reports_data (fst (scan cols lines (init cols))) = empty_columns cols.
Proof.
  intros Hhd Hf.
  apply (scan_preserves cols
           (fun s => report_times s = [] /\ report_iterations s = [] /\
                     reports_data s = empty_columns cols));
    [|apply wf_init|repeat split].
  intros raw s W (H1 & H2 & H3).
  destruct (process_line_reports cols raw s W)
    as [(-> & -> & ->)|(vs & Hg & _)]; [auto|].
  rewrite (gate_shut_by_residual_name _ _ _ vs W Hhd Hf) in Hg.
  discriminate.
Qed.

Lemma empty_columns_all_empty names :
  Forall (fun kv : string * list spec_float => snd kv = [])
         (empty_columns names).
Proof.
  apply Forall_forall. intros [k l] Hin. cbn [snd].
  apply (get_empty_columns names k).
  apply in_get_nodup; [apply NoDup_keys_empty_columns|assumption].
Qed.

(** The last position of a token that is there. *)
Lemma last_index_from_in k f tokens :
  In f tokens ->
  exists i, last_index_from k f tokens = Some (k + i) /\
            nth_error tokens (k + i - k) = Some f.
Proof.
  revert k. induction tokens as [|t rest IH]; intros k; [intros []|].
  intros Hin. cbn [last_index_from].
  destruct (in_dec string_dec f rest) as [Hr|Hr].
  - destruct (IH (S k) Hr) as (i & Hi & Hn). exists (S i).
    rewrite Hi. replace (k + S i) with (S k + i) by lia.
    split; [reflexivity|].
    replace (S k + i - k) with (S i) by lia.
    replace (S k + i - S k) with i in Hn by lia. exact Hn.
  - destruct Hin as [->|Hin]; [|contradiction].
    assert (last_index_from (S k) f rest = None) as E.
    { clear IH. revert k. induction rest as [|t rest IH]; intros k; auto.
      cbn [last_index_from]. rewrite IH by (cbn in Hr; tauto).
      destruct (String.eqb_spec t f) as [->|]; [|reflexivity].
      elim Hr. now left. }
    rewrite E, String.eqb_refl. exists 0. rewrite Nat.add_0_r.
    split; [reflexivity|]. now rewrite Nat.sub_diag.
Qed.

Lemma last_index_from_not_in k f tokens :
  ~ In f tokens -> last_index_from k f tokens = None.
Proof.
  revert k. induction tokens as [|t rest IH]; intros k Hnin; auto.
  cbn [last_index_from]. rewrite IH by (cbn in Hnin; tauto).
  destruct (String.eqb_spec t f) as [->|]; [|reflexivity].
  elim Hnin. now left.
Qed.

Lemma classify_header_line cols s raw line :
  classify cols s raw = Header line -> line = Py.strip raw.
Proof.
  unfold classify.
  destruct (Py.is_empty (Py.strip raw)); [discriminate|].
  destruct (Py.timestep_match (Py.strip raw)); [discriminate|].
  destruct (is_header cols (Py.strip raw)); [congruence|].
  destruct (is_data_row s (Py.strip raw)); discriminate.
Qed.

Lemma scan_preserves_in cols (P : pstate -> Prop) lines :
  (forall raw s, In raw lines -> wf cols s -> P s ->
                 P (fst (process_line cols raw s))) ->
  forall s, wf cols s -> P s -> P (fst (scan cols lines s)).
Proof.
  induction lines as [|raw rest IH]; intros Hstep s W HP; auto.
  rewrite scan_cons.
  pose proof (process_line_wf cols raw s W) as W1.
  pose proof (Hstep raw s (or_introl eq_refl) W HP) as P1.
  destruct (process_line cols raw s) as [s1 [e|u]]; auto.
  apply IH; auto. intros r s' Hin. apply Hstep. now right.
Qed.

(** A name that is a token of no line never enters the report layout,
    and its report column, if there is one, stays empty. *)
Lemma unnamed_field_stays_empty cols f lines :
  (forall raw, In raw lines ->
               ~ In f (full_headers_list_parsed (Py.strip raw))) ->
  get (report_headers_map (fst (scan cols lines (init cols)))) f = None /\
  forall l, get (reports_data (fst (scan cols lines (init cols)))) f = Some l ->
            l = [].
Proof.
  intros Hno.
  apply (scan_preserves_in cols
           (fun s => get (report_headers_map s) f = None /\
                     forall l, get (reports_data s) f = Some l -> l = []));
    [|apply wf_init|].
  - intros raw s Hin W [Hm Hd]. unfold process_line.
    destruct (classify cols s raw) as [|g|line|vs|] eqn:C.
    + cbn. auto.
    + destruct (Py.float_ g); cbn; auto.
    + cbn [fst]. apply classify_header_line in C. subst line.
      destruct (read_header_layouts cols (Py.strip raw) s) as (_ & H & _).
      split.
      * destruct (existsb _ (full_headers_list_parsed (Py.strip raw))).
        -- rewrite H, (last_index_from_not_in _ _ _ (Hno raw Hin)).
           now destruct (mem f cols && negb (mem f expected_residual_cols)).
        -- now rewrite H.
      * unfold read_header.
        destruct (header_maps cols 0 (full_headers_list_parsed (Py.strip raw))
                              [] []).
        exact Hd.
    + rewrite (process_row_closed _ _ _ W). cbn [fst].
      destruct (row_frame cols vs s) as (_ & F2 & _).
      rewrite F2. split; [assumption|].
      destruct (row_reports cols vs s)
        as [(_ & _ & ->)|(_ & a & b & n & _ & _ & _ & _ & ->)];
        [assumption|].
      rewrite fill_unchanged; [assumption|].
      now apply get_none_not_in_keys.
    + cbn. auto.
  - split; [reflexivity|]. intros l. apply get_empty_columns.
Qed.

(** * The claims *)

(** ** C1: the residual columns have the length of [iterations] *)

(** C1, as the code has it.  When no marker line of a readable text
    fails, each of the seven residual columns returned is the column
    scanned, followed by as many NaN as it takes to reach
    [len(iterations)]; no scanned column is longer than that. *)
Theorem residuals_padded_to_iterations text cols f :
  existsb marker_fails (file_lines text) = false ->
  In f expected_residual_cols ->
  exists scanned,
    get (residuals_data (fst (scan cols (file_lines text) (init cols)))) f
    = Some scanned /\
    get (out_residuals (parse_starccm_logfile (Readable text) cols)) f
    = Some (scanned
            ++ repeat Py.nan
                 (List.length
                    (out_iterations
                       (parse_starccm_logfile (Readable text) cols))
                  - List.length scanned)) /\
    List.length
      (scanned
       ++ repeat Py.nan
            (List.length
               (out_iterations (parse_starccm_logfile (Readable text) cols))
             - List.length scanned))
    = List.length
        (out_iterations (parse_starccm_logfile (Readable text) cols)).
Proof.
  intros Hok Hin. rewrite parse_readable, Hok.
  apply (finish_residual cols); [|assumption].
  apply scan_wf, wf_init.
Qed.

Lemma residuals_padded_to_iterations_witness :
  exists scanned,
    get (residuals_data
           (fst (scan [] (file_lines malformed_log) (init [])))) "X-momentum"
    = Some scanned /\
    get (out_residuals (parse_starccm_logfile (Readable malformed_log) []))
        "X-momentum"
    = Some (scanned
            ++ repeat Py.nan
                 (List.length
                    (out_iterations
                       (parse_starccm_logfile (Readable malformed_log) []))
                  - List.length scanned)) /\
    List.length
      (scanned
       ++ repeat Py.nan
            (List.length
               (out_iterations
                  (parse_starccm_logfile (Readable malformed_log) []))
             - List.length scanned))
    = List.length
        (out_iterations (parse_starccm_logfile (Readable malformed_log) [])).
Proof.
  apply (residuals_padded_to_iterations malformed_log [] "X-momentum").
  - vm_compute. reflexivity.
  - unfold expected_residual_cols. cbn [In]. auto.
Defined.

(** C1 as stated fails: the text is readable, its marker on the last
    line was cut short, [float] raises outside the inner [try], and the
    map returned has no column at all. *)
Lemma truncated_marker_returns_no_residual_column :
  parse_starccm_logfile (Readable truncated_log) [] = empty_outputs /\
  get (out_residuals (parse_starccm_logfile (Readable truncated_log) []))
      "Continuity" = None.
Proof. vm_compute. split; reflexivity. Qed.

(** ** C2: the report outputs *)

(** C2, as the code has it.  The report iterations and the report times
    returned are equally long, and no report column is longer than they
    are; the column of a name that is a token of no line is empty. *)
Theorem report_columns_no_longer_than_samples text cols :
  List.length
    (out_report_iterations (parse_starccm_logfile (Readable text) cols))
  = List.length
      (out_report_times (parse_starccm_logfile (Readable text) cols)) /\
  Forall (fun kv =>
            (List.length (snd kv)
             <= List.length
                  (out_report_iterations
                     (parse_starccm_logfile (Readable text) cols)))%nat)
         (out_reports (parse_starccm_logfile (Readable text) cols)) /\
  (forall f,
      (forall raw, In raw (file_lines text) ->
                   ~ In f (full_headers_list_parsed (Py.strip raw))) ->
      Forall (fun kv => fst kv = f -> snd kv = [])
             (out_reports (parse_starccm_logfile (Readable text) cols))).
Proof.
  rewrite parse_readable.
  destruct (existsb marker_fails (file_lines text)).
  - repeat split; auto; constructor.
  - pose proof (scan_wf cols (file_lines text) (init cols) (wf_init cols))
      as W.
    destruct (report_lengths_finish cols _ W) as [H1 H2].
    split; [assumption|]. split; [assumption|].
    intros f Hno. unfold finish. cbn [out_reports].
    destruct (unnamed_field_stays_empty cols f (file_lines text) Hno)
      as [_ He].
    apply Forall_forall. intros [k l] Hin. cbn [fst snd]. intros ->.
    apply He. apply in_get_nodup; [|assumption].
    rewrite (wf_report_keys _ _ W). apply NoDup_keys_empty_columns.
Qed.

(** C2 as stated fails: a requested field that no header names keeps an
    empty column while samples are taken. *)
Lemma unlisted_report_field_stays_empty :
  out_report_iterations
    (parse_starccm_logfile (Readable report_log) ["Lift"; "Drag"])
  = [2%Z; 3%Z] /\
  out_report_times
    (parse_starccm_logfile (Readable report_log) ["Lift"; "Drag"])
  = [float_lit "0.5"; float_lit "1.5"] /\
  get (out_reports
         (parse_starccm_logfile (Readable report_log) ["Lift"; "Drag"]))
      "Lift" = Some [float_lit "5.0"; float_lit "6.0"] /\
  get (out_reports
         (parse_starccm_logfile (Readable report_log) ["Lift"; "Drag"]))
      "Drag" = Some [].
Proof. vm_compute. repeat split. Qed.

(** ** C3: a token that is not a number *)

(** C3, as the code has it.  In a data row whose first token is an
    integer and in which the token of one residual field is there but is
    not a float, the row is given up at that field: the iteration number
    is recorded, each field before it in the layout gets its value, and
    no field from it on gets a value of the row; the handler may add one
    NaN to a column.  The report outputs are not touched. *)
Theorem unparsable_token_abandons_row
    cols lines s raw first rest n pre f c post tok :
  scan cols lines (init cols) = (s, Done tt) ->
  classify cols s raw = DataRow (first :: rest) ->
  Py.isdigit first = true -> Py.int_ first = Some n ->
  residual_headers_map s = pre ++ (f, c) :: post ->
  Forall (fun item => exists x, cell (first :: rest) (snd item) = Done x)
         pre ->
  nth_error (first :: rest) c = Some tok -> Py.float_ tok = None ->
  snd (process_line cols raw s) = Done tt /\
  iterations (fst (process_line cols raw s)) = iterations s ++ [n] /\
  report_iterations (fst (process_line cols raw s)) = report_iterations s /\
  report_times (fst (process_line cols raw s)) = report_times s /\
  reports_data (fst (process_line cols raw s)) = reports_data s /\
  Forall (fun item =>
            exists l x pad,
              get (residuals_data s) (fst item) = Some l /\
              cell (first :: rest) (snd item) = Done x /\
              get (residuals_data (fst (process_line cols raw s))) (fst item)
              = Some (l ++ x :: pad) /\
              (pad = [] \/ pad = [Py.nan]))
         pre /\
  Forall (fun g =>
            In g (keys pre) \/
            exists l pad,
              get (residuals_data s) g = Some l /\
              get (residuals_data (fst (process_line cols raw s))) g
              = Some (l ++ pad) /\
              (pad = [] \/ pad = [Py.nan]))
         expected_residual_cols.
Proof.
  intros Hscan Hrow Hdig Hint Hmap Hok Htok Hfloat.
  pose proof (scan_done_wf _ _ _ Hscan) as W.
  rewrite (process_line_data_row _ _ _ _ W Hrow). cbn [fst snd].
  assert (forall k, In k (keys (pre ++ (f, c) :: post)) ->
                    In k (keys (residuals_data s))) as Hsub.
  { intros k Hk. rewrite (wf_residual_keys _ _ W).
    apply (wf_residual_map _ _ W). now rewrite Hmap. }
  assert (NoDup (keys pre)) as Hnd.
  { pose proof (wf_residual_map_nodup _ _ W) as Hn. rewrite Hmap in Hn.
    unfold keys in Hn. rewrite map_app in Hn.
    now apply NoDup_app_remove_r in Hn. }
  assert (forall k, In k (keys pre) -> In k (keys (residuals_data s)))
    as Hsub_pre.
  { intros k Hk. apply Hsub. unfold keys. rewrite map_app, in_app_iff. auto. }
  assert (In f (keys (residuals_data s))) as Hf.
  { apply Hsub. unfold keys. rewrite map_app, in_app_iff. cbn. auto. }
  unfold row_closed_form. rewrite Hdig, Hint. cbn [negb].
  rewrite Hmap.
  rewrite (fill_stops _ _ _ _ _ _ Hsub_pre Hf Hok
                      (cell_unparsable _ _ _ Htok Hfloat)).
  pose proof (fill_all_done (first :: rest) pre (residuals_data s)
                            Hsub_pre Hok) as Hdone.
  set (d1 := fst (fill (first :: rest) pre (residuals_data s))) in *.
  set (s2 := set_residuals_data (set_iterations s (iterations s ++ [n])) d1).
  project_state. repeat (split; [reflexivity|]). split.
  - apply Forall_forall. intros [g cg] Hin. cbn [fst snd].
    destruct (fill_done_get _ _ _ _ _ Hnd Hdone Hin) as (l & x & Hx & Hl & Hg).
    fold d1 in Hg. exists l, x.
    pose proof (handler_columns_get s2 g) as HH.
    change (residuals_data s2) with d1 in HH. rewrite Hg in HH.
    destruct HH as [E|(l' & [= <-] & _ & E)]; rewrite E.
    + exists []. auto.
    + exists [Py.nan]. rewrite <- app_assoc. auto.
  - apply Forall_forall. intros g Hg.
    destruct (in_dec string_dec g (keys pre)) as [Hin|Hnin]; [now left|].
    right. rewrite <- (wf_residual_keys _ _ W) in Hg.
    apply in_keys_get in Hg as [l Hl]. exists l.
    assert (get d1 g = Some l) as Hd1.
    { unfold d1. now rewrite fill_unchanged. }
    pose proof (handler_columns_get s2 g) as HH.
    change (residuals_data s2) with d1 in HH. rewrite Hd1 in HH.
    destruct HH as [E|(l' & [= <-] & _ & E)]; rewrite E.
    + exists []. rewrite app_nil_r. auto.
    + exists [Py.nan]. auto.
Qed.

Lemma unparsable_token_abandons_row_witness :
  snd (process_line [] "1 1.0 abc 3.0" malformed_header_state) = Done tt /\
  iterations (fst (process_line [] "1 1.0 abc 3.0" malformed_header_state))
  = iterations malformed_header_state ++ [1%Z].
Proof.
  pose proof (unparsable_token_abandons_row
                [] ["TimeStep 1: Time 0.5";
                    "Iteration  Continuity  X-momentum  Y-momentum"]
                malformed_header_state "1 1.0 abc 3.0"
                "1" ["1.0"; "abc"; "3.0"] 1%Z
                [("Continuity", 1%nat)] "X-momentum" 2%nat
                [("Y-momentum", 3%nat)] "abc") as H.
  assert (Forall (fun item : string * nat =>
                    exists x, cell ["1"; "1.0"; "abc"; "3.0"] (snd item)
                              = Done x)
                 [("Continuity", 1%nat)]) as Hok.
  { repeat constructor. eexists. vm_compute. reflexivity. }
  destruct (H eq_refl eq_refl eq_refl eq_refl eq_refl Hok eq_refl eq_refl)
    as (H1 & H2 & _).
  split; assumption.
Defined.

(** C3 as stated fails.  The first row of [malformed_log] has [abc] in
    its X-momentum column: the row is given up there, its Y-momentum
    value 3.0 is never read, and the values of the second row take the
    first place of both columns. *)
Lemma unparsable_token_shifts_columns :
  out_iterations (parse_starccm_logfile (Readable malformed_log) [])
  = [1%Z; 2%Z] /\
  get (out_residuals (parse_starccm_logfile (Readable malformed_log) []))
      "Continuity" = Some [float_lit "1.0"; float_lit "4.0"] /\
  get (out_residuals (parse_starccm_logfile (Readable malformed_log) []))
      "X-momentum" = Some [float_lit "5.0"; Py.nan] /\
  get (out_residuals (parse_starccm_logfile (Readable malformed_log) []))
      "Y-momentum" = Some [float_lit "6.0"; Py.nan] /\
  float_lit "3.0" <> float_lit "6.0".
Proof. vm_compute. repeat split. discriminate. Qed.

(** ** C4: scenario A *)

(** C4, as the code has it.  The header of scenario A is single-spaced,
    so the split on two or more blanks finds no residual name in it: the
    row gives [iterations = [1]], every residual column is [[NaN]] and
    the report outputs are empty.  With the header fields two spaces
    apart the two values of the row are recorded. *)
Theorem scenario_A_outputs :
  parse_starccm_logfile (Readable scenario_A) []
  = mkOutputs [1%Z]
              (map (fun name => (name, [Py.nan])) expected_residual_cols)
              [] [] [] /\
  parse_starccm_logfile (Readable scenario_A_spaced) []
  = mkOutputs [1%Z]
              [("Continuity", [float_lit "1.0e-3"]);
               ("X-momentum", [float_lit "2.0e-3"]);
               ("Y-momentum", [Py.nan]); ("Z-momentum", [Py.nan]);
               ("Tke", [Py.nan]); ("Sdr", [Py.nan]);
               ("Intermittency", [Py.nan])]
              [] [] [] /\
  Py.float_ "1.0e-3" = Some (S754_finite false 4611686018427388 (-62)) /\
  Py.float_ "2.0e-3" = Some (S754_finite false 4611686018427388 (-61)).
Proof. vm_compute. repeat split. Qed.

(** C4 as stated fails: on the exact text the Continuity and X-momentum
    columns hold NaN, not the values of the row. *)
Lemma scenario_A_records_nan :
  get (out_residuals (parse_starccm_logfile (Readable scenario_A) []))
      "Continuity" = Some [Py.nan] /\
  get (out_residuals (parse_starccm_logfile (Readable scenario_A) []))
      "X-momentum" = Some [Py.nan] /\
  float_lit "1.0e-3" <> Py.nan /\
  float_lit "2.0e-3" <> Py.nan /\
  full_headers_list_parsed "Iteration Continuity X-momentum"
  = ["Iteration Continuity X-momentum"].
Proof. vm_compute. repeat split; discriminate. Qed.

(** ** C5: the state after a failed row *)

(** C5 fails on the code.  The row raises at its X-momentum token after
    the iteration and the Continuity value were appended; the handler
    looks at the Continuity column only, finds it as long as
    [iterations], and pads nothing: the other six columns stay
    shorter. *)
Theorem handler_leaves_columns_short :
  scan [] failed_row_lines (init [])
  = (mkState [1%Z] [] []
             [("Continuity", [float_lit "1.0"]); ("X-momentum", []);
              ("Y-momentum", []); ("Z-momentum", []); ("Tke", []);
              ("Sdr", []); ("Intermittency", [])]
             []
             [("Continuity", 1%nat); ("X-momentum", 2%nat);
              ("Y-momentum", 3%nat)]
             []
             (float_lit "0.5") true true,
     Done tt).
Proof. vm_compute. reflexivity. Qed.

(** ** C6: a header line replaces the layouts it names *)

(** C6, as the code has it.  After a recognized header line: when a token
    is a known residual name, the residual layout maps each known
    residual name to its last position among the tokens and nothing
    else, whatever it was before, and otherwise it is as before; the
    report layout follows the same rule over the requested names that
    are not known residual names. *)
Theorem header_replaces_named_layouts cols s raw line :
  classify cols s raw = Header line ->
  (if existsb (fun t => mem t expected_residual_cols)
              (full_headers_list_parsed line)
   then forall name,
       get (residual_headers_map (fst (process_line cols raw s))) name
       = if mem name expected_residual_cols
         then last_index_from 0 name (full_headers_list_parsed line)
         else None
   else residual_headers_map (fst (process_line cols raw s))
        = residual_headers_map s) /\
  (if existsb (fun t => mem t cols && negb (mem t expected_residual_cols))
              (full_headers_list_parsed line)
   then forall name,
       get (report_headers_map (fst (process_line cols raw s))) name
       = if mem name cols && negb (mem name expected_residual_cols)
         then last_index_from 0 name (full_headers_list_parsed line)
         else None
   else report_headers_map (fst (process_line cols raw s))
        = report_headers_map s) /\
  header_line_found (fst (process_line cols raw s)) = true.
Proof.
  intros Hc. rewrite (process_line_header _ _ _ _ Hc). cbn [fst].
  apply read_header_layouts.
Qed.

Lemma header_replaces_named_layouts_witness :
  get (residual_headers_map
         (fst (process_line ["Lift"] "Iteration  Continuity  Tke  Lift"
                            malformed_header_state))) "Tke" = Some 2%nat /\
  get (residual_headers_map
         (fst (process_line ["Lift"] "Iteration  Continuity  Tke  Lift"
                            malformed_header_state))) "X-momentum" = None /\
  get (report_headers_map
         (fst (process_line ["Lift"] "Iteration  Continuity  Tke  Lift"
                            malformed_header_state))) "Lift" = Some 3%nat /\
  header_line_found
    (fst (process_line ["Lift"] "Iteration  Continuity  Tke  Lift"
                       malformed_header_state)) = true.
Proof.
  destruct (header_replaces_named_layouts
              ["Lift"] malformed_header_state
              "Iteration  Continuity  Tke  Lift"
              "Iteration  Continuity  Tke  Lift" eq_refl) as (H1 & H2 & H3).
  assert (existsb (fun t => mem t expected_residual_cols)
                  (full_headers_list_parsed
                     "Iteration  Continuity  Tke  Lift") = true) as E1
      by (vm_compute; reflexivity).
  assert (existsb (fun t => mem t ["Lift"]
                            && negb (mem t expected_residual_cols))
                  (full_headers_list_parsed
                     "Iteration  Continuity  Tke  Lift") = true) as E2
      by (vm_compute; reflexivity).
  rewrite E1 in H1. rewrite E2 in H2.
  rewrite (H1 "Tke"), (H1 "X-momentum"), (H2 "Lift").
  repeat split; try exact H3; vm_compute; reflexivity.
Defined.

(** C6 as stated fails for the report layout.  [Tke] is requested as a
    report field and is a token of the second header, so the line has a
    match among the requested names; yet the report layout is not
    replaced: it still holds the Lift column of the first header, which
    the second header does not name. *)
Lemma requested_residual_name_keeps_old_report_layout :
  classify ["Tke"; "Lift"] lift_header_state "Iteration  Continuity  Tke"
  = Header "Iteration  Continuity  Tke" /\
  full_headers_list_parsed "Iteration  Continuity  Tke"
  = ["Iteration"; "Continuity"; "Tke"] /\
  mem "Tke" ["Tke"; "Lift"] = true /\
  report_headers_map lift_header_state = [("Lift", 2%nat)] /\
  report_headers_map
    (fst (process_line ["Tke"; "Lift"] "Iteration  Continuity  Tke"
                       lift_header_state))
  = [("Lift", 2%nat)] /\
  residual_headers_map
    (fst (process_line ["Tke"; "Lift"] "Iteration  Continuity  Tke"
                       lift_header_state))
  = [("Continuity", 1%nat); ("Tke", 2%nat)].
Proof. vm_compute. repeat split. Qed.

(** ** C7: the gating field *)

(** C7, as the code has it.  While the report layout has a column for
    the gating field, data rows whose gating token is ["---"], empty or
    missing append nothing to the report iterations, the report times or
    any report column; and a data row read after them, whose first token
    is an integer, whose gating token is a value and whose cells of the
    residual layout all convert (a cell beyond the row counts as NaN),
    adds its iteration number and the current time to the report
    outputs, and to each column of the report layout its cell when the
    report cells convert.  The condition on the residual cells is
    needed: the residual columns are read before the gate is looked
    at. *)
Theorem gated_rows_then_sample
    cols lines s idx gated raw first rest n tok :
  scan cols lines (init cols) = (s, Done tt) ->
  first_report_col_idx cols (report_headers_map s) = Some idx ->
  Forall (fun r => exists vs, classify cols s r = DataRow vs /\
                              gating_token_absent vs idx = true) gated ->
  classify cols s raw = DataRow (first :: rest) ->
  Py.isdigit first = true -> Py.int_ first = Some n ->
  Forall (fun item => exists x, cell (first :: rest) (snd item) = Done x)
         (residual_headers_map s) ->
  nth_error (first :: rest) idx = Some tok ->
  tok <> "---" -> tok <> "" ->
  snd (scan cols gated s) = Done tt /\
  report_iterations (fst (scan cols gated s)) = report_iterations s /\
  report_times (fst (scan cols gated s)) = report_times s /\
  reports_data (fst (scan cols gated s)) = reports_data s /\
  snd (process_line cols raw (fst (scan cols gated s))) = Done tt /\
  report_iterations (fst (process_line cols raw (fst (scan cols gated s))))
  = report_iterations s ++ [n] /\
  report_times (fst (process_line cols raw (fst (scan cols gated s))))
  = report_times s ++ [current_time s] /\
  (Forall (fun item => exists x, cell (first :: rest) (snd item) = Done x)
          (report_headers_map s) ->
   Forall (fun item =>
             exists l x,
               get (reports_data s) (fst item) = Some l /\
               cell (first :: rest) (snd item) = Done x /\
               get (reports_data
                      (fst (process_line cols raw (fst (scan cols gated s)))))
                   (fst item)
               = Some (l ++ [x]))
          (report_headers_map s)).
Proof.
  intros Hscan Hidx Hgated Hrow Hdig Hint Hok Htok Hne1 Hne2.
  pose proof (scan_done_wf _ _ _ Hscan) as W.
  destruct (scan_gated_rows cols idx gated s W Hidx Hgated)
    as (R & W1 & F1 & F2 & F3 & F4 & F5 & G1 & G2 & G3).
  set (s1 := fst (scan cols gated s)) in *.
  repeat (split; [assumption|]).
  assert (classify cols s1 raw = DataRow (first :: rest)) as Hrow1.
  { now rewrite (classify_flags cols s s1 raw F4 F5). }
  rewrite (process_line_data_row _ _ _ _ W1 Hrow1). cbn [fst snd].
  split; [reflexivity|].
  destruct (row_sample cols first rest n s1) as (S1 & S2 & S3); auto.
  { now rewrite F1. }
  { rewrite (gate_open_at cols s1 _ idx) by now rewrite F2.
    unfold gating_token_absent. rewrite Htok.
    apply String.eqb_neq in Hne1, Hne2. now rewrite Hne1, Hne2. }
  rewrite S1, S2, S3, G1, G2, G3, F2, F3.
  repeat (split; [reflexivity|]).
  intros Hrep. apply Forall_forall. intros [g cg] Hin. cbn [fst snd].
  destruct (fill_done_get (first :: rest) (report_headers_map s)
                          (reports_data s) g cg) as (l & x & Hx & Hl & Hg);
    [apply (wf_report_map_nodup _ _ W)| |assumption|eauto].
  apply fill_all_done; [|assumption].
  intros k Hk. rewrite (wf_report_keys _ _ W).
  apply in_keys_empty_columns. now apply (wf_report_map _ _ W).
Qed.

Lemma gated_rows_then_sample_witness :
  report_iterations (fst (scan ["Lift"] ["1 1.0 ---"] report_header_state))
  = report_iterations report_header_state /\
  report_iterations
    (fst (process_line ["Lift"] "2 4.0 5.0"
            (fst (scan ["Lift"] ["1 1.0 ---"] report_header_state))))
  = report_iterations report_header_state ++ [2%Z] /\
  report_times
    (fst (process_line ["Lift"] "2 4.0 5.0"
            (fst (scan ["Lift"] ["1 1.0 ---"] report_header_state))))
  = report_times report_header_state ++ [current_time report_header_state].
Proof.
  pose proof (gated_rows_then_sample
                ["Lift"]
                ["TimeStep 1: Time 0.5"; "Iteration  Continuity  Lift"]
                report_header_state 2%nat ["1 1.0 ---"] "2 4.0 5.0"
                "2" ["4.0"; "5.0"] 2%Z "5.0") as H.
  assert (Forall (fun r => exists vs,
                      classify ["Lift"] report_header_state r = DataRow vs /\
                      gating_token_absent vs 2 = true) ["1 1.0 ---"]) as Hg.
  { repeat constructor. exists ["1"; "1.0"; "---"].
    split; vm_compute; reflexivity. }
  assert (Forall (fun item : string * nat =>
                    exists x, cell ["2"; "4.0"; "5.0"] (snd item) = Done x)
                 (residual_headers_map report_header_state)) as Hok.
  { repeat constructor. eexists. vm_compute. reflexivity. }
  destruct (H eq_refl eq_refl Hg eq_refl eq_refl eq_refl Hok eq_refl)
    as (_ & H1 & _ & _ & _ & H2 & H3 & _); try discriminate.
  repeat split; assumption.
Defined.

(** C7 as stated fails.  The last row of [residual_fail_log] is read
    while the report layout has the Lift column, its first token is the
    integer 2 and its Lift token is the value 5.0; its iteration number
    is recorded, but the Continuity token [abc] raises before the gate
    is reached, so the row gives no report sample. *)
Lemma unparsable_residual_cell_gives_no_sample :
  first_report_col_idx ["Lift"] (report_headers_map report_header_state)
  = Some 2%nat /\
  classify ["Lift"] report_header_state "2 abc 5.0"
  = DataRow ["2"; "abc"; "5.0"] /\
  gating_token_absent ["2"; "abc"; "5.0"] 2 = false /\
  out_iterations (parse_starccm_logfile (Readable residual_fail_log) ["Lift"])
  = [1%Z; 2%Z] /\
  out_report_iterations
    (parse_starccm_logfile (Readable residual_fail_log) ["Lift"]) = [] /\
  out_report_times
    (parse_starccm_logfile (Readable residual_fail_log) ["Lift"]) = [] /\
  out_reports (parse_starccm_logfile (Readable residual_fail_log) ["Lift"])
  = [("Lift", [])].
Proof. vm_compute. repeat split. Qed.

(** ** C8: the time of a report sample *)

(** C8.  When a line is read after [lines], a report sample it adds
    carries the time of the most recent marker line among [lines]; when
    there is no marker line among them, the line adds neither a sample
    nor an iteration. *)
Theorem sample_time_is_latest_marker cols lines s raw :
  scan cols lines (init cols) = (s, Done tt) ->
  match latest_marker_time lines None with
  | Some t =>
      (report_times (fst (process_line cols raw s)) = report_times s /\
       report_iterations (fst (process_line cols raw s))
       = report_iterations s)
      \/
      (exists n,
          report_times (fst (process_line cols raw s))
          = report_times s ++ [t] /\
          report_iterations (fst (process_line cols raw s))
          = report_iterations s ++ [n])
  | None =>
      report_times (fst (process_line cols raw s)) = report_times s /\
      report_iterations (fst (process_line cols raw s))
      = report_iterations s /\
      iterations (fst (process_line cols raw s)) = iterations s
  end.
Proof.
  intros Hscan.
  pose proof (scan_done_wf _ _ _ Hscan) as W.
  assert (time_ok (latest_marker_time lines None) s) as T.
  { apply (scan_time cols lines (init cols)); auto using wf_init.
    reflexivity. }
  destruct (process_line_outputs cols raw s W) as [[H|(Hs & n & H1 & H2)] Hi];
    destruct (latest_marker_time lines None) as [t|]; cbn in T.
  - auto.
  - destruct H. destruct Hi; [auto|congruence].
  - right. exists n. destruct T as [_ <-]. auto.
  - congruence.
Qed.

Lemma sample_time_is_latest_marker_witness :
  report_times (fst (process_line ["Lift"] "2 4.0 5.0" report_header_state))
  = report_times report_header_state ++ [float_lit "0.5"].
Proof.
  pose proof (sample_time_is_latest_marker
                ["Lift"]
                ["TimeStep 1: Time 0.5"; "Iteration  Continuity  Lift"]
                report_header_state "2 4.0 5.0" eq_refl) as H.
  assert (latest_marker_time
            ["TimeStep 1: Time 0.5"; "Iteration  Continuity  Lift"] None
          = Some (float_lit "0.5")) as E by (vm_compute; reflexivity).
  rewrite E in H. destruct H as [[_ H]|(n & H & _)].
  - vm_compute in H. discriminate H.
  - exact H.
Defined.

(** ** C9: the keys of the two maps *)

(** C9, as the code has it.  For a readable text the residual map has
    exactly the seven known names and the report map exactly the
    requested names when no marker line fails, and both maps are empty
    when one does; a missing or unreadable file gives empty maps. *)
Theorem key_sets_by_outcome text cols :
  (if existsb marker_fails (file_lines text)
   then parse_starccm_logfile (Readable text) cols = empty_outputs
   else
     keys (out_residuals (parse_starccm_logfile (Readable text) cols))
     = expected_residual_cols /\
     NoDup (keys (out_reports (parse_starccm_logfile (Readable text) cols)))
     /\ incl (keys (out_reports (parse_starccm_logfile (Readable text) cols)))
             cols
     /\ incl cols
             (keys (out_reports (parse_starccm_logfile (Readable text) cols))))
  /\ parse_starccm_logfile Missing cols = empty_outputs
  /\ parse_starccm_logfile Unreadable cols = empty_outputs.
Proof.
  split; [|split; reflexivity].
  rewrite parse_readable.
  destruct (existsb marker_fails (file_lines text)); [reflexivity|].
  pose proof (scan_wf cols (file_lines text) (init cols) (wf_init cols)) as W.
  set (s := fst (scan cols (file_lines text) (init cols))) in *.
  unfold finish. cbn [out_residuals out_reports].
  rewrite (wf_report_keys _ _ W). repeat split.
  - destruct (is_nil (iterations s)); [|rewrite keys_map_values];
      apply (wf_residual_keys _ _ W).
  - apply NoDup_keys_empty_columns.
  - intros k. apply in_keys_empty_columns.
  - intros k. apply in_keys_empty_columns.
Qed.

(** C9 as stated fails: a readable text whose last marker was cut short
    gives two maps without keys. *)
Lemma truncated_marker_returns_empty_maps :
  keys (out_residuals (parse_starccm_logfile (Readable truncated_log)
                                             ["Lift"])) = [] /\
  keys (out_reports (parse_starccm_logfile (Readable truncated_log)
                                           ["Lift"])) = [] /\
  file_lines truncated_log <> [].
Proof. vm_compute. repeat split. discriminate. Qed.

(** ** C10: a report field named like a residual field *)

(** C10.  For a requested report field [f] that is a known residual
    name: in every state of the scan the report layout has no column for
    [f] and the report column of [f] is empty; a header line with the
    token [f] records its last position in the residual layout; the
    report column of [f] returned is empty; and when [f] is the first
    requested field, no report iteration, time or value is returned. *)
Theorem residual_name_requested_as_report cols f :
  In f cols -> In f expected_residual_cols ->
  (forall lines,
      get (report_headers_map (fst (scan cols lines (init cols)))) f = None /\
      get (reports_data (fst (scan cols lines (init cols)))) f = Some []) /\
  (forall s raw line,
      classify cols s raw = Header line ->
      In f (full_headers_list_parsed line) ->
      exists i,
        nth_error (full_headers_list_parsed line) i = Some f /\
        get (residual_headers_map (fst (process_line cols raw s))) f
        = Some i) /\
  (forall src,
      get (out_reports (parse_starccm_logfile src cols)) f = Some [] \/
      parse_starccm_logfile src cols = empty_outputs) /\
  (hd_error cols = Some f ->
   forall src,
     out_report_iterations (parse_starccm_logfile src cols) = [] /\
     out_report_times (parse_starccm_logfile src cols) = [] /\
     Forall (fun kv => snd kv = [])
            (out_reports (parse_starccm_logfile src cols))).
Proof.
  intros Hc Hf. split; [|split; [|split]].
  - intros lines. split.
    + apply (report_layout_skips_residual_names cols); [|assumption].
      apply scan_wf, wf_init.
    + now apply column_of_residual_name_stays_empty.
  - intros s raw line Hh Hin.
    rewrite (process_line_header _ _ _ _ Hh). cbn [fst].
    destruct (read_header_layouts cols line s) as (H & _ & _).
    assert (existsb (fun t => mem t expected_residual_cols)
                    (full_headers_list_parsed line) = true) as E.
    { apply existsb_exists. exists f. split; [assumption|].
      now apply mem_In. }
    rewrite E in H. rewrite H.
    apply mem_In in Hf. rewrite Hf.
    destruct (last_index_from_in 0 f (full_headers_list_parsed line) Hin)
      as (i & Hi & Hn).
    exists i. rewrite Nat.sub_0_r in Hn. split; [assumption|].
    now rewrite Nat.add_0_l in Hi.
  - intros [| |text]; [now right|now right|].
    rewrite parse_readable.
    destruct (existsb marker_fails (file_lines text)); [now right|left].
    unfold finish. cbn [out_reports].
    now apply column_of_residual_name_stays_empty.
  - intros Hhd src.
    assert (out_report_iterations empty_outputs = [] /\
            out_report_times empty_outputs = [] /\
            Forall (fun kv : string * list spec_float => snd kv = [])
                   (out_reports empty_outputs)) as Hempty.
    { cbn. auto. }
    destruct src as [| |text]; try exact Hempty.
    rewrite parse_readable.
    destruct (existsb marker_fails (file_lines text)); [exact Hempty|].
    unfold finish. cbn [out_report_iterations out_report_times out_reports].
    destruct (no_sample_when_gating_field_is_residual
                cols f (file_lines text) Hhd Hf) as (-> & -> & ->).
    repeat split. apply empty_columns_all_empty.
Qed.

Lemma residual_name_requested_as_report_witness :
  get (out_reports (parse_starccm_logfile (Readable tke_log) ["Tke"])) "Tke"
  = Some [] /\
  out_report_iterations (parse_starccm_logfile (Readable tke_log) ["Tke"])
  = [] /\
  get (out_residuals (parse_starccm_logfile (Readable tke_log) ["Tke"]))
      "Tke" = Some [float_lit "2.0"].
Proof.
  assert (In "Tke" ["Tke"]) as Hc by (cbn; auto).
  assert (In "Tke" expected_residual_cols) as Hf
      by (unfold expected_residual_cols; cbn [In]; auto 10).
  destruct (residual_name_requested_as_report ["Tke"] "Tke" Hc Hf)
    as (_ & _ & H3 & H4).
  destruct (H4 eq_refl (Readable tke_log)) as (H5 & _ & _).
  destruct (H3 (Readable tke_log)) as [H6|H6].
  - split; [exact H6|split; [exact H5|vm_compute; reflexivity]].
  - vm_compute in H6. discriminate H6.
Defined.


(** * Further properties of the parser *)

(** ** Stripped lines *)

Lemma lstrip_head s c r : Py.lstrip s = String c r -> Py.isspace c = false.
Proof.
  induction s as [|a s IH]; cbn [Py.lstrip]; [discriminate|].
  destruct (Py.isspace a) eqn:E; [assumption|]. now intros [= <- _].
Qed.

Lemma rstrip_head c r :
  Py.isspace c = false -> Py.rstrip (String c r) = String c (Py.rstrip r).
Proof. intros E. cbn [Py.rstrip]. now rewrite E. Qed.

Lemma rstrip_idempotent s : Py.rstrip (Py.rstrip s) = Py.rstrip s.
Proof.
  induction s as [|c r IH]; [reflexivity|]. cbn [Py.rstrip].
  destruct (Py.isspace c && Py.is_empty (Py.rstrip r)) eqn:E; [reflexivity|].
  cbn [Py.rstrip]. now rewrite IH, E.
Qed.

Lemma strip_head raw c r : Py.strip raw = String c r -> Py.isspace c = false.
Proof.
  unfold Py.strip. destruct (Py.lstrip raw) as [|a s] eqn:L; [discriminate|].
  pose proof (lstrip_head _ _ _ L) as Ha. rewrite (rstrip_head _ _ Ha).
  now intros [= <- _].
Qed.

Lemma lstrip_no_blank s :
  match s with EmptyString => True | String c _ => Py.isspace c = false end ->
  Py.lstrip s = s.
Proof. destruct s as [|c r]; [reflexivity|]. cbn [Py.lstrip]. now intros ->. Qed.

Lemma startswith_strip_blank raw : Py.startswith (Py.strip raw) " " = false.
Proof.
  unfold Py.startswith. destruct (Py.strip raw) as [|c r] eqn:E;
    [reflexivity|].
  apply strip_head in E. cbn [String.prefix].
  destruct (ascii_dec " " c) as [<-|]; [discriminate E|reflexivity].
Qed.

Lemma strip_idempotent raw : Py.strip (Py.strip raw) = Py.strip raw.
Proof.
  unfold Py.strip at 1. rewrite lstrip_no_blank.
  - unfold Py.strip. apply rstrip_idempotent.
  - destruct (Py.strip raw) as [|c r] eqn:E; [exact I|].
    now apply strip_head in E.
Qed.

Lemma is_data_row_strip s raw :
  is_data_row s (Py.strip raw)
  = header_line_found s && iteration_data_started s
    && starts_with_digit (Py.strip raw).
Proof.
  unfold is_data_row, starts_with_digit.
  now rewrite startswith_strip_blank.
Qed.

(** X1.  A stripped line never starts with a blank, so the first
    alternative of the test of line 71 never holds and a data row is a
    line whose first character is a digit; and stripping it again, as
    line 72 does, changes nothing. *)
Theorem stripped_line_has_no_leading_blank raw s :
  Py.startswith (Py.strip raw) " " = false /\
  Py.strip (Py.strip raw) = Py.strip raw /\
  is_data_row s (Py.strip raw)
  = header_line_found s && iteration_data_started s
    && starts_with_digit (Py.strip raw).
Proof.
  split; [apply startswith_strip_blank|].
  split; [apply strip_idempotent|apply is_data_row_strip].
Qed.


(** ** Lines by kind *)

(** The kind of a line, with the flags of the state spelled out. *)
Lemma classify_by_flags cols s raw :
  classify cols s raw =
  let line := Py.strip raw in
  if Py.is_empty line then Blank
  else
    match Py.timestep_match line with
    | Some group1 => Marker group1
    | None =>
        if is_header cols line then Header line
        else if header_line_found s && iteration_data_started s
                && starts_with_digit line
             then DataRow (Py.re_split_ws line)
             else Noise
    end.
Proof.
  unfold classify. cbv zeta.
  now rewrite is_data_row_strip, strip_idempotent.
Qed.

Lemma process_line_ignorable cols raw s :
  ignorable cols raw = true -> process_line cols raw s = (s, Done tt).
Proof.
  unfold ignorable, process_line. rewrite classify_by_flags. cbv zeta.
  destruct (Py.is_empty (Py.strip raw)); [reflexivity|].
  destruct (Py.timestep_match (Py.strip raw)); [discriminate|].
  destruct (is_header cols (Py.strip raw)); [discriminate|].
  destruct (starts_with_digit (Py.strip raw)); [discriminate|].
  now rewrite andb_false_r.
Qed.

(** X2.  A line that is blank, or that is no marker line, no header line
    and does not start with a digit, can be taken out of the log or put
    into it anywhere: the scan ends in the same state with the same
    result. *)
Theorem ignorable_line_changes_nothing cols raw a b s :
  ignorable cols raw = true ->
  scan cols (a ++ raw :: b) s = scan cols (a ++ b) s.
Proof.
  intros Hi. rewrite !scan_app.
  destruct (scan cols a s) as [s1 [e|u]]; [reflexivity|].
  now rewrite scan_cons, (process_line_ignorable _ _ _ Hi).
Qed.

Lemma ignorable_line_changes_nothing_witness :
  scan ["Lift"]
       (["TimeStep 1: Time 0.5"; "Iteration  Continuity  Lift"]
        ++ "  Solver is running..." :: ["1 1.0 2.0"])
       (init ["Lift"])
  = scan ["Lift"]
         (["TimeStep 1: Time 0.5"; "Iteration  Continuity  Lift"]
          ++ ["1 1.0 2.0"])
         (init ["Lift"]).
Proof.
  apply (ignorable_line_changes_nothing ["Lift"] "  Solver is running...").
  vm_compute. reflexivity.
Defined.

(** ** What a row appends to [iterations] *)

Lemma row_iterations_exact cols vs s :
  iterations (row_closed_form cols vs s)
  = iterations s ++ match row_iteration vs with
                    | Some n => [n]
                    | None => []
                    end.
Proof.
  unfold row_iteration, row_closed_form.
  destruct vs as [|first rest]; [now rewrite app_nil_r|].
  destruct (Py.isdigit first); cbn [negb]; [|now rewrite app_nil_r].
  destruct (Py.int_ first) as [n|];
    [|project_state; now rewrite app_nil_r].
  destruct (fill (first :: rest) (residual_headers_map s) (residuals_data s))
    as [d [e|[]]]; [reflexivity|].
  destruct (gate_open cols s (first :: rest)); [|reflexivity].
  destruct (fill (first :: rest) (report_headers_map s) (reports_data s))
    as [p [e|[]]]; reflexivity.
Qed.

Lemma int_nonnegative first n : Py.int_ first = Some n -> (0 <= n)%Z.
Proof.
  unfold Py.int_.
  destruct (negb (Py.is_empty first) && Py.all_chars Py.isdecimal first);
    [|discriminate].
  intros [= <-]. apply N2Z.is_nonneg.
Qed.

Lemma iterations_of_nonnegative cols lines hs ds :
  Forall (fun n => (0 <= n)%Z) (iterations_of cols lines hs ds).
Proof.
  revert hs ds. induction lines as [|raw rest IH]; intros hs ds;
    cbn [iterations_of]; [constructor|].
  destruct (Py.is_empty (Py.strip raw)); auto.
  destruct (Py.timestep_match (Py.strip raw)); auto.
  destruct (is_header cols (Py.strip raw)); auto.
  destruct (hs && ds && starts_with_digit (Py.strip raw)); auto.
  destruct (row_iteration (Py.re_split_ws (Py.strip raw))) as [n|] eqn:E;
    auto.
  constructor; auto. unfold row_iteration in E.
  destruct (Py.re_split_ws (Py.strip raw)) as [|first r]; [discriminate|].
  destruct (Py.isdigit first); [|discriminate].
  now apply int_nonnegative in E.
Qed.

(** The iterations after a scan that ends normally. *)
Lemma scan_iterations cols lines s s' :
  wf cols s -> scan cols lines s = (s', Done tt) ->
  iterations s'
  = iterations s
    ++ iterations_of cols lines (header_line_found s)
                     (iteration_data_started s).
Proof.
  revert s. induction lines as [|raw rest IH]; intros s W.
  - intros [= <-]. cbn [iterations_of]. now rewrite app_nil_r.
  - rewrite scan_cons. cbn [iterations_of].
    pose proof (process_line_wf cols raw s W) as W1.
    unfold process_line in *. rewrite classify_by_flags in *. cbv zeta in *.
    destruct (Py.is_empty (Py.strip raw)); [now apply IH|].
    destruct (Py.timestep_match (Py.strip raw)) as [g|].
    + destruct (Py.float_ g) as [t|]; [|discriminate].
      intros H. now rewrite (IH _ W1 H).
    + destruct (is_header cols (Py.strip raw)).
      * intros H. rewrite (IH _ W1 H). unfold read_header.
        destruct (header_maps cols 0
                    (full_headers_list_parsed (Py.strip raw)) [] []).
        reflexivity.
      * destruct (header_line_found s && iteration_data_started s
                  && starts_with_digit (Py.strip raw)); [|now apply IH].
        rewrite (process_row_closed _ _ _ W) in *. cbn [fst] in W1.
        intros H. rewrite (IH _ W1 H).
        destruct (row_frame cols (Py.re_split_ws (Py.strip raw)) s)
          as (_ & _ & _ & -> & ->).
        rewrite row_iterations_exact, <- app_assoc.
        now destruct (row_iteration (Py.re_split_ws (Py.strip raw))).
Qed.

(** X3.  The iterations returned are those the lines give with the two
    flags alone: what the other tokens of a row hold, whether they
    parse, and the layouts have no part in it; no iteration is
    negative.  When a marker line fails there are none. *)
Theorem iterations_by_flags_alone text cols :
  out_iterations (parse_starccm_logfile (Readable text) cols)
  = (if existsb marker_fails (file_lines text) then []
     else iterations_of cols (file_lines text) false false) /\
  Forall (fun n => (0 <= n)%Z)
         (out_iterations (parse_starccm_logfile (Readable text) cols)).
Proof.
  assert (out_iterations (parse_starccm_logfile (Readable text) cols)
          = (if existsb marker_fails (file_lines text) then []
             else iterations_of cols (file_lines text) false false)) as E.
  { rewrite parse_readable.
    pose proof (scan_result cols (file_lines text) (init cols) (wf_init cols))
      as R.
    destruct (existsb marker_fails (file_lines text)); [reflexivity|].
    unfold finish. cbn [out_iterations].
    destruct (scan cols (file_lines text) (init cols)) as [s r] eqn:S.
    cbn [fst snd] in *. subst r.
    apply (scan_iterations cols _ _ _ (wf_init cols) S). }
  split; [exact E|]. rewrite E.
  destruct (existsb marker_fails (file_lines text)); [constructor|].
  apply iterations_of_nonnegative.
Qed.


(** ** Logs without a marker line or without a header line *)

Lemma classify_header_is_header cols s raw line :
  classify cols s raw = Header line -> is_header cols (Py.strip raw) = true.
Proof.
  unfold classify.
  destruct (Py.is_empty (Py.strip raw)); [discriminate|].
  destruct (Py.timestep_match (Py.strip raw)); [discriminate|].
  destruct (is_header cols (Py.strip raw)); [reflexivity|].
  destruct (is_data_row s (Py.strip raw)); discriminate.
Qed.

(** A line that is no data row leaves the outputs alone; it sets the
    one flag only as a marker and the other only as a header. *)
Lemma process_line_no_row cols raw s :
  header_line_found s && iteration_data_started s = false ->
  data_of (fst (process_line cols raw s)) = data_of s /\
  (marker_of raw = None ->
   iteration_data_started (fst (process_line cols raw s))
   = iteration_data_started s) /\
  (is_header cols (Py.strip raw) = false ->
   header_line_found (fst (process_line cols raw s)) = header_line_found s).
Proof.
  intros Hflags. unfold process_line.
  destruct (classify cols s raw) as [|g|line|vs|] eqn:C.
  - cbn [fst]. auto.
  - apply classify_marker in C.
    destruct (Py.float_ g); cbn [fst]; (split; [reflexivity|]);
      (split; [congruence|reflexivity]).
  - apply classify_header_is_header in C. cbn [fst]. unfold read_header.
    destruct (header_maps cols 0 (full_headers_list_parsed line) [] []).
    split; [reflexivity|]. split; [reflexivity|congruence].
  - apply classify_data_row_flags in C as [Hh Hs].
    rewrite Hh, Hs in Hflags. discriminate.
  - cbn [fst]. auto.
Qed.

Lemma finish_no_data cols s :
  data_of s = data_of (init cols) -> finish s = no_data cols.
Proof.
  unfold data_of, finish, no_data, init. project_state.
  now intros [= -> -> -> -> ->].
Qed.

Lemma scan_no_marker cols lines :
  existsb (fun raw => match marker_of raw with
                      | Some _ => true
                      | None => false
                      end) lines = false ->
  forall s, wf cols s -> iteration_data_started s = false ->
  data_of (fst (scan cols lines s)) = data_of s.
Proof.
  intros Hno s W Hs.
  apply (scan_preserves_in cols
           (fun s' => iteration_data_started s' = false /\
                      data_of s' = data_of s) lines); auto.
  intros raw s' Hin W' [Hs' Hd].
  destruct (process_line_no_row cols raw s') as (H1 & H2 & _).
  { rewrite Hs'. apply andb_false_r. }
  assert (marker_of raw = None) as Hm.
  { destruct (marker_of raw) eqn:E; [|reflexivity].
    assert (existsb (fun raw => match marker_of raw with
                                | Some _ => true
                                | None => false
                                end) lines = true) as Hex.
    { apply existsb_exists. exists raw. now rewrite E. }
    congruence. }
  rewrite H1, (H2 Hm). auto.
Qed.

Lemma scan_no_header cols lines :
  existsb (fun raw => is_header cols (Py.strip raw)) lines = false ->
  forall s, wf cols s -> header_line_found s = false ->
  data_of (fst (scan cols lines s)) = data_of s.
Proof.
  intros Hno s W Hs.
  apply (scan_preserves_in cols
           (fun s' => header_line_found s' = false /\
                      data_of s' = data_of s) lines); auto.
  intros raw s' Hin W' [Hs' Hd].
  destruct (process_line_no_row cols raw s') as (H1 & _ & H3).
  { now rewrite Hs'. }
  assert (is_header cols (Py.strip raw) = false) as Hh.
  { destruct (is_header cols (Py.strip raw)) eqn:E; [|reflexivity].
    assert (existsb (fun raw => is_header cols (Py.strip raw)) lines = true)
      as Hex.
    { apply existsb_exists. exists raw. now rewrite E. }
    congruence. }
  rewrite H1, (H3 Hh). auto.
Qed.

Lemma no_marker_no_failure lines :
  existsb (fun raw => match marker_of raw with
                      | Some _ => true
                      | None => false
                      end) lines = false ->
  existsb marker_fails lines = false.
Proof.
  induction lines as [|raw rest IH]; [reflexivity|]. cbn [existsb].
  intros H. apply orb_false_iff in H as [H1 H2].
  rewrite (IH H2), orb_false_r. unfold marker_fails.
  now destruct (marker_of raw).
Qed.

(** X4.  A readable log in which no line matches the marker pattern
    gives no data at all, whatever headers and rows it holds: no
    iteration, seven empty residual columns, no report sample and an
    empty column for every requested field. *)
Theorem log_without_marker_gives_no_data text cols :
  existsb (fun raw => match marker_of raw with
                      | Some _ => true
                      | None => false
                      end) (file_lines text) = false ->
  parse_starccm_logfile (Readable text) cols = no_data cols.
Proof.
  intros Hno. rewrite parse_readable, (no_marker_no_failure _ Hno).
  apply finish_no_data.
  apply (scan_no_marker cols _ Hno); [apply wf_init|reflexivity].
Qed.

Lemma log_without_marker_gives_no_data_witness :
  parse_starccm_logfile
    (Readable (text_of_lines ["Iteration  Continuity  X-momentum";
                              "1 1.0 2.0"; "2 3.0 4.0"])) []
  = no_data [].
Proof.
  apply log_without_marker_gives_no_data. vm_compute. reflexivity.
Defined.

(** X5.  A readable log in which no line passes the header test of line
    60 gives no data unless a marker line fails, however many markers
    and rows it holds. *)
Theorem log_without_header_gives_no_data text cols :
  existsb (fun raw => is_header cols (Py.strip raw)) (file_lines text)
  = false ->
  parse_starccm_logfile (Readable text) cols
  = if existsb marker_fails (file_lines text) then empty_outputs
    else no_data cols.
Proof.
  intros Hno. rewrite parse_readable.
  destruct (existsb marker_fails (file_lines text)); [reflexivity|].
  apply finish_no_data.
  apply (scan_no_header cols _ Hno); [apply wf_init|reflexivity].
Qed.

(** The header test fails on a line in which no requested name occurs. *)
Lemma is_header_needs_report_name cols line :
  cols <> [] ->
  existsb (fun report_col => Py.contains report_col line) cols = false ->
  is_header cols line = false.
Proof.
  intros Hne Hno. unfold is_header. rewrite Hno.
  destruct cols; [contradiction|]. cbn [is_nil orb].
  apply andb_false_r.
Qed.

(** X6.  When report fields are requested and none of their names occurs
    in any line of a readable log, no line is taken as a header, so the
    log gives no data even if it has residual headers and rows. *)
Theorem residual_only_log_gives_no_data_when_reports_requested text cols :
  cols <> [] ->
  existsb (fun raw =>
             existsb (fun report_col =>
                        Py.contains report_col (Py.strip raw)) cols)
          (file_lines text) = false ->
  parse_starccm_logfile (Readable text) cols
  = if existsb marker_fails (file_lines text) then empty_outputs
    else no_data cols.
Proof.
  intros Hne Hno. rewrite parse_readable.
  destruct (existsb marker_fails (file_lines text)); [reflexivity|].
  apply finish_no_data.
  apply scan_no_header; [|apply wf_init|reflexivity].
  induction (file_lines text) as [|raw rest IH]; [reflexivity|].
  cbn [existsb] in *. apply orb_false_iff in Hno as [H1 H2].
  now rewrite (is_header_needs_report_name cols _ Hne H1), (IH H2).
Qed.

Lemma residual_only_log_gives_no_data_when_reports_requested_witness :
  parse_starccm_logfile (Readable scenario_A_spaced) ["Lift"]
  = no_data ["Lift"].
Proof.
  assert (["Lift"] <> []) as Hne by discriminate.
  rewrite (residual_only_log_gives_no_data_when_reports_requested
             scenario_A_spaced ["Lift"] Hne).
  - vm_compute. reflexivity.
  - vm_compute. reflexivity.
Defined.

Lemma log_without_header_gives_no_data_witness :
  parse_starccm_logfile
    (Readable (text_of_lines ["TimeStep 1: Time 0.5"; "1 1.0 2.0"])) []
  = no_data [].
Proof.
  rewrite log_without_header_gives_no_data.
  - vm_compute. reflexivity.
  - vm_compute. reflexivity.
Defined.


(** ** Report samples *)

Lemma subseq_refl {A} (l : list A) : subseq l l.
Proof.
  induction l; [apply subseq_nil|apply subseq_take; assumption].
Qed.

Lemma subseq_nil_l {A} (l : list A) : subseq [] l.
Proof. induction l; constructor; auto. Qed.

Lemma subseq_app {A} (a b c d : list A) :
  subseq a b -> subseq c d -> subseq (a ++ c) (b ++ d).
Proof.
  induction 1; intros Hcd; cbn [app].
  - assumption.
  - apply subseq_skip. auto.
  - apply subseq_take. auto.
Qed.

(** A row adds its number to the report iterations only together with
    [iterations]. *)
Lemma row_sample_iteration cols vs s :
  (report_iterations (row_closed_form cols vs s) = report_iterations s /\
   exists l, iterations (row_closed_form cols vs s) = iterations s ++ l) \/
  exists n,
    report_iterations (row_closed_form cols vs s)
    = report_iterations s ++ [n] /\
    iterations (row_closed_form cols vs s) = iterations s ++ [n].
Proof.
  unfold row_closed_form.
  destruct vs as [|first rest]; [left; split; [|exists []]; auto using app_nil_r|].
  destruct (negb (Py.isdigit first));
    [left; split; [|exists []]; auto using app_nil_r|].
  destruct (Py.int_ first) as [n|];
    [|left; project_state; split; [|exists []]; auto using app_nil_r].
  destruct (fill (first :: rest) (residual_headers_map s) (residuals_data s))
    as [d [e|[]]]; [left; project_state; eauto|].
  destruct (gate_open cols s (first :: rest));
    [|left; project_state; eauto].
  destruct (fill (first :: rest) (report_headers_map s) (reports_data s))
    as [p [e|[]]]; right; exists n; project_state; auto.
Qed.

Lemma process_line_subseq cols raw s :
  wf cols s ->
  subseq (report_iterations s) (iterations s) ->
  subseq (report_iterations (fst (process_line cols raw s)))
         (iterations (fst (process_line cols raw s))).
Proof.
  intros W H. unfold process_line.
  destruct (classify cols s raw) as [|g|line|vs|]; auto.
  - now destruct (Py.float_ g).
  - cbn [fst]. unfold read_header.
    now destruct (header_maps cols 0 (full_headers_list_parsed line) [] []).
  - rewrite (process_row_closed _ _ _ W). cbn [fst].
    destruct (row_sample_iteration cols vs s)
      as [(-> & l & ->)|(n & -> & ->)].
    + rewrite <- (app_nil_r (report_iterations s)).
      apply subseq_app; [assumption|apply subseq_nil_l].
    + apply subseq_app; [assumption|apply subseq_refl].
Qed.

(** X7.  The report iterations returned are iterations returned, in the
    same order: every sample belongs to an accepted row. *)
Theorem report_iterations_among_iterations src cols :
  subseq (out_report_iterations (parse_starccm_logfile src cols))
         (out_iterations (parse_starccm_logfile src cols)).
Proof.
  destruct src as [| |text]; try constructor.
  rewrite parse_readable.
  destruct (existsb marker_fails (file_lines text)); [constructor|].
  unfold finish. cbn [out_report_iterations out_iterations].
  apply (scan_preserves cols
           (fun s => subseq (report_iterations s) (iterations s)));
    [|apply wf_init|constructor].
  intros raw s W H. now apply process_line_subseq.
Qed.

Lemma scan_times_from_markers cols lines :
  Forall (marker_time_in lines)
         (report_times (fst (scan cols lines (init cols)))).
Proof.
  apply (scan_preserves_in cols
           (fun s => (iteration_data_started s = true ->
                      marker_time_in lines (current_time s)) /\
                     Forall (marker_time_in lines) (report_times s)) lines);
    [|apply wf_init|split; [discriminate|constructor]].
  intros raw s Hin W [Ht Hf]. unfold process_line.
  destruct (classify cols s raw) as [|g|line|vs|] eqn:C; auto.
  - apply classify_marker in C.
    destruct (Py.float_ g) as [t|] eqn:F; cbn [fst]; auto.
    project_state. split; [|assumption].
    intros _. exists raw, g. auto.
  - cbn [fst]. unfold read_header.
    destruct (header_maps cols 0 (full_headers_list_parsed line) [] []).
    auto.
  - rewrite (process_row_closed _ _ _ W). cbn [fst].
    destruct (classify_data_row_flags _ _ _ _ C) as [_ Hs].
    destruct (row_frame cols vs s) as (_ & _ & -> & _ & ->).
    split; [assumption|].
    destruct (row_reports cols vs s)
      as [(-> & _)|(_ & f & r & n & _ & _ & -> & _)]; [assumption|].
    apply Forall_app. split; [assumption|]. constructor; auto.
Qed.

(** X8.  Every report time returned is the float of the text that some
    marker line of the log captures: the value [current_time] starts
    with is never recorded. *)
Theorem report_times_come_from_markers text cols :
  Forall (fun t =>
            exists raw group1,
              In raw (file_lines text) /\ marker_of raw = Some group1 /\
              Py.float_ group1 = Some t)
         (out_report_times (parse_starccm_logfile (Readable text) cols)).
Proof.
  rewrite parse_readable.
  destruct (existsb marker_fails (file_lines text)); [constructor|].
  unfold finish. cbn [out_report_times].
  apply scan_times_from_markers.
Qed.

(** When the gate of line 84 cannot open, the report outputs stay as
    they were at the start. *)
Lemma scan_gate_shut cols lines :
  (forall s vs, gate_open cols s vs = false) ->
  report_times (fst (scan cols lines (init cols))) = [] /\
  report_iterations (fst (scan cols lines (init cols))) = [] /\
  reports_data (fst (scan cols lines (init cols))) = empty_columns cols.
Proof.
  intros Hshut.
  apply (scan_preserves cols
           (fun s => report_times s = [] /\ report_iterations s = [] /\
                     reports_data s = empty_columns cols));
    [|apply wf_init|repeat split].
  intros raw s W (H1 & H2 & H3).
  destruct (process_line_reports cols raw s W)
    as [(-> & -> & ->)|(vs & Hg & _)]; [auto|].
  rewrite Hshut in Hg. discriminate.
Qed.

Lemma parse_gate_shut cols src :
  (forall s vs, gate_open cols s vs = false) ->
  out_report_iterations (parse_starccm_logfile src cols) = [] /\
  out_report_times (parse_starccm_logfile src cols) = [] /\
  Forall (fun kv => snd kv = [])
         (out_reports (parse_starccm_logfile src cols)).
Proof.
  intros Hshut.
  assert (out_report_iterations empty_outputs = [] /\
          out_report_times empty_outputs = [] /\
          Forall (fun kv : string * list spec_float => snd kv = [])
                 (out_reports empty_outputs)) as Hempty.
  { cbn. auto. }
  destruct src as [| |text]; try exact Hempty.
  rewrite parse_readable.
  destruct (existsb marker_fails (file_lines text)); [exact Hempty|].
  unfold finish. cbn [out_report_iterations out_report_times out_reports].
  destruct (scan_gate_shut cols (file_lines text) Hshut) as (-> & -> & ->).
  repeat split. apply empty_columns_all_empty.
Qed.

(** X9.  With no report field requested no report sample is taken and
    the report map has no key, whatever the log holds. *)
Theorem no_report_requested_no_sample src :
  out_report_iterations (parse_starccm_logfile src []) = [] /\
  out_report_times (parse_starccm_logfile src []) = [] /\
  out_reports (parse_starccm_logfile src []) = [].
Proof.
  destruct (parse_gate_shut [] src) as (H1 & H2 & _); [reflexivity|].
  split; [assumption|]. split; [assumption|].
  destruct src as [| |text]; try reflexivity.
  rewrite parse_readable.
  destruct (existsb marker_fails (file_lines text)); [reflexivity|].
  unfold finish. cbn [out_reports].
  pose proof (wf_report_keys _ _
                (scan_wf [] (file_lines text) (init []) (wf_init []))) as K.
  cbn in K. destruct (reports_data _); [reflexivity|discriminate].
Qed.

(** X10.  When the first requested report name is the empty string, the
    gating field is taken as absent (line 82): no report sample is ever
    taken and every report column stays empty, whatever the other names
    and the log are. *)
Theorem empty_first_report_name_no_sample src others :
  out_report_iterations (parse_starccm_logfile src ("" :: others)) = [] /\
  out_report_times (parse_starccm_logfile src ("" :: others)) = [] /\
  Forall (fun kv => snd kv = [])
         (out_reports (parse_starccm_logfile src ("" :: others))).
Proof. apply parse_gate_shut. reflexivity. Qed.


(** ** Rows that parse and rows whose number does not *)

Lemma cell_beyond_row vs c :
  (List.length vs <= c)%nat -> cell vs c = Done Py.nan.
Proof.
  intros H. unfold cell. apply Nat.ltb_ge in H. now rewrite H.
Qed.

(** X11.  A data row whose first token is an integer and whose cells all
    parse adds its number to [iterations] and exactly one value to the
    column of every field of the residual layout: the float of the token
    in the column of the field, or NaN when the row has no such column.
    The other residual columns are not touched. *)
Theorem parsable_row_fills_layout_columns
    cols lines s raw first rest n :
  scan cols lines (init cols) = (s, Done tt) ->
  classify cols s raw = DataRow (first :: rest) ->
  Py.isdigit first = true -> Py.int_ first = Some n ->
  Forall (fun item => exists x, cell (first :: rest) (snd item) = Done x)
         (residual_headers_map s) ->
  Forall (fun item => exists x, cell (first :: rest) (snd item) = Done x)
         (report_headers_map s) ->
  snd (process_line cols raw s) = Done tt /\
  iterations (fst (process_line cols raw s)) = iterations s ++ [n] /\
  Forall (fun item =>
            exists l x,
              get (residuals_data s) (fst item) = Some l /\
              cell (first :: rest) (snd item) = Done x /\
              ((List.length (first :: rest) <= snd item)%nat ->
               x = Py.nan) /\
              get (residuals_data (fst (process_line cols raw s))) (fst item)
              = Some (l ++ [x]))
         (residual_headers_map s) /\
  (forall k, ~ In k (keys (residual_headers_map s)) ->
             get (residuals_data (fst (process_line cols raw s))) k
             = get (residuals_data s) k).
Proof.
  intros Hscan Hrow Hdig Hint Hres Hrep.
  pose proof (scan_done_wf _ _ _ Hscan) as W.
  rewrite (process_line_data_row _ _ _ _ W Hrow). cbn [fst snd].
  split; [reflexivity|].
  assert (snd (fill (first :: rest) (residual_headers_map s)
                    (residuals_data s)) = Done tt) as Dres.
  { apply fill_all_done; [|assumption]. intros k Hk.
    rewrite (wf_residual_keys _ _ W). now apply (wf_residual_map _ _ W). }
  assert (snd (fill (first :: rest) (report_headers_map s)
                    (reports_data s)) = Done tt) as Drep.
  { apply fill_all_done; [|assumption]. intros k Hk.
    rewrite (wf_report_keys _ _ W). apply in_keys_empty_columns.
    now apply (wf_report_map _ _ W). }
  assert (iterations (row_closed_form cols (first :: rest) s)
          = iterations s ++ [n] /\
          residuals_data (row_closed_form cols (first :: rest) s)
          = fst (fill (first :: rest) (residual_headers_map s)
                      (residuals_data s))) as [Hi Hd].
  { unfold row_closed_form. rewrite Hdig, Hint. cbn [negb].
    destruct (fill (first :: rest) (residual_headers_map s)
                   (residuals_data s)) as [d r].
    cbn [snd] in Dres. subst r. cbn [fst].
    destruct (gate_open cols s (first :: rest)); [|project_state; auto].
    destruct (fill (first :: rest) (report_headers_map s) (reports_data s))
      as [p r2]. cbn [snd] in Drep. subst r2. project_state. auto. }
  rewrite Hi, Hd. split; [reflexivity|]. split.
  - apply Forall_forall. intros [g cg] Hin. cbn [fst snd].
    destruct (fill_done_get (first :: rest) (residual_headers_map s)
                            (residuals_data s) g cg
                            (wf_residual_map_nodup _ _ W) Dres Hin)
      as (l & x & Hx & Hl & Hg).
    exists l, x. repeat split; auto.
    intros Hle. rewrite (cell_beyond_row _ _ Hle) in Hx. congruence.
  - intros k Hk. now apply fill_unchanged.
Qed.

Lemma parsable_row_fills_layout_columns_witness :
  iterations (fst (process_line [] "7 1.5" malformed_header_state))
  = iterations malformed_header_state ++ [7%Z] /\
  get (residuals_data (fst (process_line [] "7 1.5" malformed_header_state)))
      "X-momentum" = Some [Py.nan].
Proof.
  pose proof (parsable_row_fills_layout_columns
                [] ["TimeStep 1: Time 0.5";
                    "Iteration  Continuity  X-momentum  Y-momentum"]
                malformed_header_state "7 1.5" "7" ["1.5"] 7%Z) as H.
  assert (Forall (fun item : string * nat =>
                    exists x, cell ["7"; "1.5"] (snd item) = Done x)
                 (residual_headers_map malformed_header_state)) as Hres.
  { repeat constructor; eexists; vm_compute; reflexivity. }
  assert (Forall (fun item : string * nat =>
                    exists x, cell ["7"; "1.5"] (snd item) = Done x)
                 (report_headers_map malformed_header_state)) as Hrep.
  { constructor. }
  destruct (H eq_refl eq_refl eq_refl eq_refl Hres Hrep)
    as (_ & H1 & H2 & _).
  split; [exact H1|].
  assert (In ("X-momentum", 2%nat)
             (residual_headers_map malformed_header_state)) as Hin.
  { vm_compute. auto. }
  rewrite Forall_forall in H2.
  destruct (H2 _ Hin) as (l & x & Hl & _ & Hnan & Hg).
  cbn [fst snd] in *. rewrite Hg.
  rewrite (Hnan (le_n 2)).
  vm_compute in Hl. injection Hl as <-. reflexivity.
Defined.

(** X12.  A data row whose first token passes [isdigit] but is refused
    by [int] (it holds a superscript digit) adds no iteration and no
    report sample; the handler runs and may add one NaN to a residual
    column. *)
Theorem row_with_unconvertible_number
    cols lines s raw first rest :
  scan cols lines (init cols) = (s, Done tt) ->
  classify cols s raw = DataRow (first :: rest) ->
  Py.isdigit first = true -> Py.int_ first = None ->
  snd (process_line cols raw s) = Done tt /\
  iterations (fst (process_line cols raw s)) = iterations s /\
  report_iterations (fst (process_line cols raw s)) = report_iterations s /\
  report_times (fst (process_line cols raw s)) = report_times s /\
  reports_data (fst (process_line cols raw s)) = reports_data s /\
  Forall (fun g =>
            exists l pad,
              get (residuals_data s) g = Some l /\
              get (residuals_data (fst (process_line cols raw s))) g
              = Some (l ++ pad) /\
              (pad = [] \/
               pad = [Py.nan] /\
               (List.length l < List.length (iterations s))%nat))
         expected_residual_cols.
Proof.
  intros Hscan Hrow Hdig Hint.
  pose proof (scan_done_wf _ _ _ Hscan) as W.
  rewrite (process_line_data_row _ _ _ _ W Hrow). cbn [fst snd].
  unfold row_closed_form. rewrite Hdig, Hint. cbn [negb]. project_state.
  repeat (split; [reflexivity|]).
  apply Forall_forall. intros g Hg.
  rewrite <- (wf_residual_keys _ _ W) in Hg.
  apply in_keys_get in Hg as [l Hl]. exists l.
  destruct (handler_columns_get s g) as [E|(l' & Hl' & Hlt & E)]; rewrite E.
  - exists []. rewrite app_nil_r. auto.
  - exists [Py.nan]. rewrite Hl in Hl'. injection Hl' as <-. auto.
Qed.

Lemma row_with_unconvertible_number_witness :
  iterations (fst (process_line [] superscript_row malformed_header_state))
  = iterations malformed_header_state.
Proof.
  pose proof (row_with_unconvertible_number
                [] ["TimeStep 1: Time 0.5";
                    "Iteration  Continuity  X-momentum  Y-momentum"]
                malformed_header_state superscript_row
                (String "1"%char (String (ascii_of_nat 178) ""))
                ["1.0"]) as H.
  destruct (H eq_refl eq_refl eq_refl eq_refl) as (_ & H1 & _).
  exact H1.
Defined.

(** * Properties of the paths *)

(** ** Slices and [rfind] *)

Lemma append_assoc_string (a b c : string) :
  ((a ++ b) ++ c = a ++ (b ++ c))%string.
Proof. induction a as [|x a IH]; cbn [append]; [reflexivity|]. now rewrite IH. Qed.

Lemma append_empty_r (a : string) : (a ++ "" = a)%string.
Proof. induction a as [|x a IH]; cbn [append]; [reflexivity|]. now rewrite IH. Qed.

Lemma length_append (a b : string) :
  String.length (a ++ b) = (String.length a + String.length b)%nat.
Proof.
  induction a as [|x a IH]; cbn [append String.length Nat.add]; auto.
Qed.

Lemma rfind_from_no_sep s i found :
  no_sep s = true -> Str.rfind_from i s Posixpath.sep found = found.
Proof.
  revert i found. unfold no_sep.
  induction s as [|a r IH]; intros i found;
    cbn [Py.all_chars Str.rfind_from]; [reflexivity|].
  intros H. apply andb_true_iff in H as [Ha Hr].
  apply negb_true_iff in Ha. rewrite Ha. now apply IH.
Qed.

Lemma rfind_from_last h t i found :
  no_sep t = true ->
  Str.rfind_from i (h ++ String Posixpath.sep t) Posixpath.sep found
  = (i + Z.of_nat (String.length h))%Z.
Proof.
  intros Ht. revert i found.
  induction h as [|a h IH]; intros i found;
    cbn [append Str.rfind_from String.length].
  - rewrite Ascii.eqb_refl, rfind_from_no_sep by assumption. cbn. lia.
  - rewrite IH. lia.
Qed.

Lemma slice_from_app h t : Str.slice_from (String.length h) (h ++ t) = t.
Proof.
  induction h as [|a h IH]; cbn [String.length append Str.slice_from]; auto.
Qed.

Lemma slice_to_app h t : Str.slice_to (String.length h) (h ++ t) = h.
Proof.
  induction h as [|a h IH]; cbn [String.length append Str.slice_to].
  - now destruct t.
  - now rewrite IH.
Qed.

(** The index after the last separator. *)
Lemma after_last_sep h t :
  no_sep t = true ->
  Z.to_nat (Str.rfind (h ++ String Posixpath.sep t) Posixpath.sep + 1)
  = String.length (h ++ String Posixpath.sep "").
Proof.
  intros Ht. unfold Str.rfind. rewrite rfind_from_last by assumption.
  rewrite length_append. cbn [String.length]. lia.
Qed.

Lemma split_at_sep h t :
  (h ++ String Posixpath.sep t
   = (h ++ String Posixpath.sep "") ++ t)%string.
Proof. now rewrite append_assoc_string. Qed.

Lemma basename_after_sep h t :
  no_sep t = true -> Posixpath.basename (h ++ String Posixpath.sep t) = t.
Proof.
  intros Ht. unfold Posixpath.basename. cbv zeta.
  rewrite (after_last_sep h t Ht), (split_at_sep h t).
  apply slice_from_app.
Qed.

Lemma no_sep_not_startswith name :
  no_sep name = true ->
  Py.startswith name (String Posixpath.sep "") = false.
Proof.
  unfold no_sep, Py.startswith. destruct name as [|a r]; [reflexivity|].
  cbn [Py.all_chars String.prefix]. intros H.
  apply andb_true_iff in H as [Ha _]. apply negb_true_iff in Ha.
  destruct (ascii_dec Posixpath.sep a) as [<-|]; [|reflexivity].
  now rewrite Ascii.eqb_refl in Ha.
Qed.

Lemma basename_no_sep name :
  no_sep name = true -> Posixpath.basename name = name.
Proof.
  intros H. unfold Posixpath.basename, Str.rfind. cbv zeta.
  now rewrite rfind_from_no_sep.
Qed.

Lemma endswith_sep_split s :
  Str.endswith s (String Posixpath.sep "") = true ->
  exists h, s = (h ++ String Posixpath.sep "")%string.
Proof.
  induction s as [|a r IH]; cbn [Str.endswith]; [discriminate|].
  intros H. apply orb_true_iff in H as [H|H].
  - apply String.eqb_eq in H. exists ""%string. exact H.
  - destruct (IH H) as [h ->]. now exists (String a h).
Qed.

Lemma endswith_sep_app h :
  Str.endswith (h ++ String Posixpath.sep "") (String Posixpath.sep "")
  = true.
Proof.
  induction h as [|a h IH]; cbn [append Str.endswith].
  - reflexivity.
  - rewrite IH. apply orb_true_r.
Qed.

(** The last component of a joined path is the name joined, when the
    name holds no separator. *)
Lemma basename_join folder name :
  no_sep name = true ->
  Posixpath.basename (Posixpath.join folder [name]) = name.
Proof.
  intros H. unfold Posixpath.join. cbn [fold_left].
  unfold Posixpath.join_step. rewrite (no_sep_not_startswith _ H).
  destruct (Py.is_empty folder) eqn:E.
  - destruct folder; [|discriminate]. cbn [orb append].
    now apply basename_no_sep.
  - cbn [orb].
    destruct (Str.endswith folder (String Posixpath.sep "")) eqn:S.
    + apply endswith_sep_split in S as [h ->].
      rewrite append_assoc_string. cbn [append].
      now apply basename_after_sep.
    + now apply basename_after_sep.
Qed.

(** ** [dirname] of a joined path *)

Lemma rstrip_char_app_sep d :
  Str.rstrip_char Posixpath.sep (d ++ String Posixpath.sep "")
  = Str.rstrip_char Posixpath.sep d.
Proof.
  induction d as [|a d IH]; cbn [append Str.rstrip_char].
  - reflexivity.
  - now rewrite IH.
Qed.

Lemma all_sep_endswith s :
  s <> ""%string ->
  s = Str.times Posixpath.sep (String.length s) ->
  Str.endswith s (String Posixpath.sep "") = true.
Proof.
  induction s as [|a r IH]; [congruence|]. intros _.
  cbn [String.length Str.times Str.endswith]. intros [= -> Hr].
  destruct r as [|b r]; [reflexivity|].
  rewrite IH; [apply orb_true_r|discriminate|assumption].
Qed.

Lemma all_sep_app d :
  (d ++ String Posixpath.sep "")%string
  = Str.times Posixpath.sep (String.length (d ++ String Posixpath.sep "")) ->
  d = Str.times Posixpath.sep (String.length d).
Proof.
  induction d as [|a d IH]; cbn [append String.length Str.times];
    [reflexivity|].
  intros [= -> H]. now rewrite <- (IH H).
Qed.

Lemma dirname_after_sep h t :
  no_sep t = true ->
  Posixpath.dirname (h ++ String Posixpath.sep t)
  = let head := (h ++ String Posixpath.sep "")%string in
    if negb (String.eqb head
                        (Str.times Posixpath.sep (String.length head)))
    then Str.rstrip_char Posixpath.sep head
    else head.
Proof.
  intros Ht. unfold Posixpath.dirname. cbv zeta.
  rewrite (after_last_sep h t Ht), (split_at_sep h t), slice_to_app.
  destruct h; reflexivity.
Qed.

Lemma dirname_no_sep t : no_sep t = true -> Posixpath.dirname t = ""%string.
Proof.
  intros H. unfold Posixpath.dirname, Str.rfind. cbv zeta.
  rewrite rfind_from_no_sep by assumption. now destruct t.
Qed.

(** The folder of a path made by joining [d] and a name without a
    separator: [d] without its trailing separators, or [d] itself when
    it is made of separators only. *)
Lemma dirname_join d name :
  no_sep name = true ->
  Posixpath.dirname (Posixpath.join_step d name)
  = if String.eqb d (Str.times Posixpath.sep (String.length d))
    then d
    else Str.rstrip_char Posixpath.sep d.
Proof.
  intros H. unfold Posixpath.join_step.
  rewrite (no_sep_not_startswith _ H).
  destruct d as [|a r]; [cbn [Py.is_empty orb append]; now apply dirname_no_sep|].
  cbn [Py.is_empty orb]. set (d := String a r).
  destruct (Str.endswith d (String Posixpath.sep "")) eqn:S.
  - apply endswith_sep_split in S as [h Hd]. rewrite Hd.
    rewrite append_assoc_string. cbn [append].
    rewrite (dirname_after_sep _ _ H). cbv zeta.
    now destruct (String.eqb _ _).
  - rewrite (dirname_after_sep _ _ H). cbv zeta.
    assert (String.eqb d (Str.times Posixpath.sep (String.length d)) = false)
      as E1.
    { apply String.eqb_neq. intros E.
      rewrite (all_sep_endswith d) in S; [discriminate|discriminate|exact E]. }
    assert (String.eqb (d ++ String Posixpath.sep "")
                       (Str.times Posixpath.sep
                          (String.length (d ++ String Posixpath.sep "")))
            = false) as E2.
    { apply String.eqb_neq. intros E. apply all_sep_app in E.
      apply String.eqb_neq in E1. contradiction. }
    rewrite E1, E2. cbn [negb]. apply rstrip_char_app_sep.
Qed.

(** X13.  The folder of the log that [monitor_simulation] takes from
    the path built by the entry point is the base folder joined with
    the simulation folder, without its trailing separators (or as it
    is when it is made of separators only), when the name of the log
    file holds no separator. *)
Theorem log_folder_of_joined_path base_dir simulation_folder logfile :
  no_sep logfile = true ->
  base_remote_dir_log
    (remote_log_full_path base_dir simulation_folder logfile)
  = let d := Posixpath.join base_dir [simulation_folder] in
    if String.eqb d (Str.times Posixpath.sep (String.length d)) then d
    else Str.rstrip_char Posixpath.sep d.
Proof.
  intros H. unfold base_remote_dir_log, remote_log_full_path.
  unfold Posixpath.join. cbn [fold_left]. cbv zeta.
  now apply dirname_join.
Qed.

Lemma log_folder_of_joined_path_witness :
  base_remote_dir_log (remote_log_full_path "/home/cfd" "Grid0/" "run.log")
  = "/home/cfd/Grid0"%string.
Proof.
  rewrite (log_folder_of_joined_path "/home/cfd" "Grid0/" "run.log").
  - vm_compute. reflexivity.
  - vm_compute. reflexivity.
Defined.

(** * Properties of [find_latest_image_in_remote_folder] *)

(** The entry of the newest image. *)
Lemma max_loop_newest folder rest :
  forall m r,
    max_loop (mkImage (Posixpath.join folder [filename m]) (st_mtime m))
             (map (fun attr =>
                     mkImage (Posixpath.join folder [filename attr])
                             (st_mtime attr)) rest)
    = Some r ->
    (r = mkImage (Posixpath.join folder [filename m]) (st_mtime m) /\
     (rest = [] \/
      exists mv, st_mtime m = Some mv /\
                 Forall (fun a => exists x, st_mtime a = Some x /\ (x <= mv)%Z)
                        rest))
    \/
    (exists pre a post mv av,
        rest = pre ++ a :: post /\
        r = mkImage (Posixpath.join folder [filename a]) (st_mtime a) /\
        st_mtime m = Some mv /\ st_mtime a = Some av /\ (mv < av)%Z /\
        Forall (fun b => exists x, st_mtime b = Some x /\ (x < av)%Z) pre /\
        Forall (fun b => exists x, st_mtime b = Some x /\ (x <= av)%Z) post).
Proof.
  induction rest as [|item rest IH]; intros m r; cbn [map max_loop mtime].
  - intros [= <-]. left. auto.
  - destruct (st_mtime item) as [v|] eqn:Ev; [|discriminate].
    destruct (st_mtime m) as [mv|] eqn:Em; [|discriminate].
    destruct (v >? mv)%Z eqn:C; intros H.
    + apply Z.gtb_lt in C. right. rewrite <- Ev in H.
      destruct (IH item r H)
        as [[-> Hall]|(pre & a & post & iv & av & -> & -> & Hi & Ha & Hlt
                       & Hpre & Hpost)].
      * exists [], item, rest, mv, v. cbn [app].
        split; [reflexivity|]. split; [reflexivity|].
        split; [reflexivity|]. split; [assumption|]. split; [assumption|].
        split; [constructor|].
        destruct Hall as [->|(x & Hx & Hall)]; [constructor|].
        rewrite Ev in Hx. injection Hx as <-. exact Hall.
      * rewrite Ev in Hi. injection Hi as <-.
        exists (item :: pre), a, post, mv, av. cbn [app].
        split; [reflexivity|]. split; [reflexivity|].
        split; [reflexivity|]. split; [assumption|]. split; [lia|].
        split; [|assumption].
        constructor; [|assumption]. exists v. split; [assumption|lia].
    + rewrite Z.gtb_ltb in C. apply Z.ltb_ge in C. rewrite <- Em in H.
      destruct (IH m r H)
        as [[-> Hall]|(pre & a & post & mv' & av & -> & -> & Hm & Ha & Hlt
                       & Hpre & Hpost)].
      * left. rewrite Em. split; [reflexivity|]. right. exists mv.
        split; [reflexivity|]. constructor; [eauto|].
        destruct Hall as [->|(x & Hx & Hall)]; [constructor|].
        rewrite Em in Hx. injection Hx as <-. exact Hall.
      * rewrite Em in Hm. injection Hm as <-. right.
        exists (item :: pre), a, post, mv, av. cbn [app].
        split; [reflexivity|]. split; [reflexivity|].
        split; [reflexivity|]. split; [assumption|]. split; [assumption|].
        split; [|assumption].
        constructor; [|assumption]. exists v. split; [assumption|lia].
Qed.

(** When the loop of [max] raises. *)
Lemma max_loop_raises items :
  forall m,
    max_loop m items = None <->
    items <> [] /\ Exists (fun x => mtime x = None) (m :: items).
Proof.
  induction items as [|item rest IH]; intros m; cbn [max_loop].
  - split; [discriminate|]. intros [H _]. congruence.
  - destruct (mtime item) as [v|] eqn:Ev.
    + destruct (mtime m) as [mv|] eqn:Em.
      * rewrite IH. split.
        -- intros [Hne Hex]. split; [discriminate|].
           apply Exists_cons_tl. apply Exists_cons in Hex as [Hx|Hex].
           ++ destruct (v >? mv)%Z; congruence.
           ++ now apply Exists_cons_tl.
        -- intros [_ Hex]. apply Exists_cons in Hex as [Hx|Hex];
             [congruence|].
           apply Exists_cons in Hex as [Hx|Hex]; [congruence|].
           split; [|now apply Exists_cons_tl].
           intros ->. inversion Hex.
      * split; [|reflexivity]. intros _. split; [discriminate|].
        now apply Exists_cons_hd.
    + split; [|reflexivity]. intros _. split; [discriminate|].
      apply Exists_cons_tl. now apply Exists_cons_hd.
Qed.

Lemma image_name_not_empty attr : is_image attr = true -> filename attr <> ""%string.
Proof.
  unfold is_image. intros H E. rewrite E in H. vm_compute in H. discriminate.
Qed.

Lemma join_not_empty folder name :
  name <> ""%string -> Posixpath.join folder [name] <> ""%string.
Proof.
  intros Hn. unfold Posixpath.join, Posixpath.join_step. cbn [fold_left].
  destruct (Py.startswith name (String Posixpath.sep "")); [assumption|].
  destruct (Py.is_empty folder || Str.endswith folder (String Posixpath.sep ""));
    destruct folder as [|a r]; cbn [append]; try discriminate; assumption.
Qed.

(** X14.  The function gives [None] in three cases only: the listing of
    the folder raises; no entry of the folder has the name of an image;
    or there are two images or more and the modification time of one of
    them is [None], so that [max] cannot compare them. *)
Theorem no_latest_image_cases sftp folder :
  find_latest_image_in_remote_folder sftp folder = None <->
  match listdir_attr sftp folder with
  | None => True
  | Some contents =>
      filter is_image contents = [] \/
      ((2 <= List.length (filter is_image contents))%nat /\
       Exists (fun attr => st_mtime attr = None) (filter is_image contents))
  end.
Proof.
  unfold find_latest_image_in_remote_folder, image_files_attrs.
  destruct (listdir_attr sftp folder) as [contents|]; [|tauto].
  destruct (filter is_image contents) as [|first rest]; cbn [map].
  - split; auto.
  - set (f := fun attr => mkImage (Posixpath.join folder [filename attr])
                                  (st_mtime attr)).
    pose proof (max_loop_raises (map f rest) (f first)) as R.
    change (f first :: map f rest) with (map f (first :: rest)) in R.
    rewrite Exists_map in R.
    change (mkImage (Posixpath.join folder [filename first])
                    (st_mtime first)) with (f first).
    destruct (max_loop (f first) (map f rest)) as [item|].
    + split; [discriminate|]. intros [H|[Hlen Hex]]; [discriminate|].
      destruct R as [_ R].
      assert (Some item = None) as Habs; [|discriminate Habs].
      apply R. split; [|exact Hex].
      destruct rest; [cbn in Hlen; lia|cbn [map]; discriminate].
    + split; [|reflexivity]. intros _. right.
      destruct R as [R _]. destruct (R eq_refl) as [Hne Hex].
      split; [|exact Hex].
      destruct rest; [now elim Hne|cbn [List.length]; lia].
Qed.

(** X15.  A path returned is the folder joined with the name of an
    image of the listing: the first, in the order of the listing, among
    those of the greatest modification time.  It is never the empty
    string, and its last component is that name when the name holds no
    separator. *)
Theorem latest_image_is_first_newest sftp folder p :
  find_latest_image_in_remote_folder sftp folder = Some p ->
  exists contents pre attr post,
    listdir_attr sftp folder = Some contents /\
    filter is_image contents = pre ++ attr :: post /\
    p = Posixpath.join folder [filename attr] /\
    p <> ""%string /\
    (no_sep (filename attr) = true ->
     Posixpath.basename p = filename attr) /\
    ((pre = [] /\ post = []) \/
     exists av,
       st_mtime attr = Some av /\
       Forall (fun b => exists x, st_mtime b = Some x /\ (x < av)%Z) pre /\
       Forall (fun b => exists x, st_mtime b = Some x /\ (x <= av)%Z) post).
Proof.
  unfold find_latest_image_in_remote_folder, image_files_attrs.
  destruct (listdir_attr sftp folder) as [contents|]; [|discriminate].
  destruct (filter is_image contents) as [|first rest] eqn:F;
    [discriminate|].
  cbn [map].
  destruct (max_loop _ _) as [item|] eqn:M; [|discriminate].
  intros [= <-]. exists contents.
  assert (forall attr, In attr (first :: rest) ->
                       Posixpath.join folder [filename attr] <> ""%string)
    as Hne.
  { intros attr Hin. apply join_not_empty, image_name_not_empty.
    rewrite <- F in Hin. now apply filter_In in Hin. }
  destruct (max_loop_newest folder rest first item M)
    as [[-> Hall]|(pre & a & post & mv & av & -> & -> & Hm & Ha & Hlt
                   & Hpre & Hpost)]; cbn [path].
  - exists [], first, rest. cbn [app].
    split; [reflexivity|]. split; [exact F|]. split; [reflexivity|].
    split; [apply Hne; now left|].
    split; [apply basename_join|].
    destruct Hall as [->|(mv & Hm & Hall)]; [now left|].
    right. exists mv. split; [assumption|]. split; [constructor|assumption].
  - exists (first :: pre), a, post.
    split; [reflexivity|]. split; [exact F|]. split; [reflexivity|].
    split; [apply Hne; right; apply in_or_app; right; now left|].
    split; [apply basename_join|].
    right. exists av. split; [assumption|]. split; [|assumption].
    constructor; [|assumption]. exists mv. split; [assumption|lia].
Qed.

Lemma latest_image_is_first_newest_witness :
  exists contents pre attr post,
    listdir_attr (client_listing pressure_folder) "/sim/Pressure"
    = Some contents /\
    filter is_image contents = pre ++ attr :: post /\
    "/sim/Pressure/scene_0002.PNG"%string
    = Posixpath.join "/sim/Pressure" [filename attr] /\
    "/sim/Pressure/scene_0002.PNG"%string <> ""%string /\
    (no_sep (filename attr) = true ->
     Posixpath.basename "/sim/Pressure/scene_0002.PNG" = filename attr) /\
    ((pre = [] /\ post = []) \/
     exists av,
       st_mtime attr = Some av /\
       Forall (fun b => exists x, st_mtime b = Some x /\ (x < av)%Z) pre /\
       Forall (fun b => exists x, st_mtime b = Some x /\ (x <= av)%Z) post).
Proof.
  apply (latest_image_is_first_newest
           (client_listing pressure_folder) "/sim/Pressure"
           "/sim/Pressure/scene_0002.PNG").
  vm_compute. reflexivity.
Defined.

(** * Properties of what [plot_data] draws *)

(** ** The limits of the residual plot *)

Lemma index_nonneg {A} (l : list A) k :
  index l (Z.of_nat k) = nth_error l k.
Proof.
  unfold index. destruct (0 <=? Z.of_nat k)%Z eqn:E.
  - now rewrite Nat2Z.id.
  - apply Z.leb_gt in E. lia.
Qed.

Lemma nth_error_skipn_hd {A} (l : list A) k d :
  (k < List.length l)%nat -> nth_error l k = Some (hd d (skipn k l)).
Proof.
  revert k. induction l as [|a l IH]; intros k; cbn [List.length].
  - lia.
  - destruct k as [|k]; cbn [nth_error skipn hd]; [reflexivity|].
    intros H. apply IH. lia.
Qed.

Lemma nth_error_last {A} (l : list A) a d :
  nth_error (a :: l) (List.length l) = Some (last (a :: l) d).
Proof.
  revert a. induction l as [|b l IH]; intros a; [reflexivity|].
  cbn [List.length nth_error]. rewrite IH. reflexivity.
Qed.

Lemma index_minus_one {A} (l : list A) a d :
  index (a :: l) (-1) = Some (last (a :: l) d).
Proof.
  unfold index. cbn [List.length].
  replace (Z.of_nat (S (List.length l)) + -1)%Z
    with (Z.of_nat (List.length l)) by lia.
  change (0 <=? -1)%Z with false. cbv iota.
  destruct (0 <=? Z.of_nat (List.length l))%Z eqn:E.
  - rewrite Nat2Z.id. apply nth_error_last.
  - apply Z.leb_gt in E. lia.
Qed.

(** X16.  The two indexings of lines 154 and 155 never raise: for a list
    of iterations that is not empty the x axis of the residual plot
    runs from the first of its last fifty entries (from its first entry
    when it has fewer) to its last entry, and for an empty list the
    limits are left alone. *)
Theorem residual_xlim_window iterations :
  residual_xlim iterations
  = Some (match iterations with
          | [] => None
          | first :: _ =>
              Some (hd first
                       (skipn (List.length iterations - 50) iterations),
                    last iterations first)
          end).
Proof.
  unfold residual_xlim. destruct iterations as [|first rest]; [reflexivity|].
  cbn [is_nil]. set (l := first :: rest).
  replace (Z.max 0 (Z.of_nat (List.length l) - 50))
    with (Z.of_nat (List.length l - 50)) by lia.
  rewrite index_nonneg.
  rewrite (nth_error_skipn_hd l _ first)
    by (unfold l; cbn [List.length]; lia).
  unfold l. now rewrite (index_minus_one rest first first).
Qed.

(** ** The residual curves *)

Lemma any_number_app l1 l2 :
  any_number (l1 ++ l2) = any_number l1 || any_number l2.
Proof. apply existsb_app. Qed.

Lemma any_number_repeat_nan n : any_number (repeat Py.nan n) = false.
Proof. induction n as [|n IH]; [reflexivity|]. exact IH. Qed.

Lemma any_number_firstn n l :
  any_number l = false -> any_number (firstn n l) = false.
Proof.
  revert n. induction l as [|v l IH]; intros [|n]; auto.
  cbn [firstn]. unfold any_number. cbn [existsb].
  intros H. apply orb_false_iff in H as [-> H]. now apply (IH n).
Qed.

Lemma any_number_pad_to n l :
  any_number l = false -> any_number (pad_to n l) = false.
Proof.
  intros H. unfold pad_to. apply any_number_firstn.
  now rewrite any_number_app, H, any_number_repeat_nan.
Qed.

Lemma length_pad_to n l : List.length (pad_to n l) = n.
Proof.
  unfold pad_to.
  rewrite length_firstn, length_app, repeat_length. lia.
Qed.

(** The column of a field outside the residual layout after a row: as
    it was, or with one more NaN. *)
Lemma row_residual_outside_layout cols vs s f :
  get (residual_headers_map s) f = None ->
  get (residuals_data (row_closed_form cols vs s)) f
  = get (residuals_data s) f \/
  exists l, get (residuals_data s) f = Some l /\
            get (residuals_data (row_closed_form cols vs s)) f
            = Some (l ++ [Py.nan]).
Proof.
  intros Hm. apply get_none_not_in_keys in Hm.
  pose proof (fill_unchanged vs (residual_headers_map s) (residuals_data s)
                             f Hm) as Hfill.
  row_cases cols vs s; project_state; cbn [fst] in Hfill; auto.
  - set (s2 := set_residuals_data
                 (set_iterations s (iterations s ++ [n])) d).
    destruct (handler_columns_get s2 f) as [E|(l & Hl & _ & E)];
      change (residuals_data s2) with d in *; rewrite E.
    + auto.
    + right. exists l. split; [congruence|reflexivity].
  - set (s2 := with_sample
                 (set_residuals_data
                    (set_iterations s (iterations s ++ [n])) d) n p).
    destruct (handler_columns_get s2 f) as [E|(l & Hl & _ & E)];
      change (residuals_data s2) with d in *; rewrite E.
    + auto.
    + right. exists l. split; [congruence|reflexivity].
  - destruct (handler_columns_get s f) as [E|(l & Hl & _ & E)];
      rewrite E; eauto.
Qed.

(** A field that no header line names is never in the residual layout,
    and its column holds nothing but NaN. *)
Lemma scan_unnamed_residual cols f lines :
  named_in_header cols f lines = false ->
  get (residual_headers_map (fst (scan cols lines (init cols)))) f = None /\
  forall l,
    get (residuals_data (fst (scan cols lines (init cols)))) f = Some l ->
    any_number l = false.
Proof.
  intros Hno.
  assert (forall raw, In raw lines -> is_header cols (Py.strip raw) = true ->
                      ~ In f (full_headers_list_parsed (Py.strip raw)))
    as Hno'.
  { intros raw Hin Hh. apply mem_false.
    unfold named_in_header in Hno.
    destruct (mem f (full_headers_list_parsed (Py.strip raw))) eqn:E;
      [|reflexivity].
    assert (existsb (fun raw => is_header cols (Py.strip raw)
                                && mem f (full_headers_list_parsed
                                            (Py.strip raw))) lines = true)
      as Hex.
    { apply existsb_exists. exists raw. now rewrite Hh, E. }
    congruence. }
  apply (scan_preserves_in cols
           (fun s => get (residual_headers_map s) f = None /\
                     forall l, get (residuals_data s) f = Some l ->
                               any_number l = false));
    [|apply wf_init|].
  - intros raw s Hin W [Hm Hd]. unfold process_line.
    destruct (classify cols s raw) as [|g|line|vs|] eqn:C.
    + cbn. auto.
    + destruct (Py.float_ g); cbn; auto.
    + cbn [fst].
      pose proof (classify_header_is_header _ _ _ _ C) as Hh.
      apply classify_header_line in C. subst line.
      destruct (read_header_layouts cols (Py.strip raw) s) as (H & _ & _).
      split.
      * destruct (existsb _ (full_headers_list_parsed (Py.strip raw))).
        -- rewrite H, (last_index_from_not_in _ _ _ (Hno' raw Hin Hh)).
           now destruct (mem f expected_residual_cols).
        -- now rewrite H.
      * unfold read_header.
        destruct (header_maps cols 0 (full_headers_list_parsed (Py.strip raw))
                              [] []).
        exact Hd.
    + rewrite (process_row_closed _ _ _ W). cbn [fst].
      destruct (row_frame cols vs s) as (F1 & _). rewrite F1.
      split; [assumption|]. intros l Hl.
      destruct (row_residual_outside_layout cols vs s f Hm)
        as [E|(l0 & Hl0 & E)]; rewrite E in Hl.
      * auto.
      * injection Hl as <-. rewrite any_number_app, (Hd _ Hl0). reflexivity.
    + cbn. auto.
  - split; [reflexivity|]. intros l Hl.
    unfold init in Hl. cbn [residuals_data] in Hl.
    apply get_init_residuals in Hl. now subst l.
Qed.

Lemma get_filter_none (g : string * list spec_float -> bool) (d : columns) f :
  (forall l, In (f, l) d -> g (f, l) = false) ->
  get (filter g d) f = None.
Proof.
  induction d as [|[k v] d IH]; intros H; [reflexivity|].
  cbn [filter]. destruct (g (k, v)) eqn:G.
  - cbn [get]. destruct (String.eqb_spec k f) as [->|Hne].
    + rewrite (H v) in G; [discriminate|now left].
    + apply IH. intros l Hin. apply H. now right.
  - apply IH. intros l Hin. apply H. now right.
Qed.

(** X17.  A residual field that no header line of the log names gets no
    curve in the residual plot: its column holds only the NaN that the
    handler and the final padding put there. *)
Theorem residual_field_without_header_is_not_drawn text cols f :
  named_in_header cols f (file_lines text) = false ->
  get (residual_curves
         (out_residuals (parse_starccm_logfile (Readable text) cols))) f
  = None.
Proof.
  intros Hno. rewrite parse_readable.
  destruct (existsb marker_fails (file_lines text)); [reflexivity|].
  destruct (scan_unnamed_residual cols f (file_lines text) Hno) as [_ Hd].
  pose proof (scan_wf cols (file_lines text) (init cols) (wf_init cols)) as W.
  set (s := fst (scan cols (file_lines text) (init cols))) in *.
  assert (NoDup (keys (out_residuals (finish s)))) as Hnd.
  { unfold finish. cbn [out_residuals].
    destruct (is_nil (iterations s)); rewrite ?keys_map_values;
      rewrite (wf_residual_keys _ _ W); apply NoDup_expected_residual_cols. }
  apply get_filter_none. intros l Hin. cbn [snd].
  apply (in_get_nodup _ _ _ Hnd) in Hin.
  unfold finish in Hin. cbn [out_residuals] in Hin.
  destruct (is_nil (iterations s)); [now apply Hd|].
  rewrite get_map_values in Hin.
  destruct (get (residuals_data s) f) as [l0|] eqn:E; [|discriminate].
  cbn [option_map] in Hin. injection Hin as <-.
  apply any_number_pad_to. now apply Hd.
Qed.

Lemma residual_field_without_header_is_not_drawn_witness :
  get (residual_curves
         (out_residuals
            (parse_starccm_logfile (Readable scenario_A_spaced) []))) "Tke"
  = None.
Proof.
  apply residual_field_without_header_is_not_drawn. vm_compute. reflexivity.
Defined.

(** X18.  Every curve of the residual plot has one point for each
    iteration, whatever the input: the x and the y values passed to
    [plot] at line 149 have the same length. *)
Theorem residual_curves_have_a_point_per_iteration src cols :
  Forall (fun kv =>
            List.length (snd kv)
            = List.length (out_iterations (parse_starccm_logfile src cols)))
         (residual_curves
            (out_residuals (parse_starccm_logfile src cols))).
Proof.
  destruct src as [| |text]; try constructor.
  rewrite parse_readable.
  destruct (existsb marker_fails (file_lines text)); [constructor|].
  pose proof (scan_wf cols (file_lines text) (init cols) (wf_init cols)) as W.
  set (s := fst (scan cols (file_lines text) (init cols))) in *.
  apply Forall_forall. intros [k l] Hin. cbn [snd].
  apply filter_In in Hin as [Hin Hany]. cbn [snd] in Hany.
  unfold finish in *. cbn [out_residuals out_iterations] in *.
  destruct (is_nil (iterations s)) eqn:N.
  - assert (NoDup (keys (residuals_data s))) as Hnd.
    { rewrite (wf_residual_keys _ _ W). apply NoDup_expected_residual_cols. }
    apply (in_get_nodup _ _ _ Hnd) in Hin.
    pose proof (wf_residual_len _ _ W _ _ Hin) as Hlen.
    destruct (iterations s); [|discriminate].
    destruct l; [reflexivity|cbn [List.length] in Hlen; lia].
  - apply in_map_iff in Hin as ([k0 l0] & [= <- <-] & _).
    apply length_pad_to.
Qed.

(** X19.  On the outputs of the parser the second half of the test of
    line 138 adds nothing: when there is no iteration there is no
    report time either, so [plot_data] returns at once exactly when
    [iterations] is empty. *)
Theorem nothing_to_plot_without_iterations src cols :
  nothing_to_plot (out_iterations (parse_starccm_logfile src cols))
                  (out_report_times (parse_starccm_logfile src cols))
  = is_nil (out_iterations (parse_starccm_logfile src cols)).
Proof.
  destruct src as [| |text]; try reflexivity.
  rewrite parse_readable.
  destruct (existsb marker_fails (file_lines text)); [reflexivity|].
  pose proof (scan_wf cols (file_lines text) (init cols) (wf_init cols)) as W.
  assert (subseq (report_iterations
                    (fst (scan cols (file_lines text) (init cols))))
                 (iterations
                    (fst (scan cols (file_lines text) (init cols))))) as Hs.
  { apply (scan_preserves cols
             (fun s => subseq (report_iterations s) (iterations s)));
      [|apply wf_init|constructor].
    intros raw s W' H. now apply process_line_subseq. }
  set (s := fst (scan cols (file_lines text) (init cols))) in *.
  unfold finish, nothing_to_plot. cbn [out_iterations out_report_times].
  pose proof (wf_times_len _ _ W) as Hlen.
  destruct (iterations s); [|reflexivity].
  inversion Hs as [E| |]. rewrite <- E in Hlen.
  destruct (report_times s); [reflexivity|discriminate].
Qed.
